(** * Garage system API: booking lifecycle, availability, payments, reviews

    A shallow embedding of the request handlers of the garage marketplace
    backend (Express + Mongoose) and proofs about them.

    The embedding:
    - [Js]: the JavaScript primitives the handlers rely on (strings by
      their UTF-16 code units, their comparison, [trim] and [split];
      numbers as doubles that hold whole numbers, [parseInt] and the
      string of a number);
    - [Garage], [Service], [Booking], [Review], [Payment], [User]: the
      Mongoose schemas as records, and [Db], the collections;
    - [Auth]: middleware/auth.middleware.js ([protect], [authorize]);
    - [BookingCtl], [PaymentCtl], [ReviewCtl]: the controllers;
    - [Routes]: routes/booking.routes.js;
    - [PaymentOps], [PaymentRoutes]: payment initialisation, refund and
      retry, and routes/payment.routes.js;
    - [BookingLists], [Attachments]: the list and attachment handlers of
      the booking controller;
    - [GarageCtl], [UserCtl], [ServiceCtl]: toggle, delete and restore of
      a garage, role change and hard delete of a user, and
      [generateTimeSlots];
    - [RateLimit]: [authRateLimiter].

    Every handler is a function from the request, the authenticated
    principal, the clock and the database to a response and the database
    after the request.  A handler that aborts its transaction, or throws
    before it commits, returns the database it was given, but for what a
    hook has written without the session of the transaction.

    Mongoose is modelled as far as the handlers rely on it: [findOne]
    returns the first matching document, [save] and update queries write
    the paths the schema declares and no others (strict mode, the default,
    which none of the schemas switches off), and the [save] hooks of
    the garage and payment schemas run on [save].

    The second part names the vocabulary of the properties and the
    scenarios they are checked on; the third part holds the proofs. *)

From Stdlib Require Import QArith ZArith List String Ascii Bool Lia.
From Stdlib Require Import DecimalString DecimalPos.
Import ListNotations.
Open Scope string_scope.
Open Scope Z_scope.

(* ================================================================== *)
(** ** JavaScript primitives *)
(* ================================================================== *)

Module Js.

(** *** Strings

    A JavaScript string is a sequence of UTF-16 code units.  A string is
    written here by the bytes of its UTF-8 encoding; [points] gives its
    code points and [units] its code units.  For the characters of ASCII
    a byte, a code point and a code unit are the same number.  (Bytes
    that are no UTF-8 encoding stand for no JavaScript string; each such
    byte is read as U+FFFD.) *)

Definition byte (c : ascii) : N := N_of_ascii c.

(** [lo <= n < hi] *)
Definition between (lo hi n : N) : bool := (N.leb lo n && N.ltb n hi)%bool.

Definition single (a : ascii) : bool := N.ltb (byte a) 128.
Definition continues (a : ascii) : bool := between 128 192 (byte a).
Definition lead2 (a : ascii) : bool := between 192 224 (byte a).
Definition lead3 (a : ascii) : bool := between 224 240 (byte a).
Definition lead4 (a : ascii) : bool := between 240 248 (byte a).

Definition point2 (a b : ascii) : N :=
  ((byte a - 192) * 64 + (byte b - 128))%N.
Definition point3 (a b c : ascii) : N :=
  ((byte a - 224) * 4096 + (byte b - 128) * 64 + (byte c - 128))%N.
Definition point4 (a b c d : ascii) : N :=
  ((byte a - 240) * 262144 + (byte b - 128) * 4096 + (byte c - 128) * 64
   + (byte d - 128))%N.

Definition replacement : N := 65533.

Fixpoint points (s : string) : list N :=
  match s with
  | EmptyString => []
  | String a r =>
      if single a then byte a :: points r
      else
        match r with
        | String b r2 =>
            if lead2 a && continues b then point2 a b :: points r2
            else
              match r2 with
              | String c r3 =>
                  if lead3 a && continues b && continues c then
                    point3 a b c :: points r3
                  else
                    match r3 with
                    | String d r4 =>
                        if lead4 a && continues b && continues c
                           && continues d then
                          point4 a b c d :: points r4
                        else replacement :: points r
                    | EmptyString => replacement :: points r
                    end
              | EmptyString => replacement :: points r
              end
        | EmptyString => [replacement]
        end
  end.

(** The code units of a code point: itself, or a surrogate pair from
    U+10000 on. *)
Definition utf16 (p : N) : list N :=
  if N.ltb p 65536 then [p]
  else [(55296 + (p - 65536) / 1024)%N; (56320 + (p - 65536) mod 1024)%N].

Definition units (s : string) : list N := flat_map utf16 (points s).

(** [s.length] *)
Definition length (s : string) : nat := List.length (units s).

(** [a <= b] on two strings: the first code unit that differs decides,
    and a proper prefix comes first. *)
Fixpoint units_leb (a b : list N) : bool :=
  match a, b with
  | [], _ => true
  | _ :: _, [] => false
  | x :: a', y :: b' =>
      if N.ltb x y then true
      else if N.ltb y x then false
      else units_leb a' b'
  end.

Definition leb (a b : string) : bool := units_leb (units a) (units b).

(** [a >= b] and [a <= b] on a string [a] and a value [b] that is either a
    string or [undefined]: strings compare lexicographically by code unit;
    against [undefined] (which converts to NaN) every comparison is
    false. *)
Definition ge (a : string) (b : option string) : bool :=
  match b with
  | Some b' => leb b' a
  | None => false
  end.

Definition le (a : string) (b : option string) : bool :=
  match b with
  | Some b' => leb a b'
  | None => false
  end.

(** The white space of the language (WhiteSpace and LineTerminator), by
    code point: TAB, LF, VT, FF, CR, space, U+00A0, U+1680, U+2000 to
    U+200A, U+2028, U+2029, U+202F, U+205F, U+3000 and U+FEFF.  It is what
    [trim] removes and what [parseInt] skips. *)
Definition is_space (p : N) : bool :=
  (between 9 14 p || N.eqb p 32 || N.eqb p 160 || N.eqb p 5760
   || between 8192 8203 p || N.eqb p 8232 || N.eqb p 8233 || N.eqb p 8239
   || N.eqb p 8287 || N.eqb p 12288 || N.eqb p 65279)%bool.

(** White space of one, two and three bytes; none has four. *)
Definition ws1 (a : ascii) : bool := single a && is_space (byte a).
Definition ws2 (a b : ascii) : bool :=
  lead2 a && continues b && is_space (point2 a b).
Definition ws3 (a b c : ascii) : bool :=
  lead3 a && continues b && continues c && is_space (point3 a b c).

(** The string without the white space it starts with. *)
Fixpoint skip_ws (s : string) : string :=
  match s with
  | EmptyString => EmptyString
  | String a r =>
      if ws1 a then skip_ws r
      else
        match r with
        | String b r2 =>
            if ws2 a b then skip_ws r2
            else
              match r2 with
              | String c r3 => if ws3 a b c then skip_ws r3 else s
              | EmptyString => s
              end
        | EmptyString => s
        end
  end.

(** The same on a string whose bytes are given last byte first. *)
Fixpoint skip_ws_back (s : string) : string :=
  match s with
  | EmptyString => EmptyString
  | String a r =>
      if ws1 a then skip_ws_back r
      else
        match r with
        | String b r2 =>
            if ws2 b a then skip_ws_back r2
            else
              match r2 with
              | String c r3 => if ws3 c b a then skip_ws_back r3 else s
              | EmptyString => s
              end
        | EmptyString => s
        end
  end.

Fixpoint rev_string (acc s : string) : string :=
  match s with
  | EmptyString => acc
  | String c r => rev_string (String c acc) r
  end.

(** [String.prototype.trim]. *)
Definition trim (s : string) : string :=
  rev_string "" (skip_ws_back (rev_string "" (skip_ws s))).

(** [s.split(sep)] for a one-character separator. *)
Fixpoint split_aux (sep : ascii) (cur : string) (s : string) : list string :=
  match s with
  | EmptyString => [rev_string "" cur]
  | String c r =>
      if Ascii.eqb c sep then rev_string "" cur :: split_aux sep "" r
      else split_aux sep (String c cur) r
  end.

Definition split (sep : ascii) (s : string) : list string :=
  split_aux sep "" s.

(** *** Numbers

    A Number is a double.  The numbers of the handlers are whole, and a
    whole number is written here as an integer: one that a double holds,
    so any integer of magnitude up to 2^53 and, beyond, those with a
    significand of 53 bits (below 2^1024, where the doubles end).  [None]
    stands for NaN where a NaN can arise. *)

Definition two53 : Z := 9007199254740992.

(** The double nearest to an integer, the one with the even significand
    when two are equally near: the value of an arithmetic operation
    whose exact result is the integer. *)
Definition double (z : Z) : Z :=
  let a := Z.abs z in
  if a <? two53 then z
  else
    let e := Z.log2 a - 52 in
    let q := Z.shiftr a e in
    let r := a - Z.shiftl q e in
    let half := Z.shiftl 1 (e - 1) in
    let q' :=
      if r <? half then q
      else if half <? r then q + 1
      else if Z.even q then q else q + 1 in
    Z.sgn z * Z.shiftl q' e.

(** [x + y] and [x - y] on two numbers. *)
Definition plus (x y : Z) : Z := double (x + y).
Definition minus (x y : Z) : Z := double (x - y).

(** Value of a character as a digit in the given radix. *)
Definition digit_val (radix : Z) (c : ascii) : option Z :=
  let n := Z.of_N (N_of_ascii c) in
  let v :=
    if (48 <=? n) && (n <=? 57) then Some (n - 48)
    else if (97 <=? n) && (n <=? 122) then Some (n - 87)
    else if (65 <=? n) && (n <=? 90) then Some (n - 55)
    else None in
  match v with
  | Some d => if d <? radix then Some d else None
  | None => None
  end.

(** Longest digit prefix; [None] when there is no digit at all. *)
Fixpoint digits (radix : Z) (acc : option Z) (s : string) : option Z :=
  match s with
  | EmptyString => acc
  | String c r =>
      match digit_val radix c with
      | Some d =>
          digits radix
            (Some (match acc with Some a => a * radix + d | None => d end)) r
      | None => acc
      end
  end.

Definition strip_hex (s : string) : option string :=
  match s with
  | String "0" (String "x" r) => Some r
  | String "0" (String "X" r) => Some r
  | _ => None
  end.

Definition parse_unsigned (s : string) : option Z :=
  match strip_hex s with
  | Some r => digits 16 None r
  | None => digits 10 None s
  end.

(** [parseInt(x)] without a radix on a string; [None] is NaN.  The
    argument is [undefined] when an array index is out of range.  The
    result is the double nearest to the integer that the digits
    denote. *)
Definition parseInt (x : option string) : option Z :=
  match x with
  | None => None
  | Some s =>
      option_map double
        match skip_ws s with
        | String "-" r => option_map Z.opp (parse_unsigned r)
        | String "+" r => parse_unsigned r
        | r => parse_unsigned r
        end
  end.

(** Arithmetic with NaN. *)
Definition mul (a b : option Z) : option Z :=
  match a, b with Some x, Some y => Some (double (x * y)) | _, _ => None end.
Definition add (a b : option Z) : option Z :=
  match a, b with Some x, Some y => Some (plus x y) | _, _ => None end.
Definition sub (a b : option Z) : option Z :=
  match a, b with Some x, Some y => Some (minus x y) | _, _ => None end.
(** [a < b]: false as soon as one side is NaN. *)
Definition lt (a b : option Z) : bool :=
  match a, b with Some x, Some y => x <? y | _, _ => false end.

(** [x || 0] on a number: 0 for NaN, and 0 is 0. *)
Definition or_zero (x : option Z) : Z :=
  match x with Some v => v | None => 0 end.

(** The decimal digits of an integer, with its sign. *)
Definition decimal (z : Z) : string :=
  NilZero.string_of_int (Z.to_int z).

(** The number that [String(x)] denotes for a double [a] from 2^53 on:
    the decimal number with the fewest significant digits among those
    whose nearest double is [a], and of these the nearest to [a] (the one
    with the even last digit when two are equally near).  [p] is the
    power of ten of the last significant digit tried, starting from that
    of the first digit of [a]. *)
Fixpoint shortest (fuel : nat) (p a : Z) : Z :=
  match fuel with
  | O => a
  | S f =>
      let lo := a / p * p in
      let hi := lo + p in
      let ok_lo := double lo =? a in
      let ok_hi := double hi =? a in
      if ok_lo && ok_hi then
        if a - lo <? hi - a then lo
        else if hi - a <? a - lo then hi
        else if Z.even (a / p) then lo else hi
      else if ok_lo then lo
      else if ok_hi then hi
      else shortest f (p / 10) a
  end.

Definition digits_of (a : Z) : nat := String.length (decimal a).

Fixpoint drop_zeros (s : string) : string :=
  match s with
  | String "0" r => drop_zeros r
  | _ => s
  end.

(** The significant digits of a positive integer: its decimal digits
    without the zeros at the end. *)
Definition significant (v : Z) : string :=
  rev_string "" (drop_zeros (rev_string "" (decimal v))).

(** A positive integer of more than 21 digits in exponent form. *)
Definition exponent_form (v : Z) : string :=
  match significant v with
  | String d rest =>
      String d (match rest with
                | EmptyString => EmptyString
                | _ => String "." rest
                end)
      ++ "e+" ++ decimal (Z.of_nat (digits_of v) - 1)
  | EmptyString => EmptyString
  end.

Definition render (a : Z) : string :=
  if a <? two53 then decimal a
  else
    let n := digits_of a in
    let v := shortest n (10 ^ (Z.of_nat n - 1)) a in
    if Nat.leb (digits_of v) 21 then decimal v else exponent_form v.

(** Template-literal rendering and [String(x)] of a whole number. *)
Definition num_to_string (z : Z) : string :=
  if z <? 0 then "-" ++ render (- z) else render z.

Definition show (a : option Z) : string :=
  match a with Some z => num_to_string z | None => "NaN" end.

End Js.

(* ================================================================== *)
(** ** Data model: the Mongoose schemas *)
(* ================================================================== *)

Definition ObjectId := nat.

(** An id as it arrives in a request: absent (falsy), present but not
    castable to an ObjectId, or a well-formed ObjectId. *)
Inductive IdParam :=
| NoId
| BadId
| AnId (i : ObjectId).

(** A date as it arrives in a request body: absent, a value that
    [new Date(...)] turns into the invalid date, or an instant in
    milliseconds since the epoch. *)
Inductive DateParam :=
| NoDate
| BadDate
| ADate (ms : Z).

Inductive Role := admin | car_owner | garage_owner.

Definition Role_eqb (a b : Role) : bool :=
  match a, b with
  | admin, admin | car_owner, car_owner | garage_owner, garage_owner => true
  | _, _ => false
  end.

(** [req.user] as set by [protect]. *)
Record Principal := { id : ObjectId; role : Role }.

Record TimeSlot := { start : string; end_ : string }.

(** models/garage.js *)
Module Garage.

Inductive Status := pending | active | suspended.

(** [daySchema]: open and close are optional strings. *)
Record Day := { open : option string; close : option string; closed : bool }.

Record BusinessHours := {
  monday : Day; tuesday : Day; wednesday : Day; thursday : Day;
  friday : Day; saturday : Day; sunday : Day }.

(** The two counters read by the booking controller.  They are Numbers;
    a counter is given here by the whole number it holds. *)
Record Stats := { totalBookings : Z; completedBookings : Z }.

Record t := {
  _id : ObjectId;
  owner : ObjectId;
  businessHours : BusinessHours;
  status : Status;
  stats : Stats;
  isActive : bool;
  isDeleted : bool;
  creationPayment : option ObjectId;
  paidAt : option Z }.

(** [garage.businessHours[dayOfWeek]]: [undefined] for any other key. *)
Definition day (h : BusinessHours) (dayOfWeek : string) : option Day :=
  if String.eqb dayOfWeek "monday" then Some (monday h)
  else if String.eqb dayOfWeek "tuesday" then Some (tuesday h)
  else if String.eqb dayOfWeek "wednesday" then Some (wednesday h)
  else if String.eqb dayOfWeek "thursday" then Some (thursday h)
  else if String.eqb dayOfWeek "friday" then Some (friday h)
  else if String.eqb dayOfWeek "saturday" then Some (saturday h)
  else if String.eqb dayOfWeek "sunday" then Some (sunday h)
  else None.

Definition is_active (s : Status) : bool :=
  match s with active => true | _ => false end.

Definition trim_day (d : Day) : Day :=
  {| open := option_map Js.trim (open d);
     close := option_map Js.trim (close d);
     closed := closed d |}.

(** [parseInt(x) || 0] on a counter: the number is turned into its
    string, and the digits the string starts with are read back. *)
Definition whole (x : Z) : Z :=
  Js.or_zero (Js.parseInt (Some (Js.num_to_string x))).

(** [garageSchema.pre('save')], on the paths modelled here: business
    hours are trimmed, the counters go through [parseInt(x) || 0] and
    [isActive] follows [status]. *)
Definition pre_save (g : t) : t :=
  let h := businessHours g in
  {| _id := _id g;
     owner := owner g;
     businessHours :=
       {| monday := trim_day (monday h); tuesday := trim_day (tuesday h);
          wednesday := trim_day (wednesday h);
          thursday := trim_day (thursday h);
          friday := trim_day (friday h); saturday := trim_day (saturday h);
          sunday := trim_day (sunday h) |};
     status := status g;
     stats :=
       {| totalBookings := whole (totalBookings (stats g));
          completedBookings := whole (completedBookings (stats g)) |};
     isActive := is_active (status g);
     isDeleted := isDeleted g;
     creationPayment := creationPayment g;
     paidAt := paidAt g |}.

Definition set_stats (g : t) (s : Stats) : t :=
  {| _id := _id g; owner := owner g; businessHours := businessHours g;
     status := status g; stats := s; isActive := isActive g;
     isDeleted := isDeleted g; creationPayment := creationPayment g;
     paidAt := paidAt g |}.

End Garage.

(** models/Service.js *)
Module Service.
Record t := {
  _id : ObjectId;
  garage : ObjectId;
  duration : Z;
  isAvailable : bool;
  isDeleted : bool }.
End Service.

(** models/booking.js *)
Module Booking.

Inductive Status :=
  pending | approved | in_progress | completed | cancelled | rejected.

Definition name (s : Status) : string :=
  match s with
  | pending => "pending"
  | approved => "approved"
  | in_progress => "in_progress"
  | completed => "completed"
  | cancelled => "cancelled"
  | rejected => "rejected"
  end.

Definition Status_eqb (a b : Status) : bool :=
  String.eqb (name a) (name b).

Record VehicleInfo := {
  make : string; model : string; year : option Z; licensePlate : string }.

(** The paths [bookingSchema] declares (plus the two timestamps).  These
    are the only paths a document of this model persists. *)
Record t := {
  _id : ObjectId;
  carOwner : ObjectId;
  garage : ObjectId;
  service : ObjectId;
  bookingDate : Z;
  timeSlot : TimeSlot;
  status : Status;
  vehicleInfo : VehicleInfo;
  notes : string;
  attachments : list string;
  isDeleted : bool;
  createdAt : Z;
  updatedAt : Z }.

(** The names of those paths, as Mongoose's strict mode consults them
    when casting an update document. *)
Definition schema_paths : list string :=
  ["carOwner"; "garage"; "service"; "bookingDate"; "timeSlot"; "status";
   "vehicleInfo"; "notes"; "attachments"; "isDeleted"].

Definition set_status (b : t) (s : Status) (now : Z) : t :=
  {| _id := _id b; carOwner := carOwner b; garage := garage b;
     service := service b; bookingDate := bookingDate b;
     timeSlot := timeSlot b; status := s; vehicleInfo := vehicleInfo b;
     notes := notes b; attachments := attachments b;
     isDeleted := isDeleted b; createdAt := createdAt b;
     updatedAt := now |}.

Definition set_isDeleted (b : t) (d : bool) (now : Z) : t :=
  {| _id := _id b; carOwner := carOwner b; garage := garage b;
     service := service b; bookingDate := bookingDate b;
     timeSlot := timeSlot b; status := status b;
     vehicleInfo := vehicleInfo b; notes := notes b;
     attachments := attachments b; isDeleted := d;
     createdAt := createdAt b; updatedAt := now |}.

(** One element pushed onto [booking.statusHistory]. *)
Record HistoryEntry := {
  h_status : string;
  changedBy : ObjectId;
  reason : string;
  changedAt : Z }.

(** A hydrated document in memory: the schema paths, and the plain
    JavaScript properties the handlers assign on the document object
    without a schema path behind them.  Mongoose never loads or saves
    the latter: after a query they are [undefined], and [save] ignores
    them. *)
Record Doc := {
  paths : t;
  statusHistory : option (list HistoryEntry);
  deletedAt : option Z;
  deletedBy : option ObjectId }.

Definition hydrate (b : t) : Doc :=
  {| paths := b; statusHistory := None; deletedAt := None;
     deletedBy := None |}.

(** [status: { $nin: ['cancelled', 'rejected'] }] *)
Definition occupies (s : Status) : bool :=
  match s with cancelled | rejected => false | _ => true end.

End Booking.

(** models/Review.js *)
Module Review.
Record t := {
  _id : ObjectId;
  carOwner : ObjectId;
  garage : ObjectId;
  booking : ObjectId;
  rating : Q;
  title : string;
  comment : string;
  images : list string;
  isVerified : bool;
  isDeleted : bool }.
End Review.

(** models/Payment.js *)
Module Payment.

Inductive Status := pending | completed | failed | refunded.
Inductive Kind := garage_creation | booking_payment | subscription | other.

(** The body of a provider notification. *)
Record Payload := { tx_ref : string; p_status : string }.

(** [provider.response] is of type Mixed. *)
Inductive Mixed :=
| Init (checkout_url : string)
| Hook (p : Payload).

Record t := {
  _id : ObjectId;
  user : ObjectId;
  paymentType : Kind;
  garageCreation_garage : option ObjectId;
  booking : option ObjectId;
  status : Status;
  transactionId : option string;
  provider_response : option Mixed;
  paidAt : option Z }.

End Payment.

(** models/User.js, the paths the handlers below read or write: [role],
    the permission flag [canCreateGarage], and the pushed entries of
    [garageCreationPayments] as (payment, status). *)
Module User.
Record t := {
  _id : ObjectId;
  role : Role;
  canCreateGarage : bool;
  garageCreationPayments : list (ObjectId * string) }.
End User.

(** The collections.  A collection is the list of its documents in
    natural order, which is the order [findOne] searches. *)
Record Db := {
  garages : list Garage.t;
  services : list Service.t;
  bookings : list Booking.t;
  reviews : list Review.t;
  payments : list Payment.t;
  users : list User.t }.

Definition set_garages (db : Db) (l : list Garage.t) : Db :=
  {| garages := l; services := services db; bookings := bookings db;
     reviews := reviews db; payments := payments db; users := users db |}.
Definition set_bookings (db : Db) (l : list Booking.t) : Db :=
  {| garages := garages db; services := services db; bookings := l;
     reviews := reviews db; payments := payments db; users := users db |}.
Definition set_reviews (db : Db) (l : list Review.t) : Db :=
  {| garages := garages db; services := services db; bookings := bookings db;
     reviews := l; payments := payments db; users := users db |}.
Definition set_payments (db : Db) (l : list Payment.t) : Db :=
  {| garages := garages db; services := services db; bookings := bookings db;
     reviews := reviews db; payments := l; users := users db |}.
Definition set_users (db : Db) (l : list User.t) : Db :=
  {| garages := garages db; services := services db; bookings := bookings db;
     reviews := reviews db; payments := payments db; users := l |}.

(** Replace the document with the given id, in place. *)
Fixpoint replace {A : Type} (key : A -> ObjectId) (x : A) (l : list A)
  : list A :=
  match l with
  | [] => []
  | y :: r => if Nat.eqb (key y) (key x) then x :: r
              else y :: replace key x r
  end.

(** The filter of a lookup by id. *)
Definition by_id {A : Type} (key : A -> ObjectId) (i : ObjectId) (x : A)
  : bool :=
  Nat.eqb (key x) i.

(** A fresh ObjectId: one above every id of the collection. *)
Definition fresh {A : Type} (key : A -> ObjectId) (l : list A) : ObjectId :=
  S (fold_right Nat.max 0%nat (map key l)).

(** What a handler sends: the HTTP status and the [message] of the body. *)
Record Response := { code : nat; message : string }.

Definition reply (c : nat) (m : string) : Response :=
  {| code := c; message := m |}.

(** [x || dflt] on a string that is empty when the field is absent. *)
Definition or_default (x dflt : string) : string :=
  if String.eqb x "" then dflt else x.

(** Collection queries shared by the controllers. *)
Definition Garage_findById (db : Db) (i : ObjectId) : option Garage.t :=
  find (fun g => Nat.eqb (Garage._id g) i) (garages db).

Definition Garage_save (db : Db) (g : Garage.t) : Db :=
  set_garages db (replace Garage._id (Garage.pre_save g) (garages db)).

(** [Garage.exists({ _id, owner })] *)
Definition Garage_exists (db : Db) (i owner : ObjectId) : bool :=
  existsb (fun g => Nat.eqb (Garage._id g) i && Nat.eqb (Garage.owner g) owner)
    (garages db).

Definition Service_findById (db : Db) (i : ObjectId) : option Service.t :=
  find (fun s => Nat.eqb (Service._id s) i) (services db).

Definition Booking_findById (db : Db) (i : ObjectId) : option Booking.t :=
  find (fun b => Nat.eqb (Booking._id b) i) (bookings db).

(** [doc.save()]: only the schema paths reach the collection. *)
Definition Booking_save (db : Db) (d : Booking.Doc) : Db :=
  set_bookings db (replace Booking._id (Booking.paths d) (bookings db)).

(** The slot query of [createBooking] and [checkAvailability]:
    same garage, same instant, same start and end, status outside
    cancelled/rejected, not soft-deleted. *)
Definition slot_taken_by (g : ObjectId) (date : Z) (ts : TimeSlot)
  (b : Booking.t) : bool :=
  Nat.eqb (Booking.garage b) g
  && Z.eqb (Booking.bookingDate b) date
  && String.eqb (start (Booking.timeSlot b)) (start ts)
  && String.eqb (end_ (Booking.timeSlot b)) (end_ ts)
  && Booking.occupies (Booking.status b)
  && negb (Booking.isDeleted b).

Definition existingBooking (db : Db) (g : ObjectId) (date : Z) (ts : TimeSlot)
  : option Booking.t :=
  find (slot_taken_by g date ts) (bookings db).

(* ================================================================== *)
(** ** middleware/auth.middleware.js *)
(* ================================================================== *)

Module Auth.

Section Protect.

(** [jwt.verify(token, secret)] followed by reading [decoded.id];
    [None] when verification throws. *)
Variable jwt_verify : string -> option ObjectId.

Inductive Gate :=
| Next (user : Principal)
| Stop (r : Response).

(** [authorization.split(' ')[1]] *)
Definition bearer_token (authorization : string) : option string :=
  nth_error (Js.split " " authorization) 1.

Definition protect (authorization : option string) (db : Db) : Gate :=
  match authorization with
  | Some h =>
      if String.prefix "Bearer" h then
        match bearer_token h with
        | None =>
            (* token.substring(...) on undefined throws: outer catch *)
            Stop (reply 500 "Server error")
        | Some token =>
            if String.eqb token "" then
              Stop (reply 401 "Not authorized, no token")
            else
              match jwt_verify token with
              | None => Stop (reply 401 "Not authorized, token failed")
              | Some uid =>
                  match find (fun u => Nat.eqb (User._id u) uid) (users db)
                  with
                  | None => Stop (reply 401 "User not found")
                  | Some u =>
                      Next {| id := User._id u; role := User.role u |}
                  end
              end
        end
      else Stop (reply 401 "Not authorized, no token")
  | None => Stop (reply 401 "Not authorized, no token")
  end.

End Protect.

Definition role_name (r : Role) : string :=
  match r with
  | admin => "admin"
  | car_owner => "car_owner"
  | garage_owner => "garage_owner"
  end.

(** [authorize(...roles)] applied to a request that already carries
    [req.user]. *)
Definition authorize (roles : list Role) (user : Principal)
  : option Response :=
  if existsb (Role_eqb (role user)) roles then None
  else Some (reply 403
               ("Role " ++ role_name (role user)
                ++ " is not authorized to access this route")).

End Auth.

(* ================================================================== *)
(** ** controllers/booking.controller.js *)
(* ================================================================== *)

Module BookingCtl.

(** *** createBooking *)

Record CreateReq := {
  garageId : IdParam;
  serviceId : IdParam;
  bookingDate : DateParam;
  timeSlot : option TimeSlot;
  vehicleInfo : option Booking.VehicleInfo;
  notes : string }.

(** Schema validation run by [Booking.create]: the required strings. *)
Definition validate (ts : TimeSlot) (v : Booking.VehicleInfo) : bool :=
  negb (String.eqb (start ts) "")
  && negb (String.eqb (end_ ts) "")
  && negb (String.eqb (Booking.make v) "")
  && negb (String.eqb (Booking.model v) "")
  && negb (String.eqb (Booking.licensePlate v) "").

Definition server_error (m : string) (db : Db) : Response * Db :=
  (reply 500 m, db).

(** [!x] on a request field. *)
Definition no_id (x : IdParam) : bool :=
  match x with NoId => true | _ => false end.
Definition no_date (x : DateParam) : bool :=
  match x with NoDate => true | _ => false end.
Definition absent {A : Type} (x : option A) : bool :=
  match x with None => true | Some _ => false end.

(** [Garage.findOne({ _id, isDeleted: false, status: 'active' })] *)
Definition activeGarage (db : Db) (gid : ObjectId) : option Garage.t :=
  find (fun g => Nat.eqb (Garage._id g) gid
                 && negb (Garage.isDeleted g)
                 && Garage.is_active (Garage.status g)) (garages db).

(** [Service.findOne({ _id, garage, isDeleted: false, isAvailable: true })] *)
Definition offeredService (db : Db) (gid sid : ObjectId) : option Service.t :=
  find (fun s => Nat.eqb (Service._id s) sid
                 && Nat.eqb (Service.garage s) gid
                 && negb (Service.isDeleted s)
                 && Service.isAvailable s) (services db).

(** The document [Booking.create] inserts. *)
Definition new_booking (db : Db) (user : Principal) (gid sid : ObjectId)
  (ms : Z) (ts : TimeSlot) (vi : Booking.VehicleInfo) (notes : string)
  (now : Z) : Booking.t :=
  {| Booking._id := fresh Booking._id (bookings db);
     Booking.carOwner := id user;
     Booking.garage := gid;
     Booking.service := sid;
     Booking.bookingDate := ms;
     Booking.timeSlot := ts;
     Booking.status := Booking.pending;
     Booking.vehicleInfo := vi;
     Booking.notes := notes;
     Booking.attachments := [];
     Booking.isDeleted := false;
     Booking.createdAt := now;
     Booking.updatedAt := now |}.

(** [garage.stats.totalBookings += 1] *)
Definition count_booking (g : Garage.t) : Garage.t :=
  Garage.set_stats g
    {| Garage.totalBookings :=
         Js.plus (Garage.totalBookings (Garage.stats g)) 1;
       Garage.completedBookings :=
         Garage.completedBookings (Garage.stats g) |}.

Definition createBooking (req : CreateReq) (user : Principal) (now : Z)
  (db : Db) : Response * Db :=
  if no_id (garageId req) || no_id (serviceId req)
     || no_date (bookingDate req) || absent (timeSlot req)
     || absent (vehicleInfo req)
  then (reply 400 "Missing required fields", db)
  else
    match garageId req, serviceId req, bookingDate req, timeSlot req,
          vehicleInfo req with
    | AnId gid, sid, date, Some ts, Some vi =>
        match activeGarage db gid with
        | None => (reply 404 "Garage not found or not active", db)
        | Some garage =>
            match sid with
            | AnId sid' =>
                match offeredService db gid sid' with
                | None =>
                    (reply 404 "Service not found or not available", db)
                | Some _ =>
                    match date with
                    | ADate ms =>
                        match existingBooking db gid ms ts with
                        | Some _ =>
                            (reply 400 "Time slot already booked", db)
                        | None =>
                            if validate ts vi then
                              let booking :=
                                new_booking db user gid sid' ms ts vi
                                  (notes req) now in
                              let db1 :=
                                set_bookings db
                                  (app (bookings db) [booking]) in
                              (reply 201 "Booking created successfully",
                               Garage_save db1 (count_booking garage))
                            else
                              (* ValidationError thrown by Booking.create *)
                              server_error "Error creating booking" db
                        end
                    | _ =>
                        (* the query cannot cast an invalid date *)
                        server_error "Error creating booking" db
                    end
                end
            | _ =>
                (* CastError on the service id *)
                server_error "Error creating booking" db
            end
        end
    | _, _, _, _, _ =>
        (* CastError on the garage id *)
        server_error "Error creating booking" db
    end.

(** *** updateBookingStatus *)

(** The table of the handler, keyed by the current status. *)
Definition validTransitions (s : Booking.Status) : list Booking.Status :=
  match s with
  | Booking.pending =>
      [Booking.approved; Booking.rejected; Booking.cancelled]
  | Booking.approved => [Booking.in_progress; Booking.cancelled]
  | Booking.in_progress => [Booking.completed; Booking.cancelled]
  | Booking.completed => []
  | Booking.cancelled => []
  | Booking.rejected => []
  end.

(** [list.includes(status)] on the requested string; returns the entry
    of the table that the string names. *)
Definition includes (l : list Booking.Status) (status : string)
  : option Booking.Status :=
  find (fun s => String.eqb (Booking.name s) status) l.

(** The writes on the in-memory document: [booking.status = status] and
    the push onto [booking.statusHistory || []]. *)
Definition push_history (d : Booking.Doc) (s : Booking.Status)
  (by_ : ObjectId) (reason : string) (now : Z) : Booking.Doc :=
  {| Booking.paths := Booking.set_status (Booking.paths d) s now;
     Booking.statusHistory :=
       Some (app (match Booking.statusHistory d with
                  | Some h => h
                  | None => []
                  end)
               [{| Booking.h_status := Booking.name s;
                   Booking.changedBy := by_;
                   Booking.reason := reason;
                   Booking.changedAt := now |}]);
     Booking.deletedAt := Booking.deletedAt d;
     Booking.deletedBy := Booking.deletedBy d |}.

(** [garage.stats.completedBookings += 1] *)
Definition count_completed (g : Garage.t) : Garage.t :=
  Garage.set_stats g
    {| Garage.totalBookings := Garage.totalBookings (Garage.stats g);
       Garage.completedBookings :=
         Js.plus (Garage.completedBookings (Garage.stats g)) 1 |}.

(** [garage.stats.completedBookings =
      Math.max(0, garage.stats.completedBookings - 1)] *)
Definition uncount_completed (g : Garage.t) : Garage.t :=
  Garage.set_stats g
    {| Garage.totalBookings := Garage.totalBookings (Garage.stats g);
       Garage.completedBookings :=
         Z.max 0 (Js.minus (Garage.completedBookings (Garage.stats g)) 1) |}.

Record StatusReq := { status : string; reason : string }.

Definition updateBookingStatus (bid : IdParam) (req : StatusReq)
  (user : Principal) (now : Z) (db : Db) : Response * Db :=
  match bid with
  | NoId | BadId => (reply 400 "Invalid booking ID", db)
  | AnId i =>
      if String.eqb (status req) "" then (reply 400 "Status is required", db)
      else
        match Booking_findById db i with
        | None => (reply 404 "Booking not found", db)
        | Some b =>
            if Booking.isDeleted b then (reply 404 "Booking not found", db)
            else
              (* populate('garage'): null when the garage is gone *)
              match Garage_findById db (Booking.garage b) with
              | None => server_error "Error updating booking status" db
              | Some bgarage =>
                  let isGarageOwner :=
                    Nat.eqb (Garage.owner bgarage) (id user) in
                  let isAdmin := Role_eqb (role user) admin in
                  if negb isGarageOwner && negb isAdmin then
                    (reply 403 "Not authorized to update this booking", db)
                  else if String.eqb (Booking.name (Booking.status b))
                            (status req) then
                    (reply 200 ("Booking already " ++ status req), db)
                  else
                    match includes (validTransitions (Booking.status b))
                            (status req) with
                    | None =>
                        (reply 400
                           ("Cannot transition from "
                            ++ Booking.name (Booking.status b)
                            ++ " to " ++ status req), db)
                    | Some target =>
                        let doc :=
                          push_history (Booking.hydrate b) target (id user)
                            (or_default (reason req)
                               ("Status changed to " ++ status req)) now in
                        let db1 :=
                          if Booking.Status_eqb target Booking.completed then
                            Garage_save db (count_completed bgarage)
                          else db in
                        (reply 200 ("Booking " ++ status req
                                    ++ " successfully"),
                         Booking_save db1 doc)
                    end
              end
        end
  end.

(** *** cancelBooking *)

Definition cancellableStatuses : list Booking.Status :=
  [Booking.pending; Booking.approved].

Definition cancelBooking (bid : IdParam) (reason : string)
  (user : Principal) (now : Z) (db : Db) : Response * Db :=
  match bid with
  | NoId | BadId => (reply 400 "Invalid booking ID", db)
  | AnId i =>
      match find (fun b => Nat.eqb (Booking._id b) i
                           && Nat.eqb (Booking.carOwner b) (id user)
                           && negb (Booking.isDeleted b)) (bookings db) with
      | None => (reply 404 "Booking not found", db)
      | Some b =>
          if existsb (Booking.Status_eqb (Booking.status b))
               cancellableStatuses then
            let doc :=
              push_history (Booking.hydrate b) Booking.cancelled (id user)
                (or_default reason "Cancelled by customer") now in
            (reply 200 "Booking cancelled successfully", Booking_save db doc)
          else
            (reply 400 ("Cannot cancel booking with status: "
                        ++ Booking.name (Booking.status b)), db)
      end
  end.

(** *** deleteBooking (soft delete) *)

Definition deleteBooking (bid : IdParam) (user : Principal) (now : Z)
  (db : Db) : Response * Db :=
  match bid with
  | NoId | BadId => (reply 400 "Invalid booking ID", db)
  | AnId i =>
      match Booking_findById db i with
      | None => (reply 404 "Booking not found", db)
      | Some b =>
          if Booking.isDeleted b then (reply 404 "Booking not found", db)
          else
            let isAuthorized :=
              Role_eqb (role user) admin
              || Nat.eqb (Booking.carOwner b) (id user)
              || (Role_eqb (role user) garage_owner
                  && Garage_exists db (Booking.garage b) (id user)) in
            if negb isAuthorized then
              (reply 403 "Not authorized to delete this booking", db)
            else
              let doc :=
                {| Booking.paths := Booking.set_isDeleted b true now;
                   Booking.statusHistory := None;
                   Booking.deletedAt := Some now;
                   Booking.deletedBy := Some (id user) |} in
              let db1 := Booking_save db doc in
              if Booking.Status_eqb (Booking.status b) Booking.completed then
                match Garage_findById db1 (Booking.garage b) with
                | None => server_error "Error deleting booking" db
                | Some garage =>
                    (reply 200 "Booking deleted successfully",
                     Garage_save db1 (uncount_completed garage))
                end
              else (reply 200 "Booking deleted successfully", db1)
      end
  end.

(** *** checkAvailability *)

Record AvailReq := {
  av_garageId : IdParam;
  av_serviceId : IdParam;
  av_date : DateParam;
  av_timeSlot : option TimeSlot }.

Inductive AvailReply :=
| Failure (r : Response)
| Unavailable (reason : string)
| Available (message : string).

Definition weekdays : list string :=
  ["sunday"; "monday"; "tuesday"; "wednesday"; "thursday"; "friday";
   "saturday"].

Definition ms_per_day : Z := 86400000.

(** [new Date(date).toLocaleString('en-us', { weekday: 'long' })
    .toLowerCase()] on a server whose local time is [tz] minutes east of
    UTC.  Day 0 of the epoch was a Thursday. *)
Definition dayOfWeek (tz : Z) (d : DateParam) : string :=
  match d with
  | ADate ms =>
      nth (Z.to_nat (((ms + tz * 60000) / ms_per_day + 4) mod 7))
        weekdays ""
  | _ => "invalid date"
  end.

(** Minutes of the slot, from the two [split(':')] results. *)
Definition slotDuration (ts : TimeSlot) : option Z :=
  let startTime := Js.split ":" (start ts) in
  let endTime := Js.split ":" (end_ ts) in
  Js.sub
    (Js.add (Js.mul (Js.parseInt (nth_error endTime 0)) (Some 60))
       (Js.parseInt (nth_error endTime 1)))
    (Js.add (Js.mul (Js.parseInt (nth_error startTime 0)) (Some 60))
       (Js.parseInt (nth_error startTime 1))).

Definition closed_reason : string := "Garage is closed on this day".
Definition hours_reason : string := "Time slot is outside business hours".
Definition booked_reason : string := "Time slot already booked".
Definition duration_reason (slot : option Z) (service : Z) : string :=
  "Time slot duration (" ++ Js.show slot
  ++ "min) is less than service duration (" ++ Js.num_to_string service
  ++ "min)".

Definition isWithinBusinessHours (ts : TimeSlot) (d : Garage.Day) : bool :=
  Js.ge (start ts) (Garage.open d) && Js.le (end_ ts) (Garage.close d).

(** The checks that follow the business-hours check: the slot query,
    then the duration of the service when one is named. *)
Definition slot_checks (req : AvailReq) (gid : ObjectId) (ts : TimeSlot)
  (db : Db) : AvailReply :=
  match av_date req with
  | ADate ms =>
      match existingBooking db gid ms ts with
      | Some _ => Unavailable booked_reason
      | None =>
          match av_serviceId req with
          | NoId => Available "Time slot is available"
          | BadId => Failure (reply 500 "Error checking availability")
          | AnId sid =>
              match Service_findById db sid with
              | None => Available "Time slot is available"
              | Some service =>
                  if Js.lt (slotDuration ts) (Some (Service.duration service))
                  then
                    Unavailable
                      (duration_reason (slotDuration ts)
                         (Service.duration service))
                  else Available "Time slot is available"
              end
          end
      end
  | _ => Failure (reply 500 "Error checking availability")
  end.

(** [Garage.findOne({ _id, isDeleted: false })] *)
Definition listedGarage (db : Db) (gid : ObjectId) : option Garage.t :=
  find (fun g => Nat.eqb (Garage._id g) gid && negb (Garage.isDeleted g))
    (garages db).

Definition checkAvailability (tz : Z) (req : AvailReq) (db : Db)
  : AvailReply :=
  if no_id (av_garageId req) || no_date (av_date req)
     || absent (av_timeSlot req)
  then Failure (reply 400 "Missing required fields")
  else
    match av_garageId req, av_timeSlot req with
    | AnId gid, Some ts =>
        match listedGarage db gid with
        | None => Failure (reply 404 "Garage not found")
        | Some garage =>
            match Garage.day (Garage.businessHours garage)
                    (dayOfWeek tz (av_date req)) with
            | None => Unavailable closed_reason
            | Some businessDay =>
                if Garage.closed businessDay then Unavailable closed_reason
                else if negb (isWithinBusinessHours ts businessDay) then
                  Unavailable hours_reason
                else slot_checks req gid ts db
            end
        end
    | _, _ =>
        (* CastError on the garage id *)
        Failure (reply 500 "Error checking availability")
    end.

(** *** getBookingTimeline *)

Record TimelineEvent := {
  event : string;
  ev_status : string;
  timestamp : Z;
  description : string;
  ev_changedBy : option ObjectId }.

(** Insertion of an event in front of a list that is already sorted and
    holds the events that followed it in the array: the event goes before
    the first one that is not earlier than it, so before its equals. *)
Fixpoint insert_by_time (e : TimelineEvent) (l : list TimelineEvent)
  : list TimelineEvent :=
  match l with
  | [] => [e]
  | x :: r => if timestamp e <=? timestamp x then e :: l
              else x :: insert_by_time e r
  end.

(** [timeline.sort((a, b) => a.timestamp - b.timestamp)]: the sort is
    stable, events of equal time keep the order of the array. *)
Definition sort_by_time (l : list TimelineEvent) : list TimelineEvent :=
  fold_right insert_by_time [] l.

Definition history_events (h : option (list Booking.HistoryEntry))
  : list TimelineEvent :=
  match h with
  | None => []
  | Some l =>
      map (fun change =>
             {| event := "Status changed to " ++ Booking.h_status change;
                ev_status := Booking.h_status change;
                timestamp := Booking.changedAt change;
                description :=
                  or_default (Booking.reason change)
                    ("Booking " ++ Booking.h_status change);
                ev_changedBy := Some (Booking.changedBy change) |}) l
  end.

(** The query selects 'status statusHistory createdAt updatedAt
    bookingDate timeSlot carOwner garage', so [booking.isDeleted] is
    [undefined] on the result, and [statusHistory], which is no path of
    the schema, is [undefined] as well. *)
Definition getBookingTimeline (bid : IdParam) (user : Principal) (db : Db)
  : Response + list TimelineEvent :=
  match bid with
  | NoId | BadId => inl (reply 400 "Invalid booking ID")
  | AnId i =>
      match Booking_findById db i with
      | None => inl (reply 404 "Booking not found")
      | Some b =>
          let booking := Booking.hydrate b in
          let carOwner :=
            find (fun u => Nat.eqb (User._id u) (Booking.carOwner b))
              (users db) in
          let isAuthorized :=
            if Role_eqb (role user) admin then true
            else if match carOwner with
                    | Some u => Nat.eqb (User._id u) (id user)
                    | None => false
                    end then true
            else if Role_eqb (role user) garage_owner then
              match Garage_findById db (Booking.garage b) with
              | Some g => Garage_exists db (Garage._id g) (id user)
              | None => false
              end
            else false in
          if negb isAuthorized then
            inl (reply 403 "Not authorized to view this booking")
          else
            inr (sort_by_time
                   (app
                      ({| event := "Booking Created";
                          ev_status := "created";
                          timestamp := Booking.createdAt b;
                          description := "Booking request submitted";
                          ev_changedBy := None |}
                       :: history_events (Booking.statusHistory booking))
                      [{| event := "Current Status";
                          ev_status := Booking.name (Booking.status b);
                          timestamp := Booking.updatedAt b;
                          description :=
                            "Booking is currently "
                            ++ Booking.name (Booking.status b);
                          ev_changedBy := None |}]))
      end
  end.

End BookingCtl.

(* ================================================================== *)
(** ** Model.findByIdAndUpdate on bookings *)
(* ================================================================== *)

(** An update document: paths and the values to set. *)
Inductive UpdateValue :=
| VBool (b : bool)
| VId (i : ObjectId)
| VString (s : string).

Definition Update := list (string * UpdateValue).

(** Casting under the schema's (default) strict mode: paths the schema
    does not declare are dropped from the update. *)
Definition cast_update (u : Update) : Update :=
  filter (fun kv => existsb (String.eqb (fst kv)) Booking.schema_paths) u.

Definition status_of_string (s : string) : option Booking.Status :=
  find (fun st => String.eqb (Booking.name st) s)
    [Booking.pending; Booking.approved; Booking.in_progress;
     Booking.completed; Booking.cancelled; Booking.rejected].

(** One [$set] on a stored booking.  The handlers only ever set [status]
    (to a literal of the enum) and [isDeleted] this way. *)
Definition set_path (now : Z) (kv : string * UpdateValue) (b : Booking.t)
  : Booking.t :=
  match snd kv with
  | VString s =>
      if String.eqb (fst kv) "status" then
        match status_of_string s with
        | Some st => Booking.set_status b st now
        | None => b
        end
      else b
  | VBool d =>
      if String.eqb (fst kv) "isDeleted" then Booking.set_isDeleted b d now
      else b
  | VId _ => b
  end.

(** [Booking.findByIdAndUpdate(id, update)]: no document, no write;
    otherwise the cast update is applied and [updatedAt] is stamped. *)
Definition Booking_findByIdAndUpdate (db : Db) (i : ObjectId) (u : Update)
  (now : Z) : Db :=
  match Booking_findById db i with
  | None => db
  | Some b =>
      let b' :=
        fold_right (set_path now)
          (Booking.set_status b (Booking.status b) now) (cast_update u) in
      set_bookings db (replace Booking._id b' (bookings db))
  end.

(* ================================================================== *)
(** ** controllers/payment.controller.js *)
(* ================================================================== *)

Module PaymentCtl.

Definition set_user_flag (u : User.t) (flag : bool)
  (pushed : list (ObjectId * string)) : User.t :=
  {| User._id := User._id u; User.role := User.role u;
     User.canCreateGarage := flag;
     User.garageCreationPayments :=
       app (User.garageCreationPayments u) pushed |}.

(** [User.findByIdAndUpdate(id, { canCreateGarage, $push: ... })] *)
Definition User_update (db : Db) (uid : ObjectId) (flag : bool)
  (pushed : list (ObjectId * string)) : Db :=
  match find (fun u => Nat.eqb (User._id u) uid) (users db) with
  | None => db
  | Some u =>
      set_users db (replace User._id (set_user_flag u flag pushed) (users db))
  end.

(** [paymentSchema.post('save')]: the update of the user is given no
    session, so it is written at once, also when the [save] that fired
    the hook belongs to a transaction. *)
Definition post_save (doc : Payment.t) (db : Db) : Db :=
  match Payment.paymentType doc, Payment.status doc with
  | Payment.garage_creation, Payment.completed =>
      User_update db (Payment.user doc) true
        [(Payment._id doc, "completed")]
  | _, _ => db
  end.

Definition Payment_save (db : Db) (p : Payment.t) : Db :=
  post_save p (set_payments db (replace Payment._id p (payments db))).

Definition Payment_findByTx (db : Db) (tx : string) : option Payment.t :=
  find (fun p => match Payment.transactionId p with
                 | Some t => String.eqb t tx
                 | None => false
                 end) (payments db).

Definition settle (p : Payment.t) (s : Payment.Status)
  (resp : option Payment.Mixed) (paid : option Z) : Payment.t :=
  {| Payment._id := Payment._id p; Payment.user := Payment.user p;
     Payment.paymentType := Payment.paymentType p;
     Payment.garageCreation_garage := Payment.garageCreation_garage p;
     Payment.booking := Payment.booking p;
     Payment.status := s;
     Payment.transactionId := Payment.transactionId p;
     Payment.provider_response := resp;
     Payment.paidAt := paid |}.

(** [Garage.findByIdAndUpdate(id, { creationPayment, paidAt,
    status: 'pending' })]; update queries do not run the save hook. *)
Definition Garage_mark_paid (db : Db) (gid pid : ObjectId) (now : Z) : Db :=
  match Garage_findById db gid with
  | None => db
  | Some g =>
      set_garages db
        (replace Garage._id
           {| Garage._id := Garage._id g; Garage.owner := Garage.owner g;
              Garage.businessHours := Garage.businessHours g;
              Garage.status := Garage.pending;
              Garage.stats := Garage.stats g;
              Garage.isActive := Garage.isActive g;
              Garage.isDeleted := Garage.isDeleted g;
              Garage.creationPayment := Some pid;
              Garage.paidAt := Some now |} (garages db))
  end.

(** Whether the post-save hook of a payment writes a user: the payment is
    a completed garage-creation payment and its payer is stored. *)
Definition hook_writes (doc : Payment.t) (db : Db) : bool :=
  match Payment.paymentType doc, Payment.status doc with
  | Payment.garage_creation, Payment.completed =>
      match find (fun u => Nat.eqb (User._id u) (Payment.user doc)) (users db)
      with
      | Some _ => true
      | None => false
      end
  | _, _ => false
  end.

(** The message of the server's WriteConflict error, which the driver
    raises when an operation of a transaction meets a document that was
    written outside the transaction after the transaction began. *)
Definition write_conflict : string :=
  "WriteConflict error: this operation conflicted with another operation. "
  ++ "Please retry your operation or multi-document transaction.".

Section Webhook.

(** The hex HMAC-SHA256 of the serialised payload under the webhook
    secret. *)
Variable hmac : Payment.Payload -> string.

(** The handler works in a transaction.  Its answers 401 and 404 come
    before any write.  After [payment.save] the branch for a
    garage-creation payment updates the payer inside the transaction;
    when the hook of [save] has written that user just before, outside
    the transaction, the update is a write conflict: the catch block
    aborts the transaction, which undoes the write of the payment, and
    answers 500 with the message of the error. *)
Definition handleChapaWebhook (payload : Payment.Payload)
  (signature : option string) (now : Z) (db : Db) : Response * Db :=
  if negb (match signature with
           | Some s => String.eqb (hmac payload) s
           | None => false
           end)
  then (reply 401 "Invalid signature", db)
  else
    match Payment_findByTx db (Payment.tx_ref payload) with
    | None => (reply 404 "Payment not found", db)
    | Some payment =>
        let success := String.eqb (Payment.p_status payload) "success" in
        let payment' :=
          settle payment
            (if success then Payment.completed else Payment.failed)
            (Some (Payment.Hook payload))
            (if success then Some now else Payment.paidAt payment) in
        (* [payment.save({ session })]: the payment is written inside
           the transaction, the user by the hook outside it *)
        let db1 := Payment_save db payment' in
        if success then
          match Payment.paymentType payment' with
          | Payment.garage_creation =>
              if hook_writes payment' db then
                (* [User.findByIdAndUpdate(payment.user, ...,
                   { session })] on the document the hook has just
                   written: the catch block aborts the transaction *)
                (reply 500 write_conflict, post_save payment' db)
              else
                let db' :=
                  User_update db1 (Payment.user payment') true
                    [(Payment._id payment', "completed")] in
                (reply 200 "Webhook processed",
                 match Payment.garageCreation_garage payment' with
                 | Some gid =>
                     Garage_mark_paid db' gid (Payment._id payment') now
                 | None => db'
                 end)
          | Payment.booking_payment =>
              (reply 200 "Webhook processed",
               match Payment.booking payment' with
               | Some bid =>
                   Booking_findByIdAndUpdate db1 bid
                     [("isPaid", VBool true);
                      ("payment", VId (Payment._id payment'));
                      ("status", VString "approved")] now
               | None => db1
               end)
          | _ => (reply 200 "Webhook processed", db1)
          end
        else (reply 200 "Webhook processed", db1)
    end.

End Webhook.

(** The message of Mongoose's MissingSchemaError for the model name
    'Garage'. *)
Definition missing_schema : string :=
  "Schema hasn't been registered for model "
  ++ String (ascii_of_nat 34) "Garage" ++ String (ascii_of_nat 34) "."
  ++ String (ascii_of_nat 10) "Use mongoose.model(name, schema)".

(** [.populate('garageCreation.garage', 'name')] on the payment query:
    the path refers to the model 'Garage', and the garage schema is
    registered as 'garage'.  For a payment that names a garage the
    lookup of the model throws; a payment without one has nothing to
    populate. *)
Definition populate_throws (p : Payment.t) : bool :=
  match Payment.garageCreation_garage p with
  | Some _ => true
  | None => false
  end.

(** [verifyPayment]: [chapa] is [chapaData.data.status] as returned by
    the provider's verify endpoint, [None] when that call fails. *)
Definition verifyPayment (tx_ref : string) (chapa : option string)
  (now : Z) (db : Db) : Response * Db :=
  match chapa with
  | None => (reply 500 "Verification failed", db)
  | Some st =>
      match Payment_findByTx db tx_ref with
      | None => (reply 404 "Payment not found", db)
      | Some payment =>
          if populate_throws payment then (reply 500 missing_schema, db)
          else if String.eqb st "success"
             && negb (match Payment.status payment with
                      | Payment.completed => true
                      | _ => false
                      end)
          then
            let payment' :=
              settle payment Payment.completed
                (Payment.provider_response payment) (Some now) in
            let db1 := Payment_save db payment' in
            let db2 :=
              match Payment.paymentType payment' with
              | Payment.garage_creation =>
                  User_update db1 (Payment.user payment') true []
              | Payment.booking_payment =>
                  match Payment.booking payment' with
                  | Some bid =>
                      Booking_findByIdAndUpdate db1 bid
                        [("isPaid", VBool true)] now
                  | None => db1
                  end
              | _ => db1
              end in
            (reply 200 "OK", db2)
          else if String.eqb st "failed"
                  && match Payment.status payment with
                     | Payment.pending => true
                     | _ => false
                     end
          then
            (reply 200 "OK",
             Payment_save db
               (settle payment Payment.failed
                  (Payment.provider_response payment)
                  (Payment.paidAt payment)))
          else (reply 200 "OK", db)
      end
  end.

End PaymentCtl.

(* ================================================================== *)
(** ** controllers/review.controller.js *)
(* ================================================================== *)

Module ReviewCtl.

(** The body of the request: the rating is a JSON number, given by its
    value, and 0 when the field is absent. *)
Record CreateReq := {
  garageId : IdParam;
  bookingId : IdParam;
  rating : Q;
  title : string;
  comment : string;
  images : list string }.

Definition no_id (x : IdParam) : bool :=
  match x with NoId => true | _ => false end.

(** [reviewSchema] validators, after the [trim] setters: the rating from
    1 to 5, title and comment not empty and of at most 100 and 500 code
    units. *)
Definition validate (req : CreateReq) : bool :=
  Qle_bool 1 (rating req) && Qle_bool (rating req) 5
  && negb (String.eqb (Js.trim (title req)) "")
  && (Js.length (Js.trim (title req)) <=? 100)%nat
  && negb (String.eqb (Js.trim (comment req)) "")
  && (Js.length (Js.trim (comment req)) <=? 500)%nat.

(** The unique index [{ booking: 1 }] covers every stored review,
    soft-deleted ones included. *)
Definition index_holds (db : Db) (b : ObjectId) : bool :=
  existsb (fun r => Nat.eqb (Review.booking r) b) (reviews db).

(** [Review.findOne({ booking, isDeleted: false })] *)
Definition existingReview (db : Db) (b : ObjectId) : option Review.t :=
  find (fun r => Nat.eqb (Review.booking r) b && negb (Review.isDeleted r))
    (reviews db).

Definition eligible (s : Booking.Status) : bool :=
  existsb (Booking.Status_eqb s) [Booking.completed; Booking.approved].

(** [Booking.findOne({ _id, carOwner: req.user.id, isDeleted: false })] *)
Definition ownBooking (db : Db) (bid : ObjectId) (user : Principal)
  : option Booking.t :=
  find (fun b => Nat.eqb (Booking._id b) bid
                 && Nat.eqb (Booking.carOwner b) (id user)
                 && negb (Booking.isDeleted b)) (bookings db).

Definition createReview (req : CreateReq) (user : Principal) (db : Db)
  : Response * Db :=
  if no_id (garageId req) || no_id (bookingId req)
     || Qeq_bool (rating req) 0
     || String.eqb (title req) "" || String.eqb (comment req) ""
  then (reply 400 "Missing required fields", db)
  else
    match bookingId req with
    | AnId bid =>
        match ownBooking db bid user with
        | None => (reply 404 "Booking not found or not authorized", db)
        | Some booking =>
            if negb (eligible (Booking.status booking)) then
              (reply 400 "Can only review completed or approved bookings",
               db)
            else
              match existingReview db bid with
              | Some _ =>
                  (reply 400 "Review already exists for this booking", db)
              | None =>
                  match garageId req with
                  | AnId gid =>
                      match BookingCtl.listedGarage db gid with
                      | None => (reply 404 "Garage not found", db)
                      | Some _ =>
                          if validate req && negb (index_holds db bid) then
                            (reply 201 "Review created successfully",
                             set_reviews db
                               (app (reviews db)
                                  [{| Review._id :=
                                        fresh Review._id (reviews db);
                                      Review.carOwner := id user;
                                      Review.garage := gid;
                                      Review.booking := bid;
                                      Review.rating := rating req;
                                      Review.title := Js.trim (title req);
                                      Review.comment :=
                                        Js.trim (comment req);
                                      Review.images := images req;
                                      Review.isVerified := true;
                                      Review.isDeleted := false |}]))
                          else
                            (* ValidationError or duplicate key *)
                            (reply 500 "Error creating review", db)
                      end
                  | _ => (reply 500 "Error creating review", db)
                  end
              end
        end
    | _ => (reply 500 "Error creating review", db)
    end.

End ReviewCtl.

(* ================================================================== *)
(** ** routes/booking.routes.js *)
(* ================================================================== *)

Module Routes.

Inductive Method := GET | POST | PUT | DELETE.

Definition Method_eqb (a b : Method) : bool :=
  match a, b with
  | GET, GET | POST, POST | PUT, PUT | DELETE, DELETE => true
  | _, _ => false
  end.

Inductive Handler :=
| getAllBookings | createBooking | getBookingById | updateBookingStatus
| cancelBooking | getBookingTimeline | checkAvailability
| getBookingsByDateRange | uploadAttachments | deleteAttachment
| getBookingStats | deleteBooking.

(** A path segment of a route: a literal or a [:param]. *)
Inductive Segment := Lit (s : string) | Param.

Record Route := {
  method : Method;
  pattern : list Segment;
  roles : option (list Role);
  handler : Handler }.

(** The routes, in the order the file registers them. *)
Definition table : list Route :=
  [ {| method := GET; pattern := []; roles := None;
       handler := getAllBookings |};
    {| method := POST; pattern := []; roles := Some [car_owner];
       handler := createBooking |};
    {| method := GET; pattern := [Param]; roles := None;
       handler := getBookingById |};
    {| method := PUT; pattern := [Param; Lit "status"];
       roles := Some [garage_owner; admin];
       handler := updateBookingStatus |};
    {| method := PUT; pattern := [Param; Lit "cancel"];
       roles := Some [car_owner]; handler := cancelBooking |};
    {| method := GET; pattern := [Param; Lit "timeline"]; roles := None;
       handler := getBookingTimeline |};
    {| method := POST; pattern := [Lit "check-availability"];
       roles := None; handler := checkAvailability |};
    {| method := GET; pattern := [Lit "calendar"; Lit "range"];
       roles := None; handler := getBookingsByDateRange |};
    {| method := POST; pattern := [Param; Lit "attachments"];
       roles := None; handler := uploadAttachments |};
    {| method := DELETE; pattern := [Param; Lit "attachments"; Param];
       roles := None; handler := deleteAttachment |};
    {| method := GET; pattern := [Lit "stats"; Lit "analytics"];
       roles := Some [admin; garage_owner]; handler := getBookingStats |};
    {| method := DELETE; pattern := [Param]; roles := None;
       handler := deleteBooking |} ].

(** The letters A to Z in lower case, every other character as it is:
    how the routers, created without [caseSensitive], compare a literal
    with the path. *)
Definition lower (c : ascii) : ascii :=
  let n := N_of_ascii c in
  if (N.leb 65 n && N.leb n 90)%bool then ascii_of_N (n + 32) else c.

Fixpoint lower_case (s : string) : string :=
  match s with
  | EmptyString => EmptyString
  | String c r => String (lower c) (lower_case r)
  end.

(** A path against the pattern of a route.  The path is given by its
    segments, the strings between the slashes after the mount point; one
    that ends in a slash has the empty string as its last segment.
    Literals are compared without regard to case, a parameter takes one
    segment that is not empty, and one slash at the end of the path is
    ignored (the routers are created without [strict]). *)
Fixpoint matches (pat : list Segment) (path : list string) : bool :=
  match pat, path with
  | [], [] => true
  | [], [x] => String.eqb x ""
  | Lit s :: pat', x :: path' =>
      String.eqb (lower_case s) (lower_case x) && matches pat' path'
  | Param :: pat', x :: path' =>
      negb (String.eqb x "") && matches pat' path'
  | _, _ => false
  end.

Record Request := {
  req_method : Method;
  req_path : list string;
  authorization : option string }.

Inductive Outcome :=
| Rejected (r : Response)
| Invoke (h : Handler) (user : Principal)
| NotFound.

Section Router.

Variable jwt_verify : string -> option ObjectId.

(** [router.use(protect)] comes first, so every request to this
    router passes through it before any route is tried. *)
Definition dispatch (req : Request) (db : Db) : Outcome :=
  match Auth.protect jwt_verify (authorization req) db with
  | Auth.Stop r => Rejected r
  | Auth.Next user =>
      match find (fun r => Method_eqb (method r) (req_method req)
                           && matches (pattern r) (req_path req)) table
      with
      | None => NotFound
      | Some r =>
          match roles r with
          | None => Invoke (handler r) user
          | Some allowed =>
              match Auth.authorize allowed user with
              | Some resp => Rejected resp
              | None => Invoke (handler r) user
              end
          end
      end
  end.

End Router.

End Routes.

(* ================================================================== *)
(** ** controllers/payment.controller.js: initialisation, refund, retry *)
(* ================================================================== *)

Module PaymentOps.

Import PaymentCtl.

(** What [axios.post('.../transaction/initialize')] gives back: the call
    rejects with a message, or resolves with a body that lacks
    [data.data], lacks [data.data.checkout_url], or carries the URL. *)
Inductive ChapaInit :=
| Throws (message : string)
| NoData
| NoUrl
| Checkout (url : string).

(** Heads of the messages of the errors that Mongoose and Node raise;
    the handlers below pass [err.message] on with status 500. *)
Definition duplicate_key : string := "E11000 duplicate key error".
Definition cast_error : string := "Cast to ObjectId failed".
Definition price_undefined : string :=
  "Cannot read properties of undefined (reading 'estimated')".

(** [!amount] on a request field that is a JSON integer or absent. *)
Definition no_amount (amount : option Z) : bool :=
  match amount with
  | None => true
  | Some a => Z.eqb a 0
  end.

(** [!amount] on a request field that is a JSON number, whole or not, or
    absent.  The number is given by its value, a rational. *)
Definition no_number (amount : option Q) : bool :=
  match amount with
  | None => true
  | Some a => Qeq_bool a 0
  end.

(** [a < b] on two numbers. *)
Definition less (a b : Q) : bool := negb (Qle_bool b a).

(** [`payment-${Date.now()}-${crypto.randomBytes(4).toString('hex')}`] *)
Definition garage_tx_ref (now : Z) (nonce : string) : string :=
  "payment-" ++ Js.num_to_string now ++ "-" ++ nonce.

(** The unique index on [transactionId]. *)
Definition tx_taken (db : Db) (tx : string) : bool :=
  match Payment_findByTx db tx with
  | Some _ => true
  | None => false
  end.

(** [Payment.create([doc])]: the insert, then the post-save hook. *)
Definition Payment_create (db : Db) (p : Payment.t) : Db :=
  post_save p (set_payments db (app (payments db) [p])).

(** *** initGaragePayment

    [req.user] is the principal that [protect] set, so the 401 branch of
    the handler is not taken.  The amount of the body is a JSON number or
    absent; the handler does not ask for a whole number. *)
Definition initGaragePayment (amount : option Q) (chapa : ChapaInit)
  (nonce : string) (user : Principal) (now : Z) (db : Db) : Response * Db :=
  match amount with
  | None => (reply 400 "Missing payment amount", db)
  | Some a =>
      if no_number amount then (reply 400 "Missing payment amount", db)
      else if less a 100 || less 1000000 a then
        (reply 400 "Amount must be between 100 and 1,000,000 ETB", db)
      else
        let tx_ref := garage_tx_ref now nonce in
        match chapa with
        | Throws m => (reply 500 m, db)
        | NoData | NoUrl =>
            (reply 500 "Failed to initialize payment with Chapa", db)
        | Checkout url =>
            if String.eqb url "" then
              (reply 500 "Failed to initialize payment with Chapa", db)
            else if tx_taken db tx_ref then (reply 500 duplicate_key, db)
            else
              let payment :=
                {| Payment._id := fresh Payment._id (payments db);
                   Payment.user := id user;
                   Payment.paymentType := Payment.garage_creation;
                   Payment.garageCreation_garage := None;
                   Payment.booking := None;
                   Payment.status := Payment.pending;
                   Payment.transactionId := Some tx_ref;
                   Payment.provider_response := Some (Payment.Init url);
                   Payment.paidAt := None |} in
              (reply 201 "Payment initialized successfully",
               Payment_create db payment)
        end
  end.

(** *** initBookingPayment

    [isPaid] and [price] are not paths of the booking schema, so on the
    loaded document [booking.isPaid] is [undefined] and reading
    [booking.price.estimated] throws; the statements after it (the call
    to the provider, [Payment.create], the link from the booking) are
    never reached. *)
Definition initBookingPayment (bookingId : IdParam) (amount : option Z)
  (user : Principal) (db : Db) : Response * Db :=
  if BookingCtl.no_id bookingId || no_amount amount then
    (reply 400 "Missing booking ID or amount", db)
  else
    match bookingId with
    | AnId i =>
        match find (fun b => Nat.eqb (Booking._id b) i
                             && Nat.eqb (Booking.carOwner b) (id user)
                             && negb (Booking.isDeleted b)) (bookings db) with
        | None => (reply 404 "Booking not found", db)
        | Some _ =>
            (* TypeError on [booking.price.estimated] *)
            (reply 500 price_undefined, db)
        end
    | _ => (reply 500 cast_error, db)
    end.

(** *** initiateRefund *)

Definition Payment_findById (db : Db) (i : ObjectId) : option Payment.t :=
  find (fun p => Nat.eqb (Payment._id p) i) (payments db).

Definition is_completed (s : Payment.Status) : bool :=
  match s with Payment.completed => true | _ => false end.

Definition is_refunded (s : Payment.Status) : bool :=
  match s with Payment.refunded => true | _ => false end.

(** [payment.paidAt < thirtyDaysAgo]: a [null] date converts to 0.  The
    thirty days are counted on a server whose clock has no daylight
    saving change in between. *)
Definition before_window (paidAt : option Z) (now : Z) : bool :=
  match paidAt with
  | Some t => t <? now - 30 * BookingCtl.ms_per_day
  | None => 0 <? now - 30 * BookingCtl.ms_per_day
  end.

Definition initiateRefund (pid : IdParam) (reason : string)
  (user : Principal) (now : Z) (db : Db) : Response * Db :=
  match pid with
  | BadId => (reply 500 "Error initiating refund", db)
  | NoId => (reply 404 "Payment not found", db)
  | AnId i =>
      match Payment_findById db i with
      | None => (reply 404 "Payment not found", db)
      | Some payment =>
          if negb (is_completed (Payment.status payment)) then
            (reply 400 "Only completed payments can be refunded", db)
          else if is_refunded (Payment.status payment) then
            (reply 400 "Payment already refunded", db)
          else if before_window (Payment.paidAt payment) now
                  && negb (Role_eqb (role user) admin) then
            (reply 400 "Refund window has expired (30 days)", db)
          else
            (* [refundInfo] is not a path of the payment schema *)
            let payment' :=
              settle payment Payment.refunded
                (Payment.provider_response payment)
                (Payment.paidAt payment) in
            let db1 := Payment_save db payment' in
            let db2 :=
              match Payment.paymentType payment', Payment.booking payment'
              with
              | Payment.booking_payment, Some bid =>
                  Booking_findByIdAndUpdate db1 bid
                    [("isPaid", VBool false);
                     ("status", VString "cancelled")] now
              | Payment.garage_creation, _ =>
                  User_update db1 (Payment.user payment') false []
              | _, _ => db1
              end in
            (reply 200 "Refund initiated successfully", db2)
      end
  end.

(** *** retryPayment *)

(** [`${payment.transactionId}-retry-${Date.now()}`] *)
Definition retry_tx_ref (p : Payment.t) (now : Z) : string :=
  match Payment.transactionId p with
  | Some t => t
  | None => "undefined"
  end ++ "-retry-" ++ Js.num_to_string now.

Definition retryPayment (pid : IdParam) (chapa : ChapaInit)
  (user : Principal) (now : Z) (db : Db) : Response * Db :=
  match pid with
  | BadId => (reply 500 "Error retrying payment", db)
  | NoId => (reply 404 "Failed payment not found", db)
  | AnId i =>
      match find (fun p => Nat.eqb (Payment._id p) i
                           && Nat.eqb (Payment.user p) (id user)
                           && match Payment.status p with
                              | Payment.failed => true
                              | _ => false
                              end) (payments db) with
      | None => (reply 404 "Failed payment not found", db)
      | Some payment =>
          let newTxRef := retry_tx_ref payment now in
          match Payment.paymentType payment with
          | Payment.garage_creation =>
              match match Payment.garageCreation_garage payment with
                    | Some gid => Garage_findById db gid
                    | None => None
                    end with
              | None =>
                  (* [garage.name] on [null] *)
                  (reply 500 "Error retrying payment", db)
              | Some _ =>
                  let saved (url : string) :=
                    if tx_taken db newTxRef then
                      (reply 500 "Error retrying payment", db)
                    else
                      (reply 200 "Payment retry initialized",
                       Payment_save db
                         {| Payment._id := Payment._id payment;
                            Payment.user := Payment.user payment;
                            Payment.paymentType :=
                              Payment.paymentType payment;
                            Payment.garageCreation_garage :=
                              Payment.garageCreation_garage payment;
                            Payment.booking := Payment.booking payment;
                            Payment.status := Payment.pending;
                            Payment.transactionId := Some newTxRef;
                            Payment.provider_response :=
                              Some (Payment.Init url);
                            Payment.paidAt := Payment.paidAt payment |}) in
                  match chapa with
                  | Throws _ | NoData =>
                      (reply 500 "Error retrying payment", db)
                  | NoUrl => saved ""
                  | Checkout url => saved url
                  end
              end
          | _ => (reply 400 "Retry not supported for this payment type", db)
          end
      end
  end.

End PaymentOps.

(* ================================================================== *)
(** ** routes/payment.routes.js *)
(* ================================================================== *)

Module PaymentRoutes.

Import Routes.

Inductive Handler :=
| handleChapaWebhook | getUserPaymentMethods | initGaragePayment
| initBookingPayment | verifyPayment | getAllPayments | retryPayment
| getPaymentStats | getPayment | initiateRefund.

Record Route := {
  method : Method;
  pattern : list Segment;
  roles : option (list Role);
  handler : Handler }.

(** The route registered before [router.use(protect)]. *)
Definition public : list Route :=
  [ {| method := POST; pattern := [Lit "chapa-webhook"]; roles := None;
       handler := handleChapaWebhook |} ].

(** The routes registered after it, in the order of the file. *)
Definition table : list Route :=
  [ {| method := GET; pattern := [Lit "methods"]; roles := None;
       handler := getUserPaymentMethods |};
    {| method := POST; pattern := [Lit "garage"; Lit "init"];
       roles := Some [garage_owner]; handler := initGaragePayment |};
    {| method := POST; pattern := [Lit "booking"; Lit "init"];
       roles := Some [car_owner]; handler := initBookingPayment |};
    {| method := GET; pattern := [Lit "booking"; Lit "verify"; Param];
       roles := Some [car_owner]; handler := verifyPayment |};
    {| method := GET; pattern := [Lit "user"; Lit "me"]; roles := None;
       handler := getAllPayments |};
    {| method := POST; pattern := [Param; Lit "retry"]; roles := None;
       handler := retryPayment |};
    {| method := GET; pattern := []; roles := Some [admin];
       handler := getAllPayments |};
    {| method := GET; pattern := [Lit "stats"]; roles := Some [admin];
       handler := getPaymentStats |};
    {| method := GET; pattern := [Param]; roles := Some [admin];
       handler := getPayment |};
    {| method := POST; pattern := [Param; Lit "refund"];
       roles := Some [admin]; handler := initiateRefund |};
    {| method := GET; pattern := [Lit "garage"; Lit "verify"; Param];
       roles := Some [admin]; handler := verifyPayment |} ].

Definition route_for (req : Request) (l : list Route) : option Route :=
  find (fun r => Method_eqb (method r) (req_method req)
                 && matches (pattern r) (req_path req)) l.

Inductive Outcome :=
| Rejected (r : Response)
| Public (h : Handler)
| Invoke (h : Handler) (user : Principal)
| NotFound.

Section Router.

Variable jwt_verify : string -> option ObjectId.

(** Layers run in the order of registration: the webhook route, then
    [protect], then the other routes. *)
Definition dispatch (req : Request) (db : Db) : Outcome :=
  match route_for req public with
  | Some r => Public (handler r)
  | None =>
      match Auth.protect jwt_verify (authorization req) db with
      | Auth.Stop r => Rejected r
      | Auth.Next user =>
          match route_for req table with
          | None => NotFound
          | Some r =>
              match roles r with
              | None => Invoke (handler r) user
              | Some allowed =>
                  match Auth.authorize allowed user with
                  | Some resp => Rejected resp
                  | None => Invoke (handler r) user
                  end
              end
          end
      end
  end.

End Router.

End PaymentRoutes.

(* ================================================================== *)
(** ** controllers/booking.controller.js: lists and attachments *)
(* ================================================================== *)

Module BookingLists.

Import BookingCtl.

(** [Garage.find({ owner: req.user.id }).select('_id')], mapped to the
    ids: soft-deleted garages included. *)
Definition userGarages (db : Db) (user : Principal) : list ObjectId :=
  map Garage._id
    (filter (fun g => Nat.eqb (Garage.owner g) (id user)) (garages db)).

(** A condition of the filter on [garage]: a single id, or [$in]. *)
Inductive GarageCond :=
| AnyGarage
| TheGarage (g : ObjectId)
| OneOf (l : list ObjectId).

Definition garage_matches (c : GarageCond) (b : Booking.t) : bool :=
  match c with
  | AnyGarage => true
  | TheGarage g => Nat.eqb (Booking.garage b) g
  | OneOf l => existsb (Nat.eqb (Booking.garage b)) l
  end.

(** The filter object both list handlers build. *)
Record Filter := {
  f_carOwner : option ObjectId;
  f_garage : GarageCond;
  f_status : option string;
  f_service : option ObjectId;
  f_from : option Z;
  f_to : option Z }.

Definition holds {A : Type} (c : option A) (p : A -> bool) : bool :=
  match c with
  | Some x => p x
  | None => true
  end.

(** The documents that satisfy the filter; [isDeleted: false] is part of
    every filter. *)
Definition satisfies (f : Filter) (b : Booking.t) : bool :=
  negb (Booking.isDeleted b)
  && holds (f_carOwner f) (Nat.eqb (Booking.carOwner b))
  && garage_matches (f_garage f) b
  && holds (f_status f) (String.eqb (Booking.name (Booking.status b)))
  && holds (f_service f) (Nat.eqb (Booking.service b))
  && holds (f_from f) (fun d => d <=? Booking.bookingDate b)
  && holds (f_to f) (fun d => Booking.bookingDate b <=? d).

(** The part of the filter set from the role, then overwritten by
    [if (garageId) filter.garage = garageId]. *)
Definition by_role (db : Db) (user : Principal)
  : option ObjectId * GarageCond :=
  match role user with
  | car_owner => (Some (id user), AnyGarage)
  | garage_owner => (None, OneOf (userGarages db user))
  | admin => (None, AnyGarage)
  end.

Inductive ListReply :=
| Refused (r : Response)
| Listed (matching : list Booking.t).

(** *** getBookingsByDateRange

    [Listed] carries the documents of the query, whose number is
    [totalBookings]; the order of the reply and its grouping by day are
    not represented. *)
Record RangeReq := {
  r_startDate : DateParam;
  r_endDate : DateParam;
  r_garageId : IdParam }.

Definition getBookingsByDateRange (req : RangeReq) (user : Principal)
  (db : Db) : ListReply :=
  if no_date (r_startDate req) || no_date (r_endDate req) then
    Refused (reply 400 "Start date and end date are required")
  else
    match r_startDate req, r_endDate req with
    | ADate s, ADate e =>
        let filter0 :=
          {| f_carOwner := fst (by_role db user);
             f_garage := snd (by_role db user);
             f_status := None; f_service := None;
             f_from := Some s; f_to := Some e |} in
        match r_garageId req with
        | NoId => Listed (filter (satisfies filter0) (bookings db))
        | AnId g =>
            Listed
              (filter
                 (satisfies
                    {| f_carOwner := f_carOwner filter0;
                       f_garage := TheGarage g;
                       f_status := None; f_service := None;
                       f_from := Some s; f_to := Some e |})
                 (bookings db))
        | BadId =>
            Refused (reply 500 "Error fetching bookings by date range")
        end
    | _, _ =>
        (* the query cannot cast an invalid date *)
        Refused (reply 500 "Error fetching bookings by date range")
    end.

(** *** getAllBookings

    [Listed] carries the documents that satisfy the filter, the ones
    [countDocuments(filter)] counts as [pagination.total]; sorting and
    paging of the reply are not represented. *)
Record ListReq := {
  l_status : string;
  l_garageId : IdParam;
  l_serviceId : IdParam;
  l_startDate : DateParam;
  l_endDate : DateParam }.

Definition optional_id (x : IdParam) : option (option ObjectId) :=
  match x with
  | NoId => Some None
  | AnId i => Some (Some i)
  | BadId => None
  end.

Definition optional_date (x : DateParam) : option (option Z) :=
  match x with
  | NoDate => Some None
  | ADate d => Some (Some d)
  | BadDate => None
  end.

Definition getAllBookings (req : ListReq) (user : Principal) (db : Db)
  : ListReply :=
  match optional_id (l_garageId req), optional_id (l_serviceId req),
        optional_date (l_startDate req), optional_date (l_endDate req) with
  | Some garageId, Some serviceId, Some startDate, Some endDate =>
      Listed
        (filter
           (satisfies
              {| f_carOwner := fst (by_role db user);
                 f_garage :=
                   match garageId with
                   | Some g => TheGarage g
                   | None => snd (by_role db user)
                   end;
                 f_status :=
                   if String.eqb (l_status req) "" then None
                   else Some (l_status req);
                 f_service := serviceId;
                 f_from := startDate;
                 f_to := endDate |})
           (bookings db))
  | _, _, _, _ =>
      (* CastError on an id or a date *)
      Refused (reply 500 "Error fetching bookings")
  end.

End BookingLists.

Module Attachments.

Import BookingCtl.

(** [s.includes(sub)] *)
Fixpoint includes (s sub : string) : bool :=
  String.prefix sub s
  || match s with
     | EmptyString => false
     | String _ r => includes r sub
     end.

(** [path.replace(/\\/g, '/')] *)
Fixpoint slashes (s : string) : string :=
  match s with
  | EmptyString => EmptyString
  | String c r =>
      String (if Ascii.eqb c (ascii_of_nat 92) then "/"%char else c)
        (slashes r)
  end.

Definition set_attachments (b : Booking.t) (l : list string) (now : Z)
  : Booking.t :=
  {| Booking._id := Booking._id b; Booking.carOwner := Booking.carOwner b;
     Booking.garage := Booking.garage b;
     Booking.service := Booking.service b;
     Booking.bookingDate := Booking.bookingDate b;
     Booking.timeSlot := Booking.timeSlot b;
     Booking.status := Booking.status b;
     Booking.vehicleInfo := Booking.vehicleInfo b;
     Booking.notes := Booking.notes b; Booking.attachments := l;
     Booking.isDeleted := Booking.isDeleted b;
     Booking.createdAt := Booking.createdAt b; Booking.updatedAt := now |}.

(** The authorization test shared by the two handlers. *)
Definition isAuthorized (b : Booking.t) (user : Principal) (db : Db)
  : bool :=
  Nat.eqb (Booking.carOwner b) (id user)
  || Role_eqb (role user) admin
  || (Role_eqb (role user) garage_owner
      && Garage_exists db (Booking.garage b) (id user)).

(** [files] is [req.files]: the paths of the uploaded files, [None] when
    no upload middleware has set it. *)
Definition uploadAttachments (bid : IdParam) (files : option (list string))
  (user : Principal) (now : Z) (db : Db) : Response * Db :=
  match files with
  | None | Some [] => (reply 400 "No files uploaded", db)
  | Some paths =>
      match bid with
      | NoId | BadId => (reply 400 "Invalid booking ID", db)
      | AnId i =>
          match Booking_findById db i with
          | None => (reply 404 "Booking not found", db)
          | Some b =>
              if Booking.isDeleted b then
                (reply 404 "Booking not found", db)
              else if negb (isAuthorized b user db) then
                (reply 403 "Not authorized to upload attachments", db)
              else
                (reply 200 "Attachments uploaded successfully",
                 Booking_save db
                   (Booking.hydrate
                      (set_attachments b
                         (app (Booking.attachments b) (map slashes paths))
                         now)))
          end
      end
  end.

Definition deleteAttachment (bid : IdParam) (filename : string)
  (user : Principal) (now : Z) (db : Db) : Response * Db :=
  match bid with
  | NoId | BadId => (reply 400 "Invalid booking ID", db)
  | AnId i =>
      match Booking_findById db i with
      | None => (reply 404 "Booking not found", db)
      | Some b =>
          if Booking.isDeleted b then (reply 404 "Booking not found", db)
          else if negb (isAuthorized b user db) then
            (reply 403 "Not authorized to delete attachments", db)
          else
            match find (fun a => includes a filename)
                    (Booking.attachments b) with
            | None => (reply 404 "Attachment not found", db)
            | Some attachmentPath =>
                if String.eqb attachmentPath "" then
                  (reply 404 "Attachment not found", db)
                else
                  (reply 200 "Attachment deleted successfully",
                   Booking_save db
                     (Booking.hydrate
                        (set_attachments b
                           (filter (fun a => negb (includes a filename))
                              (Booking.attachments b)) now)))
            end
      end
  end.

End Attachments.

(* ================================================================== *)
(** ** controllers/garage.controller.js: toggle, delete, restore *)
(* ================================================================== *)

Module GarageCtl.

Definition set_services (db : Db) (l : list Service.t) : Db :=
  {| garages := garages db; services := l; bookings := bookings db;
     reviews := reviews db; payments := payments db; users := users db |}.

(** [garage.owner.toString() === req.user.id]: the left side is a
    string, the right side the ObjectId that [protect] copied from
    [user._id]; [===] between a string and an object is false. *)
Definition isOwner (g : Garage.t) (user : Principal) : bool := false.

Definition with_state (g : Garage.t) (s : Garage.Status)
  (active deleted : bool) : Garage.t :=
  {| Garage._id := Garage._id g; Garage.owner := Garage.owner g;
     Garage.businessHours := Garage.businessHours g;
     Garage.status := s; Garage.stats := Garage.stats g;
     Garage.isActive := active; Garage.isDeleted := deleted;
     Garage.creationPayment := Garage.creationPayment g;
     Garage.paidAt := Garage.paidAt g |}.

(** *** toggleActive

    The message reads [garage.isActive] after [save], that is after the
    pre-save hook has set it from the status. *)
Definition toggleActive (gid : IdParam) (user : Principal) (db : Db)
  : Response * Db :=
  match gid with
  | NoId | BadId => (reply 400 "Invalid garage ID", db)
  | AnId i =>
      match Garage_findById db i with
      | None => (reply 404 "Garage not found", db)
      | Some garage =>
          if Garage.isDeleted garage then (reply 404 "Garage not found", db)
          else if negb (isOwner garage user)
                  && negb (Role_eqb (role user) admin) then
            (reply 403 "Not authorized to update this garage", db)
          else
            let toggled :=
              with_state garage (Garage.status garage)
                (negb (Garage.isActive garage)) (Garage.isDeleted garage) in
            (reply 200
               ("Garage "
                ++ (if Garage.isActive (Garage.pre_save toggled)
                    then "activated" else "deactivated")
                ++ " successfully"),
             Garage_save db toggled)
      end
  end.

(** *** deleteGarage *)

(** [Service.updateMany({ garage: id, isDeleted: false },
    { isDeleted: true, isAvailable: false })] *)
Definition retire_service (gid : ObjectId) (s : Service.t) : Service.t :=
  if Nat.eqb (Service.garage s) gid && negb (Service.isDeleted s) then
    {| Service._id := Service._id s; Service.garage := Service.garage s;
       Service.duration := Service.duration s;
       Service.isAvailable := false; Service.isDeleted := true |}
  else s.

(** The filter of [Booking.updateMany]: the garage, a date not before
    now, an open status, not soft-deleted. *)
Definition open_from (gid : ObjectId) (now : Z) (b : Booking.t) : bool :=
  Nat.eqb (Booking.garage b) gid
  && (now <=? Booking.bookingDate b)
  && match Booking.status b with
     | Booking.pending | Booking.approved | Booking.in_progress => true
     | _ => false
     end
  && negb (Booking.isDeleted b).

(** [{ status: 'cancelled', isDeleted: true }] on the matching
    bookings. *)
Definition call_off (gid : ObjectId) (now : Z) (b : Booking.t)
  : Booking.t :=
  if open_from gid now b then
    Booking.set_isDeleted (Booking.set_status b Booking.cancelled now) true
      now
  else b.

Definition deleteGarage (gid : IdParam) (user : Principal) (now : Z)
  (db : Db) : Response * Db :=
  match gid with
  | NoId | BadId => (reply 400 "Invalid garage ID", db)
  | AnId i =>
      match Garage_findById db i with
      | None => (reply 404 "Garage not found", db)
      | Some garage =>
          if Garage.isDeleted garage then (reply 404 "Garage not found", db)
          else if negb (isOwner garage user)
                  && negb (Role_eqb (role user) admin) then
            (reply 403 "Not authorized to delete this garage", db)
          else
            let db1 :=
              Garage_save db
                (with_state garage Garage.suspended false true) in
            let db2 := set_services db1 (map (retire_service i) (services db1))
            in
            let db3 := set_bookings db2 (map (call_off i now) (bookings db2))
            in
            (reply 200 "Garage deleted successfully", db3)
      end
  end.

(** *** restoreGarage *)

Definition restoreGarage (gid : IdParam) (db : Db) : Response * Db :=
  match gid with
  | NoId | BadId => (reply 400 "Invalid garage ID", db)
  | AnId i =>
      match find (fun g => Nat.eqb (Garage._id g) i && Garage.isDeleted g)
              (garages db) with
      | None => (reply 404 "Deleted garage not found", db)
      | Some garage =>
          (reply 200 "Garage restored successfully",
           Garage_save db
             (with_state garage Garage.pending (Garage.isActive garage)
                false))
      end
  end.

End GarageCtl.

(* ================================================================== *)
(** ** controllers/user.controller.js: roles and hard delete *)
(* ================================================================== *)

Module UserCtl.

Definition User_findById (db : Db) (i : ObjectId) : option User.t :=
  find (fun u => Nat.eqb (User._id u) i) (users db).

Definition set_role (u : User.t) (r : Role) : User.t :=
  {| User._id := User._id u; User.role := r;
     User.canCreateGarage := User.canCreateGarage u;
     User.garageCreationPayments := User.garageCreationPayments u |}.

Definition role_of_string (s : string) : option Role :=
  find (fun r => String.eqb (Auth.role_name r) s)
    [admin; car_owner; garage_owner].

(** *** updateUserRole *)
Definition updateUserRole (uid : IdParam) (role_ : string)
  (user : Principal) (db : Db) : Response * Db :=
  if negb (Role_eqb (role user) admin) then
    (reply 403 "Only admins can update roles", db)
  else
    match role_of_string role_ with
    | None => (reply 400 "Invalid role", db)
    | Some r =>
        match uid with
        | BadId => (reply 500 PaymentOps.cast_error, db)
        | NoId => (reply 200 "User role updated", db)
        | AnId i =>
            (reply 200 "User role updated",
             match User_findById db i with
             | None => db
             | Some u =>
                 set_users db (replace User._id (set_role u r) (users db))
             end)
        end
    end.

(** *** hardDeleteUser

    The controller requires the models User, Booking, Review, Payment and
    Garage.  [Service] is not among them, so the branch for a garage
    owner throws at its first delete. *)

(** [findByIdAndDelete]: the first document with the id goes. *)
Fixpoint delete_first {A : Type} (p : A -> bool) (l : list A) : list A :=
  match l with
  | [] => []
  | x :: r => if p x then r else x :: delete_first p r
  end.

(** The deletes that every role but the garage owner reaches. *)
Definition delete_traces_of (i : ObjectId) (db : Db) : Db :=
  {| garages := garages db;
     services := services db;
     bookings :=
       filter (fun b => negb (Nat.eqb (Booking.carOwner b) i)) (bookings db);
     reviews :=
       filter (fun r => negb (Nat.eqb (Review.carOwner r) i)) (reviews db);
     payments :=
       filter (fun p => negb (Nat.eqb (Payment.user p) i)) (payments db);
     users := delete_first (fun u => Nat.eqb (User._id u) i) (users db) |}.

(** [req.user.id === id]: an ObjectId against the string of the route,
    false under [===]. *)
Definition own_account (user : Principal) (uid : IdParam) : bool := false.

Definition hardDeleteUser (uid : IdParam) (user : Principal) (db : Db)
  : Response * Db :=
  if negb (Role_eqb (role user) admin) then
    (reply 403 "Only admins can permanently delete users", db)
  else
    match uid with
    | BadId => (reply 500 "Error hard deleting user", db)
    | NoId => (reply 404 "User not found", db)
    | AnId i =>
        match User_findById db i with
        | None => (reply 404 "User not found", db)
        | Some u =>
            if own_account user uid then
              (reply 400 "Cannot hard delete your own account", db)
            else if Role_eqb (User.role u) garage_owner then
              (* [Garage.find] reads; the next statement,
                 [Service.deleteMany], names a model this controller
                 never requires: ReferenceError, the transaction is
                 aborted in the catch block *)
              (reply 500 "Error hard deleting user", db)
            else
              (reply 200 "User permanently deleted", delete_traces_of i db)
        end
    end.

End UserCtl.

(* ================================================================== *)
(** ** middleware/auth.middleware.js: authRateLimiter *)
(* ================================================================== *)

Module RateLimit.

Record Entry := { count : Z; firstAttempt : Z }.

(** A [Map] keyed by the address of the client. *)
Definition Attempts := list (string * Entry).

Definition get (m : Attempts) (ip : string) : option Entry :=
  option_map snd (find (fun kv => String.eqb (fst kv) ip) m).

Fixpoint set (m : Attempts) (ip : string) (e : Entry) : Attempts :=
  match m with
  | [] => [(ip, e)]
  | kv :: r => if String.eqb (fst kv) ip then (ip, e) :: r
               else kv :: set r ip e
  end.

Definition windowMs : Z := 15 * 60 * 1000.
Definition maxAttempts : Z := 5.

(** The body of the middleware on a given map: whether [next] is called,
    and the map afterwards. *)
Definition attempt (attempts : Attempts) (ip : string) (now : Z)
  : bool * Attempts :=
  match get attempts ip with
  | None => (true, set attempts ip {| count := 1; firstAttempt := now |})
  | Some data =>
      if windowMs <? now - firstAttempt data then
        (true, set attempts ip {| count := 1; firstAttempt := now |})
      else if maxAttempts <=? count data then (false, attempts)
      else
        (true,
         set attempts ip
           {| count := count data + 1;
              firstAttempt := firstAttempt data |})
  end.

(** The middleware: [const attempts = new Map()] is evaluated inside the
    function, so every request starts from the empty map.  [None] stands
    for the call of [next]. *)
Definition authRateLimiter (ip : string) (now : Z) : option Response :=
  if fst (attempt [] ip now) then None
  else Some (reply 429 "Too many login attempts, please try again later").

End RateLimit.

(* ================================================================== *)
(** ** controllers/service.controller.js: generateTimeSlots *)
(* ================================================================== *)

Module ServiceCtl.

(** A JavaScript number as far as the slots need it: an integer that a
    double holds exactly, NaN, or a value this development does not
    determine (a fraction, an exponent, a hexadecimal literal, an
    infinity, an integer from 2^53 on, or NaN after all). *)
Inductive Num :=
| Finite (z : Z)
| NaN
| Undetermined.

Definition safe (z : Z) : Num :=
  if Z.abs z <? 9007199254740992 then Finite z else Undetermined.

Definition is_digit (c : ascii) : bool :=
  let n := N_of_ascii c in (N.leb 48 n && N.leb n 57)%bool.

Fixpoint all_digits (s : string) : bool :=
  match s with
  | EmptyString => true
  | String c r => is_digit c && all_digits r
  end.

Fixpoint decimal (acc : Z) (s : string) : Z :=
  match s with
  | EmptyString => acc
  | String c r => decimal (acc * 10 + (Z.of_N (N_of_ascii c) - 48)) r
  end.

(** The characters a numeric string literal can be made of, and the
    bytes outside ASCII, which may encode white space. *)
Definition numeric_char (c : ascii) : bool :=
  is_digit c
  || N.leb 128 (N_of_ascii c)
  || existsb (Ascii.eqb c)
       (list_ascii_of_string "+-.eExXoObBaAcCdDfFInity").

Fixpoint all_numeric (s : string) : bool :=
  match s with
  | EmptyString => true
  | String c r => numeric_char c && all_numeric r
  end.

Definition unsigned (s : string) : option Z :=
  match s with
  | EmptyString => None
  | _ => if all_digits s then Some (decimal 0 s) else None
  end.

(** [Number(s)]: white space is trimmed, the empty string is 0, an
    optional sign and decimal digits give the integer, a string with an
    ASCII character no numeric literal contains gives NaN. *)
Definition toNumber (s : string) : Num :=
  let t := Js.trim s in
  match t with
  | EmptyString => Finite 0
  | String c r =>
      match unsigned t with
      | Some z => safe z
      | None =>
          match (if Ascii.eqb c "-" then option_map Z.opp (unsigned r)
                 else if Ascii.eqb c "+" then unsigned r
                 else None) with
          | Some z => safe z
          | None => if all_numeric t then Undetermined else NaN
          end
      end
  end.

(** An element of [time.split(':').map(Number)]; a missing element is
    [undefined], NaN in arithmetic. *)
Definition part (parts : list string) (n : nat) : Num :=
  match nth_error parts n with
  | Some s => toNumber s
  | None => NaN
  end.

Definition mul (a b : Num) : Num :=
  match a, b with
  | NaN, _ | _, NaN => NaN
  | Finite x, Finite y => safe (x * y)
  | _, _ => Undetermined
  end.

Definition add (a b : Num) : Num :=
  match a, b with
  | NaN, _ | _, NaN => NaN
  | Finite x, Finite y => safe (x + y)
  | _, _ => Undetermined
  end.

(** [hour * 60 + minute] *)
Definition minutes_of (time : string) : Num :=
  let parts := Js.split ":" time in
  add (mul (part parts 0) (Finite 60)) (part parts 1).

(** [x.toString().padStart(2, '0')] *)
Definition pad2 (z : Z) : string :=
  let s := Js.num_to_string z in
  if Nat.ltb (String.length s) 2 then "0" ++ s else s.

(** The string pushed for [currentTime]: [Math.floor(currentTime / 60)]
    and [currentTime % 60], padded. *)
Definition timeStr (currentTime : Z) : string :=
  pad2 (currentTime / 60) ++ ":" ++ pad2 (Z.rem currentTime 60).

(** The [while] loop, for at most [fuel] tests of its condition; [None]
    when the fuel runs out. *)
Fixpoint slots_from (fuel : nat) (currentTime duration endTime : Z)
  : option (list string) :=
  match fuel with
  | O => None
  | S n =>
      if currentTime + duration <=? endTime then
        option_map (cons (timeStr currentTime))
          (slots_from n (currentTime + duration) duration endTime)
      else Some []
  end.

Inductive Slots :=
| Returned (slots : list string)
| Unmodelled.

(** [duration] is the integral [service.duration]. *)
Definition generateTimeSlots (fuel : nat) (open close : string)
  (duration : Z) : option Slots :=
  match minutes_of open, minutes_of close with
  | Finite currentTime, Finite endTime =>
      option_map Returned (slots_from fuel currentTime duration endTime)
  | NaN, _ | _, NaN =>
      (* every comparison with NaN is false: the loop is not entered *)
      Some (Returned [])
  | _, _ => Some Unmodelled
  end.

End ServiceCtl.

(* ================================================================== *)
(** ** A small database used by the examples *)
(* ================================================================== *)

Module Sample.

Definition weekday_hours : Garage.Day :=
  {| Garage.open := Some "09:00"; Garage.close := Some "18:00";
     Garage.closed := false |}.

Definition closed_day : Garage.Day :=
  {| Garage.open := None; Garage.close := None; Garage.closed := true |}.

(** Garage 1: owned by user 10, active, open 09:00-18:00 Monday to
    Saturday, closed on Sunday. *)
Definition garage1 : Garage.t :=
  {| Garage._id := 1%nat; Garage.owner := 10%nat;
     Garage.businessHours :=
       {| Garage.monday := weekday_hours; Garage.tuesday := weekday_hours;
          Garage.wednesday := weekday_hours;
          Garage.thursday := weekday_hours; Garage.friday := weekday_hours;
          Garage.saturday := weekday_hours; Garage.sunday := closed_day |};
     Garage.status := Garage.active;
     Garage.stats :=
       {| Garage.totalBookings := 0; Garage.completedBookings := 0 |};
     Garage.isActive := true; Garage.isDeleted := false;
     Garage.creationPayment := None; Garage.paidAt := None |}.

(** Service 1 of garage 1 lasts 60 minutes. *)
Definition service1 : Service.t :=
  {| Service._id := 1%nat; Service.garage := 1%nat; Service.duration := 60;
     Service.isAvailable := true; Service.isDeleted := false |}.

Definition mk_user (i : ObjectId) (r : Role) : User.t :=
  {| User._id := i; User.role := r; User.canCreateGarage := false;
     User.garageCreationPayments := [] |}.

Definition db0 : Db :=
  {| garages := [garage1]; services := [service1]; bookings := [];
     reviews := [];  payments := [];
     users := [mk_user 10%nat garage_owner; mk_user 20%nat car_owner;
               mk_user 21%nat car_owner; mk_user 30%nat admin] |}.

Definition owner10 : Principal := {| id := 10%nat; role := garage_owner |}.
Definition driver20 : Principal := {| id := 20%nat; role := car_owner |}.
Definition driver21 : Principal := {| id := 21%nat; role := car_owner |}.
Definition admin30 : Principal := {| id := 30%nat; role := admin |}.

(** Monday 2024-06-10 and Sunday 2024-06-09, 00:00 UTC. *)
Definition monday_2024_06_10 : Z := 19884 * BookingCtl.ms_per_day.
Definition sunday_2024_06_09 : Z := 19883 * BookingCtl.ms_per_day.

Definition car : Booking.VehicleInfo :=
  {| Booking.make := "Toyota"; Booking.model := "Corolla";
     Booking.year := Some 2015; Booking.licensePlate := "AA-12345" |}.

Definition slot (s e : string) : TimeSlot := {| start := s; end_ := e |}.

Definition book (date : Z) (s e : string) : BookingCtl.CreateReq :=
  {| BookingCtl.garageId := AnId 1%nat;
     BookingCtl.serviceId := AnId 1%nat;
     BookingCtl.bookingDate := ADate date;
     BookingCtl.timeSlot := Some (slot s e);
     BookingCtl.vehicleInfo := Some car; BookingCtl.notes := "" |}.

Definition ask (date : Z) (s e : string) : BookingCtl.AvailReq :=
  {| BookingCtl.av_garageId := AnId 1%nat;
     BookingCtl.av_serviceId := AnId 1%nat;
     BookingCtl.av_date := ADate date;
     BookingCtl.av_timeSlot := Some (slot s e) |}.

Definition to (s : string) : BookingCtl.StatusReq :=
  {| BookingCtl.status := s; BookingCtl.reason := "" |}.

(** [db0] after driver 20 booked Monday 09:00-10:00 at time 1000. *)
Definition db1 : Db :=
  snd (BookingCtl.createBooking (book monday_2024_06_10 "09:00" "10:00")
         driver20 1000 db0).

(** Garage 1 as that request left it. *)
Definition garage1_booked : Garage.t :=
  Garage.pre_save
    (Garage.set_stats garage1
       {| Garage.totalBookings := 1; Garage.completedBookings := 0 |}).

(** The booking that request stored. *)
Definition booking1 : Booking.t :=
  {| Booking._id := 1%nat; Booking.carOwner := 20%nat;
     Booking.garage := 1%nat; Booking.service := 1%nat;
     Booking.bookingDate := monday_2024_06_10;
     Booking.timeSlot := slot "09:00" "10:00";
     Booking.status := Booking.pending; Booking.vehicleInfo := car;
     Booking.notes := ""; Booking.attachments := [];
     Booking.isDeleted := false; Booking.createdAt := 1000;
     Booking.updatedAt := 1000 |}.

End Sample.

(* ================================================================== *)
(** * Vocabulary of the properties, and scenarios *)
(* ================================================================== *)

(** ** The transition table of the specification *)

Module StateMachine.

Import BookingCtl.

(** The table as the specification words it: for each current status,
    the targets a transition request may name. *)
Definition spec_transitions (cur : Booking.Status) : list string :=
  match cur with
  | Booking.pending => ["approved"; "rejected"; "cancelled"]
  | Booking.approved => ["in_progress"; "cancelled"]
  | Booking.in_progress => ["completed"; "cancelled"]
  | Booking.completed | Booking.cancelled | Booking.rejected => []
  end.

(** The actor check of [updateBookingStatus]. *)
Definition may_drive (g : Garage.t) (user : Principal) : Prop :=
  Garage.owner g = id user \/ role user = admin.

End StateMachine.

(** ** Slots and the requests that write bookings *)

Module Slots.

Import BookingCtl.

(** At most one booking that is neither cancelled, rejected nor
    soft-deleted occupies a given (garage, date, start, end). *)
Definition slot_unique (l : list Booking.t) : Prop :=
  forall g d ts, (List.length (filter (slot_taken_by g d ts) l) <= 1)%nat.

(** The requests of the booking controller that write bookings. *)
Inductive Request :=
| Create (req : CreateReq) (user : Principal) (now : Z)
| Transition (bid : IdParam) (req : StatusReq) (user : Principal) (now : Z)
| Cancel (bid : IdParam) (reason : string) (user : Principal) (now : Z)
| Delete (bid : IdParam) (user : Principal) (now : Z).

Definition handle (r : Request) (db : Db) : Response * Db :=
  match r with
  | Create req user now => createBooking req user now db
  | Transition bid req user now => updateBookingStatus bid req user now db
  | Cancel bid reason user now => cancelBooking bid reason user now db
  | Delete bid user now => deleteBooking bid user now db
  end.

(** The database after a sequence of requests, served one after the
    other. *)
Fixpoint run (rs : list Request) (db : Db) : Db :=
  match rs with
  | [] => db
  | r :: rest => run rest (snd (handle r db))
  end.

(** A request whose fields are all present and well-formed. *)
Definition well_formed (req : CreateReq) (gid sid : ObjectId) (ms : Z)
  (ts : TimeSlot) (vi : Booking.VehicleInfo) : Prop :=
  garageId req = AnId gid /\ serviceId req = AnId sid
  /\ bookingDate req = ADate ms /\ timeSlot req = Some ts
  /\ vehicleInfo req = Some vi.

Definition created (req : CreateReq) (user : Principal) (now : Z) (db : Db)
  (gid sid : ObjectId) (ms : Z) (ts : TimeSlot) (vi : Booking.VehicleInfo)
  (garage : Garage.t) : Response * Db :=
  (reply 201 "Booking created successfully",
   Garage_save
     (set_bookings db
        (app (bookings db)
           [new_booking db user gid sid ms ts vi (notes req) now]))
     (count_booking garage)).

End Slots.

(** ** The availability query of a create request *)

Module Availability.

Import BookingCtl.

(** The availability query for the inputs of a create request. *)
Definition query (gid sid : ObjectId) (ms : Z) (ts : TimeSlot) : AvailReq :=
  {| av_garageId := AnId gid; av_serviceId := AnId sid;
     av_date := ADate ms; av_timeSlot := Some ts |}.

End Availability.

(** ** Times of day as zero-padded HH:MM strings *)

Module Clock.

Definition digit (n : nat) : ascii := ascii_of_nat (48 + n).

(** Two decimal digits, zero-padded. *)
Definition two (n : nat) : string :=
  String (digit (n / 10)) (String (digit (n mod 10)) "").

(** Minute [t] of the day, rendered as HH:MM. *)
Definition hhmm (t : nat) : string := two (t / 60) ++ ":" ++ two (t mod 60).

End Clock.

(** ** The garage counters and the scenario of the specification *)

Module Stats.

Import BookingCtl Slots.

Definition total (g : Garage.t) : Z := Garage.totalBookings (Garage.stats g).
Definition done (g : Garage.t) : Z :=
  Garage.completedBookings (Garage.stats g).

(** A safe integer: a whole number of magnitude below 2^53, the range in
    which a Number counts by one. *)
Definition safe (n : Z) : Prop := - Js.two53 < n < Js.two53.

(** A garage whose counters are safe integers. *)
Definition countable (g : Garage.t) : Prop := safe (total g) /\ safe (done g).

(** The actor check of [deleteBooking]. *)
Definition may_delete (db : Db) (b : Booking.t) (user : Principal) : Prop :=
  role user = admin
  \/ Booking.carOwner b = id user
  \/ (role user = garage_owner
      /\ Garage_exists db (Booking.garage b) (id user) = true).

(** The scenario of the specification on the sample garage: three
    bookings (created by two drivers on Monday), the first one driven
    through approved and in_progress to completed, then soft-deleted. *)
Definition three_created : Db :=
  run [Create (Sample.book Sample.monday_2024_06_10 "09:00" "10:00")
         Sample.driver20 1000;
       Create (Sample.book Sample.monday_2024_06_10 "10:00" "11:00")
         Sample.driver21 1001;
       Create (Sample.book Sample.monday_2024_06_10 "11:00" "12:00")
         Sample.driver20 1002]
    Sample.db0.

Definition one_completed : Db :=
  run [Transition (AnId 1%nat) (Sample.to "approved") Sample.owner10 2000;
       Transition (AnId 1%nat) (Sample.to "in_progress") Sample.owner10 2001;
       Transition (AnId 1%nat) (Sample.to "completed") Sample.owner10 2002]
    three_created.

Definition completed_deleted : Db :=
  run [Delete (AnId 1%nat) Sample.admin30 3000] one_completed.

Definition counters (db : Db) : list (Z * Z) :=
  map (fun g => (total g, done g)) (garages db).

(** The sample database with the counter of garage 1 at [n], as an
    admin's update of the garage can store it, and the database after
    driver 20 has booked Monday 09:00-10:00 in it. *)
Definition counting_from (n : Z) : Db :=
  set_garages Sample.db0
    [Garage.set_stats Sample.garage1
       {| Garage.totalBookings := n; Garage.completedBookings := 0 |}].

Definition booked_from (n : Z) : Response * Db :=
  createBooking (Sample.book Sample.monday_2024_06_10 "09:00" "10:00")
    Sample.driver20 1000 (counting_from n).

End Stats.

(** ** The status history after a reload *)

Module History.

Import BookingCtl.

(** What the next query sees of the history the handler built: the
    document comes back from the collection, hydrated. *)
Definition reloaded (db : Db) (i : ObjectId) : option Booking.Doc :=
  option_map Booking.hydrate (Booking_findById db i).

End History.

(** ** Provider notifications on the sample database *)

Module Settlement.

Import PaymentCtl.

(** A stand-in for the keyed hash, for the examples. *)
Definition sample_hmac (p : Payment.Payload) : string :=
  "hmac:" ++ Payment.tx_ref p ++ ":" ++ Payment.p_status p.

Definition notify (tx st : string) : Payment.Payload :=
  {| Payment.tx_ref := tx; Payment.p_status := st |}.

(** Payment 1 pays booking 1 (driver 20); payment 2 is the garage-creation
    payment of user 10 for garage 1.  Both are pending. *)
Definition payment1 : Payment.t :=
  {| Payment._id := 1%nat; Payment.user := 20%nat;
     Payment.paymentType := Payment.booking_payment;
     Payment.garageCreation_garage := None; Payment.booking := Some 1%nat;
     Payment.status := Payment.pending;
     Payment.transactionId := Some "tx-1";
     Payment.provider_response := Some (Payment.Init "https://checkout/1");
     Payment.paidAt := None |}.

Definition payment2 : Payment.t :=
  {| Payment._id := 2%nat; Payment.user := 10%nat;
     Payment.paymentType := Payment.garage_creation;
     Payment.garageCreation_garage := Some 1%nat; Payment.booking := None;
     Payment.status := Payment.pending;
     Payment.transactionId := Some "tx-2";
     Payment.provider_response := Some (Payment.Init "https://checkout/2");
     Payment.paidAt := None |}.

Definition paying : Db := set_payments Sample.db1 [payment1; payment2].


(** A delivery with a valid signature. *)
Definition deliver (tx st : string) (now : Z) (db : Db) : Response * Db :=
  handleChapaWebhook sample_hmac (notify tx st)
    (Some (sample_hmac (notify tx st))) now db.

(** First delivery of the settlement of payment 1, then the garage owner
    starts the work, then the same notification is delivered again. *)
Definition settled_once : Db := snd (deliver "tx-1" "success" 5000 paying).
Definition work_started : Db :=
  snd (BookingCtl.updateBookingStatus (AnId 1%nat) (Sample.to "in_progress")
         Sample.owner10 6000 settled_once).
Definition settled_twice : Db :=
  snd (deliver "tx-1" "success" 7000 work_started).

Definition booking_status (db : Db) (i : ObjectId) : option Booking.Status :=
  option_map Booking.status (Booking_findById db i).

Definition payment_state (db : Db) (tx : string)
  : option (Payment.Status * option Z) :=
  option_map (fun p => (Payment.status p, Payment.paidAt p))
    (Payment_findByTx db tx).

(** After the settlement of payment 1 and the success notification for
    the garage-creation payment 2 (which is answered 500 and leaves
    payment 2 pending, while the hook lets user 10 create a garage), a
    failure notification for each leaves booking 1 approved and user 10
    allowed to create a garage, and marks both payments failed. *)
Definition both_settled : Db :=
  snd (deliver "tx-2" "success" 5001 settled_once).
Definition both_failed : Db :=
  snd (deliver "tx-2" "failed" 8001
         (snd (deliver "tx-1" "failed" 8000 both_settled))).

(** Driver 20 cancels booking 1 while payment 1 is still pending, driver
    21 takes the freed slot, and then the provider reports payment 1 as
    settled. *)
Definition slot_rebooked : Db :=
  snd (BookingCtl.createBooking
         (Sample.book Sample.monday_2024_06_10 "09:00" "10:00")
         Sample.driver21 4000
         (snd (BookingCtl.cancelBooking (AnId 1%nat) "" Sample.driver20 3000
                 paying))).
Definition cancelled_then_paid : Db :=
  snd (deliver "tx-1" "success" 5000 slot_rebooked).

End Settlement.

(** ** Review requests *)

Module ReviewGate.

Import ReviewCtl.

(** A request whose fields are present and pass the schema validators. *)
Definition acceptable (req : CreateReq) (bid gid : ObjectId) : Prop :=
  bookingId req = AnId bid /\ garageId req = AnId gid
  /\ ~ (rating req == 0)%Q /\ title req <> "" /\ comment req <> ""
  /\ validate req = true.

(** No soft-deleted review holds the booking in the unique index. *)
Definition no_deleted_review (db : Db) (bid : ObjectId) : Prop :=
  forall r, In r (reviews db) -> Review.booking r = bid ->
            Review.isDeleted r = false.

(** Garage 2, of another owner. *)
Definition garage2 : Garage.t :=
  {| Garage._id := 2%nat; Garage.owner := 11%nat;
     Garage.businessHours := Garage.businessHours Sample.garage1;
     Garage.status := Garage.active;
     Garage.stats :=
       {| Garage.totalBookings := 0; Garage.completedBookings := 0 |};
     Garage.isActive := true; Garage.isDeleted := false;
     Garage.creationPayment := None; Garage.paidAt := None |}.

(** Booking 1 (driver 20, garage 1) is completed, bookings 2 (driver 21)
    and 3 (driver 20) are pending, and there are two garages. *)
Definition reviewing : Db :=
  set_garages Stats.one_completed
    (app (garages Stats.one_completed) [garage2]).

Definition review (b g : ObjectId) : CreateReq :=
  {| garageId := AnId g; bookingId := AnId b; rating := 5%Q;
     title := "Great service"; comment := "Quick and tidy";
     images := [] |}.

Definition reviewed_once : Db :=
  snd (createReview (review 1%nat 1%nat) Sample.driver20 reviewing).

(** [n] times the letter e with an acute accent (U+00E9, the bytes C3 A9),
    between two no-break spaces (U+00A0, the bytes C2 A0). *)
Fixpoint accented (n : nat) : string :=
  match n with
  | O => String (ascii_of_nat 194) (String (ascii_of_nat 160) "")
  | S k => String (ascii_of_nat 195) (String (ascii_of_nat 169) (accented k))
  end.

Definition titled (t : string) : CreateReq :=
  {| garageId := AnId 1%nat; bookingId := AnId 1%nat; rating := (9 # 2)%Q;
     title := String (ascii_of_nat 194) (String (ascii_of_nat 160) t);
     comment := "Quick and tidy"; images := [] |}.

End ReviewGate.

(** ** Requests without a principal *)

Module Access.

Import Routes.

(** POST /api/bookings/check-availability without an Authorization
    header. *)
Definition anonymous_check : Request :=
  {| req_method := POST; req_path := ["check-availability"];
     authorization := None |}.

End Access.

(** ** The order of the statuses *)

Module Lifecycle.

(** How far a booking has gone: the three terminal statuses rank last. *)
Definition rank (s : Booking.Status) : nat :=
  match s with
  | Booking.pending => 0
  | Booking.approved => 1
  | Booking.in_progress => 2
  | Booking.completed | Booking.cancelled | Booking.rejected => 3
  end.

Definition terminal (s : Booking.Status) : bool :=
  match s with
  | Booking.completed | Booking.cancelled | Booking.rejected => true
  | _ => false
  end.

(** What no request of the booking controller rewrites. *)
Definition same_reservation (a b : Booking.t) : Prop :=
  Booking._id a = Booking._id b
  /\ Booking.carOwner a = Booking.carOwner b
  /\ Booking.garage a = Booking.garage b
  /\ Booking.service a = Booking.service b
  /\ Booking.bookingDate a = Booking.bookingDate b
  /\ Booking.timeSlot a = Booking.timeSlot b
  /\ Booking.vehicleInfo a = Booking.vehicleInfo b
  /\ Booking.createdAt a = Booking.createdAt b.

(** One step of a booking's life as the next lookup sees it. *)
Definition advances (b b' : Booking.t) : Prop :=
  same_reservation b b'
  /\ (rank (Booking.status b) <= rank (Booking.status b'))%nat
  /\ (terminal (Booking.status b) = true ->
      Booking.status b' = Booking.status b)
  /\ (Booking.isDeleted b = true -> b' = b)
  /\ (Booking.isDeleted b' = false -> Booking.isDeleted b = false).

(** The bookings after any request of the controller: untouched, one
    new pending booking under a fresh id, or one stored booking that was
    not soft-deleted rewritten with a status of its table, as cancelled
    from pending or approved, or as soft-deleted. *)
Inductive Effect (db : Db) (l : list Booking.t) : Prop :=
| Untouched : l = bookings db -> Effect db l
| Inserted (b : Booking.t) :
    l = app (bookings db) [b] ->
    Booking._id b = fresh Booking._id (bookings db) ->
    Booking.status b = Booking.pending -> Booking.isDeleted b = false ->
    Effect db l
| Rewritten (b b' : Booking.t) :
    l = replace Booking._id b' (bookings db) ->
    Booking_findById db (Booking._id b') = Some b ->
    Booking.isDeleted b = false ->
    advances b b' ->
    Effect db l.

End Lifecycle.

(** ** Tokens of the sample users *)

Module Tokens.

(** A verifier that accepts one token per sample user. *)
Definition sample_jwt (token : string) : option ObjectId :=
  if String.eqb token "owner10" then Some 10%nat
  else if String.eqb token "driver20" then Some 20%nat
  else if String.eqb token "admin30" then Some 30%nat
  else None.

(** PUT /api/bookings/1/status with the given Authorization header. *)
Definition put_status (h : string) : Routes.Request :=
  {| Routes.req_method := Routes.PUT; Routes.req_path := ["1"; "status"];
     Routes.authorization := Some h |}.

End Tokens.

(** ** Minutes of a time of day *)

Module Duration.

(** [parseInt(t[0]) * 60 + parseInt(t[1])] on [t = time.split(':')], the
    operand of the subtraction in [slotDuration]. *)
Definition minutes (time : string) : option Z :=
  let t := Js.split ":" time in
  Js.add (Js.mul (Js.parseInt (nth_error t 0)) (Some 60))
    (Js.parseInt (nth_error t 1)).

(** Every minute of the day reads back as itself. *)
Definition reads_back (t : nat) : bool :=
  match minutes (Clock.hhmm t) with
  | Some z => Z.eqb z (Z.of_nat t)
  | None => false
  end.

End Duration.

(** ** Payments as the payment handlers write them *)

Module Payments.

Import PaymentCtl PaymentOps.

(** The document [initGaragePayment] inserts. *)
Definition new_garage_payment (db : Db) (user : Principal) (now : Z)
  (nonce url : string) : Payment.t :=
  {| Payment._id := fresh Payment._id (payments db);
     Payment.user := id user;
     Payment.paymentType := Payment.garage_creation;
     Payment.garageCreation_garage := None;
     Payment.booking := None;
     Payment.status := Payment.pending;
     Payment.transactionId := Some (garage_tx_ref now nonce);
     Payment.provider_response := Some (Payment.Init url);
     Payment.paidAt := None |}.

(** A payment after its refund. *)
Definition refunded (p : Payment.t) : Payment.t :=
  settle p Payment.refunded (Payment.provider_response p) (Payment.paidAt p).

(** A failed payment after its retry. *)
Definition retried (p : Payment.t) (now : Z) (url : string) : Payment.t :=
  {| Payment._id := Payment._id p;
     Payment.user := Payment.user p;
     Payment.paymentType := Payment.paymentType p;
     Payment.garageCreation_garage := Payment.garageCreation_garage p;
     Payment.booking := Payment.booking p;
     Payment.status := Payment.pending;
     Payment.transactionId := Some (retry_tx_ref p now);
     Payment.provider_response := Some (Payment.Init url);
     Payment.paidAt := Payment.paidAt p |}.

(** No other stored payment carries the transaction reference of [p]. *)
Definition reference_is_own (db : Db) (p : Payment.t) : Prop :=
  forall q, In q (payments db) ->
            Payment.transactionId q = Payment.transactionId p ->
            Payment._id q = Payment._id p.

(** Garage owner 10 pays 500 ETB at time 1000. *)
Definition owner_pays : Response * Db :=
  initGaragePayment (Some 500%Q) (Checkout "https://checkout/9") "ab12cd34"
    Sample.owner10 1000 Sample.db0.

(** Payment 2 of the settlement scenario, failed, retried at time 9000
    by its owner. *)
Definition owner_retries : Response * Db :=
  retryPayment (AnId 2%nat) (Checkout "https://checkout/2b") Sample.owner10
    9000 Settlement.both_failed.

(** The provider's verify endpoint reports that payment as settled. *)
Definition owner_verified : Db :=
  snd (verifyPayment "payment-1000-ab12cd34" (Some "success") 2000
         (snd owner_pays)).

(** Garage owner 10 pays 100.5 ETB. *)
Definition owner_pays_fraction : Response * Db :=
  initGaragePayment (Some (201 # 2)%Q) (Checkout "https://checkout/9")
    "ab12cd34" Sample.owner10 1000 Sample.db0.

(** An admin refunds the settled payment 1. *)
Definition admin_refunds : Response * Db :=
  initiateRefund (AnId 1%nat) "customer request" Sample.admin30 9000
    Settlement.settled_once.

End Payments.

(** ** Requests of one client to the rate limiter *)

Module Limiter.

Import RateLimit.

(** The requests of one client served by the body of the limiter over a
    map that is kept between them: the answers, oldest first. *)
Fixpoint served (attempts : Attempts) (ip : string) (times : list Z)
  : list bool :=
  match times with
  | [] => []
  | now :: rest =>
      fst (attempt attempts ip now)
      :: served (snd (attempt attempts ip now)) ip rest
  end.

(** The same requests served by the middleware as it is written. *)
Definition answered (ip : string) (times : list Z) : list (option Response) :=
  map (authRateLimiter ip) times.

End Limiter.

(** ** Garage 1 deleted and restored *)

Module GarageScenes.

Import GarageCtl.

(** An admin deletes garage 1 of the database with booking 1, at a time
    before the day of the booking, and restores it. *)
Definition garage_deleted : Db :=
  snd (deleteGarage (AnId 1%nat) Sample.admin30 1000 Sample.db1).

Definition garage_restored : Db :=
  snd (restoreGarage (AnId 1%nat) garage_deleted).

End GarageScenes.

(** ** Users removed for good *)

Module UserScenes.

Import UserCtl.

(** Admin 30 makes garage owner 10 a car owner and then deletes the
    account for good, in the database with booking 1. *)
Definition owner_demoted : Db :=
  snd (updateUserRole (AnId 10%nat) "car_owner" Sample.admin30 Sample.db1).

Definition owner_removed : Db :=
  snd (hardDeleteUser (AnId 10%nat) Sample.admin30 owner_demoted).

(** Admin 30 deletes driver 20, who holds booking 1. *)
Definition driver_removed : Db :=
  snd (hardDeleteUser (AnId 20%nat) Sample.admin30 Sample.db1).

(** Admin 30 asks for the hard delete of garage owner 10. *)
Definition owner_kept : Response * Db :=
  hardDeleteUser (AnId 10%nat) Sample.admin30 Sample.db1.

End UserScenes.

(** ** What the attachment handlers write *)

Module AttachmentEffect.

Import Attachments.

(** What either handler does to the bookings: nothing, or one booking
    that is not soft-deleted gets new attachments. *)
Inductive Rewrite (db : Db) (db' : Db) : Prop :=
| Nothing : db' = db -> Rewrite db db'
| Attached (i : ObjectId) (b : Booking.t) (l : list string) (now : Z) :
    Booking_findById db i = Some b ->
    Booking.isDeleted b = false ->
    db' = set_bookings db
            (replace Booking._id (set_attachments b l now) (bookings db)) ->
    Rewrite db db'.

End AttachmentEffect.

(** ** Strings without leading white space *)

Module Trimmed.

Import Js.

(** Whether a string starts with a white-space character. *)
Definition starts_with_space (s : string) : bool :=
  match s with
  | String a r =>
      ws1 a
      || match r with
         | String b r2 =>
             ws2 a b
             || match r2 with
                | String c _ => ws3 a b c
                | EmptyString => false
                end
         | EmptyString => false
         end
  | EmptyString => false
  end.

(** Whether a string ends with one, for a string given last byte
    first. *)
Definition ends_with_space (s : string) : bool :=
  match s with
  | String a r =>
      ws1 a
      || match r with
         | String b r2 =>
             ws2 b a
             || match r2 with
                | String c _ => ws3 c b a
                | EmptyString => false
                end
         | EmptyString => false
         end
  | EmptyString => false
  end.

(** The opening time 09:00 between a no-break space (U+00A0, the bytes
    C2 A0) and an ideographic space (U+3000, the bytes E3 80 80). *)
Definition padded_opening : string :=
  String (ascii_of_nat 194) (String (ascii_of_nat 160) "09:00")
  ++ String (ascii_of_nat 227)
       (String (ascii_of_nat 128) (String (ascii_of_nat 128) "")).

(** The characters of ASCII only. *)
Fixpoint ascii_only (s : string) : bool :=
  match s with
  | EmptyString => true
  | String a r => single a && ascii_only r
  end.

End Trimmed.

(** ** The slots of a day *)

Module DaySlots.

Import ServiceCtl.

(** The starts the loop reaches from minute [o] with step [d] up to the
    closing minute [c]. *)
Definition starts (o c d : nat) : list nat :=
  map (fun k => (o + k * d)%nat) (seq 0 ((c - o) / d)).

(** Minute [t] of the day reads back from its HH:MM form, and is written
    by the loop as that form. *)
Definition agrees (t : nat) : bool :=
  match minutes_of (Clock.hhmm t) with
  | Finite z => Z.eqb z (Z.of_nat t)
  | _ => false
  end
  && String.eqb (timeStr (Z.of_nat t)) (Clock.hhmm t).

End DaySlots.

(* ================================================================== *)
(** * Properties *)
(* ================================================================== *)

Example sample_monday :
  BookingCtl.dayOfWeek 0 (ADate Sample.monday_2024_06_10) = "monday".
Proof. reflexivity. Qed.

Example sample_create :
  fst (BookingCtl.createBooking
         (Sample.book Sample.monday_2024_06_10 "09:00" "10:00")
         Sample.driver20 1000 Sample.db0)
  = reply 201 "Booking created successfully"
  /\ map Booking.status (bookings Sample.db1) = [Booking.pending]
  /\ map Garage.stats (garages Sample.db1)
     = [{| Garage.totalBookings := 1; Garage.completedBookings := 0 |}].
Proof. repeat split. Qed.

Example sample_available :
  BookingCtl.checkAvailability 0
    (Sample.ask Sample.monday_2024_06_10 "09:00" "10:00") Sample.db0
  = BookingCtl.Available "Time slot is available"
  /\ BookingCtl.checkAvailability 0
       (Sample.ask Sample.monday_2024_06_10 "09:00" "10:00") Sample.db1
     = BookingCtl.Unavailable "Time slot already booked"
  /\ BookingCtl.checkAvailability 0
       (Sample.ask Sample.monday_2024_06_10 "09:00" "09:30") Sample.db0
     = BookingCtl.Unavailable
         "Time slot duration (30min) is less than service duration (60min)".
Proof. repeat split. Qed.

(* ================================================================== *)
(** ** Collections: lookups after a write *)
(* ================================================================== *)

Section Collections.

Context {A : Type} (key : A -> ObjectId).

Lemma find_by_id_key (l : list A) (i : ObjectId) (x : A) :
  find (by_id key i) l = Some x -> key x = i.
Proof.
  intros H. apply find_some in H. destruct H as [_ H].
  now apply Nat.eqb_eq in H.
Qed.

(** Looking a document up by the id it was just written under. *)
Lemma find_replace_same (l : list A) (x y : A) :
  find (by_id key (key x)) l = Some y ->
  find (by_id key (key x)) (replace key x l) = Some x.
Proof.
  unfold by_id. induction l as [|z l IH]; simpl; [discriminate|].
  destruct (Nat.eqb (key z) (key x)) eqn:E.
  - intros _. simpl. now rewrite Nat.eqb_refl.
  - intros H. simpl. rewrite E. now apply IH.
Qed.

Lemma find_replace_other (l : list A) (x : A) (i : ObjectId) :
  i <> key x ->
  find (by_id key i) (replace key x l) = find (by_id key i) l.
Proof.
  unfold by_id. intros N. induction l as [|z l IH]; simpl; [reflexivity|].
  destruct (Nat.eqb (key z) (key x)) eqn:E.
  - simpl. apply Nat.eqb_eq in E.
    destruct (Nat.eqb (key x) i) eqn:E1.
    + apply Nat.eqb_eq in E1. congruence.
    + destruct (Nat.eqb (key z) i) eqn:E2; [|reflexivity].
      apply Nat.eqb_eq in E2. apply Nat.eqb_neq in E1. congruence.
  - simpl. now rewrite IH.
Qed.

Lemma replace_absent (l : list A) (x : A) :
  find (by_id key (key x)) l = None -> replace key x l = l.
Proof.
  unfold by_id. induction l as [|z l IH]; simpl; [reflexivity|].
  destruct (Nat.eqb (key z) (key x)); [discriminate|].
  intros H. now rewrite IH.
Qed.

(** Writing [x] over [y] cannot add a match for [p] when [x] matches
    only if [y] did. *)
Lemma replace_filter_le (p : A -> bool) (l : list A) (x y : A) :
  find (by_id key (key x)) l = Some y ->
  (p x = true -> p y = true) ->
  (List.length (filter p (replace key x l)) <= List.length (filter p l))%nat.
Proof.
  unfold by_id. induction l as [|z l IH]; simpl; [discriminate|].
  destruct (Nat.eqb (key z) (key x)) eqn:E.
  - intros [= ->] Hp. simpl. destruct (p x) eqn:Px.
    + rewrite (Hp eq_refl). simpl. lia.
    + destruct (p y); simpl; lia.
  - intros H Hp. simpl. specialize (IH H Hp).
    destruct (p z); simpl; lia.
Qed.

Lemma replace_filter_none (p : A -> bool) (l : list A) (x : A) :
  p x = false ->
  (List.length (filter p (replace key x l)) <= List.length (filter p l))%nat.
Proof.
  intros Px. induction l as [|z l IH]; simpl; [lia|].
  destruct (Nat.eqb (key z) (key x)).
  - simpl. rewrite Px. destruct (p z); simpl; lia.
  - simpl. destruct (p z); simpl; lia.
Qed.

(** With unique ids, a query that pins the id finds what the lookup by
    id finds. *)
Lemma find_pinned (q : A -> bool) (l : list A) (i : ObjectId) (x : A) :
  NoDup (map key l) ->
  (forall y, q y = true -> key y = i) ->
  find q l = Some x ->
  find (by_id key i) l = Some x.
Proof.
  intros ND Hq. unfold by_id.
  induction l as [|z l IH]; simpl; [discriminate|].
  inversion ND as [|k ks Nin ND']; subst.
  destruct (q z) eqn:Ez.
  - intros [= ->]. apply Hq in Ez. now rewrite Ez, Nat.eqb_refl.
  - intros H. destruct (Nat.eqb (key z) i) eqn:E; [|auto].
    exfalso. apply Nin. apply find_some in H. destruct H as [Hin Hx].
    apply Hq in Hx. apply Nat.eqb_eq in E. rewrite E, <- Hx.
    now apply in_map.
Qed.

End Collections.

(* ================================================================== *)
(** ** The JavaScript primitives *)
(* ================================================================== *)

Module JsFacts.

Import Js Trimmed.

(** *** Numbers *)

(** Below 2^53 every integer is a double. *)
Lemma double_safe z : Z.abs z < two53 -> double z = z.
Proof.
  intros H. unfold double. apply Z.ltb_lt in H. now rewrite H.
Qed.

Lemma plus_safe x y : Z.abs (x + y) < two53 -> plus x y = x + y.
Proof. apply double_safe. Qed.

Lemma minus_safe x y : Z.abs (x - y) < two53 -> minus x y = x - y.
Proof. apply double_safe. Qed.

(** Reading the digits that the Standard Library prints. *)
Lemma digits_acc d : forall acc,
  digits 10 (Some (Zpos acc)) (NilEmpty.string_of_uint d)
  = Some (Zpos (Pos.of_uint_acc d acc)).
Proof.
  induction d as [|d IH|d IH|d IH|d IH|d IH|d IH|d IH|d IH|d IH|d IH];
    intros acc; [reflexivity|..];
    cbn [NilEmpty.string_of_uint digits Pos.of_uint_acc];
    match goal with
    | |- context [digit_val 10 ?c] =>
        let v := eval vm_compute in (digit_val 10 c) in
        change (digit_val 10 c) with v
    end;
    cbv iota;
    match goal with
    | |- digits 10 (Some ?x) _ = Some (Zpos (Pos.of_uint_acc d ?a)) =>
        replace x with (Zpos a) by lia
    end;
    apply IH.
Qed.

Lemma digits_zero d :
  digits 10 (Some 0) (NilEmpty.string_of_uint d)
  = Some (Z.of_N (Pos.of_uint d)).
Proof.
  induction d as [|d IH|d IH|d IH|d IH|d IH|d IH|d IH|d IH|d IH|d IH];
    [reflexivity|exact IH|..];
    cbn [NilEmpty.string_of_uint digits Pos.of_uint];
    match goal with
    | |- context [digit_val 10 ?c] =>
        let v := eval vm_compute in (digit_val 10 c) in
        change (digit_val 10 c) with v
    end;
    cbv iota; cbn [Z.mul Z.add]; apply digits_acc.
Qed.

Lemma digits_fresh d :
  d <> Decimal.Nil ->
  digits 10 None (NilEmpty.string_of_uint d)
  = Some (Z.of_N (Pos.of_uint d)).
Proof.
  destruct d as [|d|d|d|d|d|d|d|d|d|d]; intros H;
    [contradiction|exact (digits_zero d)|..];
    cbn [NilEmpty.string_of_uint digits Pos.of_uint];
    match goal with
    | |- context [digit_val 10 ?c] =>
        let v := eval vm_compute in (digit_val 10 c) in
        change (digit_val 10 c) with v
    end;
    cbv iota; apply digits_acc.
Qed.

Lemma not_hex d : strip_hex (NilEmpty.string_of_uint d) = None.
Proof.
  destruct d as [|d|d|d|d|d|d|d|d|d|d]; try reflexivity.
  destruct d; reflexivity.
Qed.

Lemma printed_positive p :
  NilZero.string_of_uint (Pos.to_uint p)
  = NilEmpty.string_of_uint (Pos.to_uint p).
Proof.
  pose proof (DecimalPos.Unsigned.to_uint_nonnil p) as H.
  destruct (Pos.to_uint p); [contradiction|..]; reflexivity.
Qed.

Lemma parse_unsigned_printed p :
  parse_unsigned (NilZero.string_of_uint (Pos.to_uint p)) = Some (Zpos p).
Proof.
  rewrite printed_positive. unfold parse_unsigned. rewrite not_hex.
  rewrite digits_fresh by apply DecimalPos.Unsigned.to_uint_nonnil.
  now rewrite DecimalPos.Unsigned.of_to.
Qed.

(** A string that starts with a byte of ASCII that is no white space
    starts with no white space. *)
Lemma skip_ws_head a r :
  single a = true -> is_space (byte a) = false ->
  skip_ws (String a r) = String a r.
Proof.
  intros H1 H2.
  assert (L2 : lead2 a = false).
  { unfold lead2, single, between in *. apply N.ltb_lt in H1.
    apply andb_false_iff. left. apply N.leb_gt. lia. }
  assert (L3 : lead3 a = false).
  { unfold lead3, single, between in *. apply N.ltb_lt in H1.
    apply andb_false_iff. left. apply N.leb_gt. lia. }
  cbn [skip_ws]. unfold ws1, ws2, ws3. rewrite H2, L2, L3, andb_false_r.
  destruct r as [|b [|c r3]]; reflexivity.
Qed.

Lemma printed_head d :
  d <> Decimal.Nil ->
  exists a r,
    NilEmpty.string_of_uint d = String a r
    /\ single a = true /\ is_space (byte a) = false
    /\ a <> "-"%char /\ a <> "+"%char.
Proof.
  destruct d; intros H; [contradiction|..];
    eexists; eexists; (split; [reflexivity|]);
    repeat split; discriminate.
Qed.

Lemma parseInt_unsigned s a r :
  s = String a r ->
  single a = true -> is_space (byte a) = false ->
  a <> "-"%char -> a <> "+"%char ->
  parseInt (Some s) = option_map double (parse_unsigned s).
Proof.
  intros -> H1 H2 Hm Hp. unfold parseInt. rewrite (skip_ws_head a r H1 H2).
  destruct a as [[|] [|] [|] [|] [|] [|] [|] [|]];
    try reflexivity; contradiction.
Qed.

(** [parseInt] reads the decimal digits of an integer back. *)
Lemma parseInt_decimal z : parseInt (Some (decimal z)) = Some (double z).
Proof.
  destruct z as [|p|p]; [reflexivity| |].
  - unfold decimal. cbn [Z.to_int NilZero.string_of_int].
    destruct (printed_head (Pos.to_uint p)
                (DecimalPos.Unsigned.to_uint_nonnil p))
      as (a & r & E & H1 & H2 & Hm & Hp).
    rewrite printed_positive in *.
    rewrite (parseInt_unsigned _ a r E H1 H2 Hm Hp).
    rewrite <- printed_positive, parse_unsigned_printed. reflexivity.
  - unfold decimal. cbn [Z.to_int NilZero.string_of_int].
    unfold parseInt.
    rewrite (skip_ws_head "-" _ eq_refl eq_refl).
    rewrite parse_unsigned_printed. reflexivity.
Qed.

Lemma num_to_string_safe z : Z.abs z < two53 -> num_to_string z = decimal z.
Proof.
  intros H. unfold num_to_string, render.
  destruct z as [|p|p]; cbn [Z.ltb Z.compare Z.opp] in *.
  - reflexivity.
  - apply Z.ltb_lt in H. cbn [Z.abs] in H. now rewrite H.
  - apply Z.ltb_lt in H. cbn [Z.abs] in H. now rewrite H.
Qed.

(** [parseInt(x) || 0] leaves a safe integer as it is. *)
Lemma whole_safe z : Z.abs z < two53 -> Garage.whole z = z.
Proof.
  intros H. unfold Garage.whole.
  rewrite (num_to_string_safe z H), parseInt_decimal, (double_safe z H).
  reflexivity.
Qed.

(** *** Strings *)

Local Open Scope string_scope.

(** On the characters of ASCII the code units are the bytes. *)
Lemma units_ascii s :
  ascii_only s = true -> units s = map byte (list_ascii_of_string s).
Proof.
  unfold units. induction s as [|a r IH]; [reflexivity|].
  cbn [ascii_only]. intros H. apply andb_prop in H. destruct H as [Ha Hr].
  cbn [points list_ascii_of_string map]. rewrite Ha. cbn [flat_map].
  rewrite (IH Hr). unfold utf16.
  replace (N.ltb (byte a) 65536) with true; [reflexivity|].
  symmetry. unfold single in Ha. apply N.ltb_lt in Ha. apply N.ltb_lt. lia.
Qed.

Lemma units_leb_bytes a : forall b,
  units_leb (map byte (list_ascii_of_string a))
    (map byte (list_ascii_of_string b))
  = String.leb a b.
Proof.
  unfold String.leb.
  induction a as [|x a IH]; intros [|y b]; try reflexivity.
  cbn [list_ascii_of_string map units_leb String.compare].
  unfold Ascii.compare. fold (byte x). fold (byte y).
  destruct (N.compare_spec (byte x) (byte y)) as [E|L|G].
  - rewrite E, N.ltb_irrefl. apply IH.
  - apply N.ltb_lt in L. now rewrite L.
  - assert (H : N.ltb (byte x) (byte y) = false) by (apply N.ltb_ge; lia).
    apply N.ltb_lt in G. now rewrite H, G.
Qed.

(** So on such strings the comparison of the language is the comparison
    of the bytes. *)
Lemma leb_ascii a b :
  ascii_only a = true -> ascii_only b = true -> leb a b = String.leb a b.
Proof.
  intros Ha Hb. unfold leb.
  rewrite (units_ascii a Ha), (units_ascii b Hb). apply units_leb_bytes.
Qed.

Lemma app_assoc_s (a b c : string) : (a ++ b) ++ c = a ++ (b ++ c).
Proof. induction a as [|x a IH]; simpl; [reflexivity|now rewrite IH]. Qed.

Lemma app_empty_s (a : string) : a ++ "" = a.
Proof. induction a as [|x a IH]; simpl; [reflexivity|now rewrite IH]. Qed.

Lemma rev_string_acc acc s : rev_string acc s = rev_string "" s ++ acc.
Proof.
  revert acc. induction s as [|c s IH]; intros acc; simpl; [reflexivity|].
  rewrite (IH (String c acc)), (IH (String c "")), app_assoc_s.
  reflexivity.
Qed.

Lemma rev_string_app a b :
  rev_string "" (a ++ b) = rev_string "" b ++ rev_string "" a.
Proof.
  induction a as [|c a IH]; simpl.
  - now rewrite app_empty_s.
  - rewrite (rev_string_acc (String c "") (a ++ b)), IH,
      (rev_string_acc (String c "") a), app_assoc_s.
    reflexivity.
Qed.

Lemma rev_string_involutive s : rev_string "" (rev_string "" s) = s.
Proof.
  induction s as [|c s IH]; simpl; [reflexivity|].
  rewrite (rev_string_acc (String c "") s), rev_string_app, IH.
  reflexivity.
Qed.

(** One step of [skip_ws]: the string does not start with white space
    and is returned, or it starts with a white-space character, after
    which the function goes on. *)
Lemma skip_ws_step s :
  (starts_with_space s = false /\ skip_ws s = s)
  \/ exists w r,
       s = w ++ r /\ (String.length r < String.length s)%nat
       /\ skip_ws s = skip_ws r.
Proof.
  destruct s as [|a r]; [left; split; reflexivity|].
  cbn [skip_ws starts_with_space]. destruct (ws1 a).
  { right. exists (String a ""), r. repeat split. simpl. lia. }
  destruct r as [|b r2]; [left; split; reflexivity|].
  destruct (ws2 a b).
  { right. exists (String a (String b "")), r2. repeat split. simpl. lia. }
  destruct r2 as [|c r3]; [left; split; reflexivity|].
  destruct (ws3 a b c).
  { right. exists (String a (String b (String c ""))), r3.
    repeat split. simpl. lia. }
  left. split; reflexivity.
Qed.

Lemma skip_ws_back_step s :
  (ends_with_space s = false /\ skip_ws_back s = s)
  \/ exists w r,
       s = w ++ r /\ (String.length r < String.length s)%nat
       /\ skip_ws_back s = skip_ws_back r.
Proof.
  destruct s as [|a r]; [left; split; reflexivity|].
  cbn [skip_ws_back ends_with_space]. destruct (ws1 a).
  { right. exists (String a ""), r. repeat split. simpl. lia. }
  destruct r as [|b r2]; [left; split; reflexivity|].
  destruct (ws2 b a).
  { right. exists (String a (String b "")), r2. repeat split. simpl. lia. }
  destruct r2 as [|c r3]; [left; split; reflexivity|].
  destruct (ws3 c b a).
  { right. exists (String a (String b (String c ""))), r3.
    repeat split. simpl. lia. }
  left. split; reflexivity.
Qed.

(** What [skip_ws] returns is the end of its argument and starts with no
    white space. *)
Lemma skip_ws_spec s :
  starts_with_space (skip_ws s) = false /\ exists w, s = w ++ skip_ws s.
Proof.
  remember (String.length s) as n eqn:En.
  revert s En. induction n as [n IH] using lt_wf_ind. intros s En.
  destruct (skip_ws_step s) as [[H E]|(w & r & Es & Hl & E)].
  - rewrite E. split; [exact H|]. now exists "".
  - rewrite E. destruct (IH (String.length r) ltac:(lia) r eq_refl)
      as [H [w' Hw']].
    split; [exact H|]. exists (w ++ w'). rewrite app_assoc_s, <- Hw'.
    exact Es.
Qed.

Lemma skip_ws_back_spec s :
  ends_with_space (skip_ws_back s) = false
  /\ exists w, s = w ++ skip_ws_back s.
Proof.
  remember (String.length s) as n eqn:En.
  revert s En. induction n as [n IH] using lt_wf_ind. intros s En.
  destruct (skip_ws_back_step s) as [[H E]|(w & r & Es & Hl & E)].
  - rewrite E. split; [exact H|]. now exists "".
  - rewrite E. destruct (IH (String.length r) ltac:(lia) r eq_refl)
      as [H [w' Hw']].
    split; [exact H|]. exists (w ++ w'). rewrite app_assoc_s, <- Hw'.
    exact Es.
Qed.

Lemma skip_ws_fixed s : starts_with_space s = false -> skip_ws s = s.
Proof.
  intros H. destruct s as [|a [|b [|c r3]]]; cbn [skip_ws starts_with_space]
    in *; try reflexivity.
  - apply orb_false_elim in H. destruct H as [H _]. now rewrite H.
  - apply orb_false_elim in H. destruct H as [H1 H].
    rewrite orb_false_r in H. now rewrite H1, H.
  - apply orb_false_elim in H. destruct H as [H1 H].
    apply orb_false_elim in H. destruct H as [H2 H3].
    now rewrite H1, H2, H3.
Qed.

Lemma skip_ws_back_fixed s : ends_with_space s = false -> skip_ws_back s = s.
Proof.
  intros H. destruct s as [|a [|b [|c r3]]];
    cbn [skip_ws_back ends_with_space] in *; try reflexivity.
  - apply orb_false_elim in H. destruct H as [H _]. now rewrite H.
  - apply orb_false_elim in H. destruct H as [H1 H].
    rewrite orb_false_r in H. now rewrite H1, H.
  - apply orb_false_elim in H. destruct H as [H1 H].
    apply orb_false_elim in H. destruct H as [H2 H3].
    now rewrite H1, H2, H3.
Qed.

(** A string that starts with no white space has no beginning that
    does. *)
Lemma starts_prefix a w :
  starts_with_space (a ++ w) = false -> starts_with_space a = false.
Proof.
  destruct a as [|x [|y [|z r]]]; cbn [String.append starts_with_space];
    try reflexivity.
  - intros H. apply orb_false_elim in H. destruct H as [H _].
    now rewrite H.
  - intros H. apply orb_false_elim in H. destruct H as [H1 H].
    destruct w; [now rewrite H1, H|].
    apply orb_false_elim in H. destruct H as [H2 _]. now rewrite H1, H2.
  - auto.
Qed.

Lemma trim_starts s : starts_with_space (trim s) = false.
Proof.
  unfold trim.
  destruct (skip_ws_back_spec (rev_string "" (skip_ws s))) as [_ [w Hw]].
  pose proof (proj1 (skip_ws_spec s)) as Hc.
  rewrite <- (rev_string_involutive (skip_ws s)) in Hc.
  rewrite Hw, rev_string_app in Hc.
  exact (starts_prefix _ _ Hc).
Qed.

(** Trimming a trimmed string changes nothing. *)
Lemma trim_idempotent s : trim (trim s) = trim s.
Proof.
  unfold trim at 1. rewrite (skip_ws_fixed _ (trim_starts s)).
  unfold trim. rewrite rev_string_involutive.
  now rewrite (skip_ws_back_fixed _ (proj1 (skip_ws_back_spec _))).
Qed.

End JsFacts.


(* ================================================================== *)
(** ** The booking state machine *)
(* ================================================================== *)

Module StateMachineFacts.

Import BookingCtl StateMachine.

Lemma may_drive_passes g user :
  may_drive g user ->
  negb (Nat.eqb (Garage.owner g) (id user))
  && negb (Role_eqb (role user) admin) = false.
Proof.
  intros [H|H].
  - rewrite H, Nat.eqb_refl. reflexivity.
  - rewrite H. simpl. apply andb_false_r.
Qed.

Lemma name_inj a b : Booking.name a = Booking.name b -> a = b.
Proof. destruct a, b; simpl; congruence. Qed.

(** The handler's table and the specification's agree. *)
Lemma includes_spec cur t :
  In t (spec_transitions cur) <->
  exists s, includes (validTransitions cur) t = Some s.
Proof.
  unfold includes. split.
  - destruct cur; simpl; intros H;
      repeat (destruct H as [<-|H]; [eexists; reflexivity|]);
      contradiction.
  - intros [s H]. apply find_some in H. destruct H as [Hin Hn].
    apply String.eqb_eq in Hn. subst t.
    destruct cur; simpl in *; intuition (subst; simpl; auto).
Qed.

Lemma includes_name l t s : includes l t = Some s -> Booking.name s = t.
Proof.
  unfold includes. intros H. apply find_some in H.
  now apply String.eqb_eq.
Qed.

Lemma includes_none cur t :
  ~ In t (spec_transitions cur) -> includes (validTransitions cur) t = None.
Proof.
  intros N. destruct (includes (validTransitions cur) t) eqn:E; [|easy].
  exfalso. apply N, includes_spec. eauto.
Qed.

(** No request for the current status is in the table. *)
Lemma current_not_in_table cur :
  ~ In (Booking.name cur) (spec_transitions cur).
Proof. destruct cur; simpl; intuition discriminate. Qed.

Lemma bookings_Garage_save db g : bookings (Garage_save db g) = bookings db.
Proof. reflexivity. Qed.

Lemma findById_after_save db d b :
  Booking_findById db (Booking._id (Booking.paths d)) = Some b ->
  Booking_findById (Booking_save db d) (Booking._id (Booking.paths d))
  = Some (Booking.paths d).
Proof.
  unfold Booking_findById, Booking_save. simpl.
  apply (find_replace_same Booking._id).
Qed.

(** What [updateBookingStatus] does once the booking is found, its
    garage is there and the actor may drive it. *)
Lemma update_cases db i b g req user now :
  Booking_findById db i = Some b ->
  Booking.isDeleted b = false ->
  Garage_findById db (Booking.garage b) = Some g ->
  may_drive g user ->
  status req <> "" ->
  updateBookingStatus (AnId i) req user now db =
  if String.eqb (Booking.name (Booking.status b)) (status req) then
    (reply 200 ("Booking already " ++ status req), db)
  else
    match includes (validTransitions (Booking.status b)) (status req) with
    | None =>
        (reply 400 ("Cannot transition from "
                    ++ Booking.name (Booking.status b)
                    ++ " to " ++ status req), db)
    | Some target =>
        (reply 200 ("Booking " ++ status req ++ " successfully"),
         Booking_save
           (if Booking.Status_eqb target Booking.completed then
              Garage_save db (count_completed g)
            else db)
           (push_history (Booking.hydrate b) target (id user)
              (or_default (reason req) ("Status changed to " ++ status req))
              now))
    end.
Proof.
  intros Hb Hd Hg Hu Hs. unfold updateBookingStatus.
  apply String.eqb_neq in Hs. rewrite Hs, Hb, Hd, Hg.
  rewrite (may_drive_passes _ _ Hu). reflexivity.
Qed.

Lemma cancel_cases db i b reason user now :
  find (fun b => Nat.eqb (Booking._id b) i
                 && Nat.eqb (Booking.carOwner b) (id user)
                 && negb (Booking.isDeleted b)) (bookings db) = Some b ->
  cancelBooking (AnId i) reason user now db =
  if existsb (Booking.Status_eqb (Booking.status b)) cancellableStatuses then
    (reply 200 "Booking cancelled successfully",
     Booking_save db
       (push_history (Booking.hydrate b) Booking.cancelled (id user)
          (or_default reason "Cancelled by customer") now))
  else
    (reply 400 ("Cannot cancel booking with status: "
                ++ Booking.name (Booking.status b)), db).
Proof. intros H. unfold cancelBooking. now rewrite H. Qed.

(** A request that names a target of the table is performed: the stored
    booking carries the target status. *)
Lemma update_performs db i b g req user now :
  Booking_findById db i = Some b ->
  Booking.isDeleted b = false ->
  Garage_findById db (Booking.garage b) = Some g ->
  may_drive g user ->
  In (status req) (spec_transitions (Booking.status b)) ->
  fst (updateBookingStatus (AnId i) req user now db)
  = reply 200 ("Booking " ++ status req ++ " successfully")
  /\ exists s,
      Booking.name s = status req
      /\ Booking_findById (snd (updateBookingStatus (AnId i) req user now db))
           i = Some (Booking.set_status b s now).
Proof.
  intros Hb Hd Hg Hu Hin.
  assert (Hs : status req <> "").
  { intros E. rewrite E in Hin.
    destruct (Booking.status b); simpl in Hin; intuition discriminate. }
  rewrite (update_cases _ _ _ _ _ _ _ Hb Hd Hg Hu Hs).
  destruct (String.eqb_spec (Booking.name (Booking.status b)) (status req))
    as [E|_].
  { exfalso. rewrite <- E in Hin. now apply current_not_in_table in Hin. }
  apply includes_spec in Hin. destruct Hin as [s Hs'].
  rewrite Hs'. split; [reflexivity|].
  exists s. split; [now apply includes_name in Hs'|].
  cbn [snd]. pose proof (find_by_id_key _ _ _ _ Hb) as Hi.
  set (doc := push_history _ _ _ _ _).
  assert (Hk : Booking._id (Booking.paths doc) = i) by (subst doc; exact Hi).
  rewrite <- Hk.
  change (Booking.set_status b s now) with (Booking.paths doc).
  apply findById_after_save with (b := b). rewrite Hk.
  destruct (Booking.Status_eqb s Booking.completed); exact Hb.
Qed.

(** C4, as amended.  For a booking that is found, not soft-deleted, with
    its garage in place, an actor who owns that garage or is an admin, and
    a non-empty requested status:
    - when (current, target) is in the table, the request answers 200
      "Booking <target> successfully" and the stored booking carries the
      target status;
    - when the target is the current status, the request answers 200
      "Booking already <target>" and nothing is written;
    - for every other target the request answers 400 "Cannot transition
      from <current> to <target>" and nothing is written.
    The car owner's cancel request on a booking of theirs answers 200
    exactly from pending or approved, and then writes status cancelled;
    from any other status it answers 400 and writes nothing. *)
Theorem transitions_follow_table :
  (forall db i b g req user now,
      Booking_findById db i = Some b ->
      Booking.isDeleted b = false ->
      Garage_findById db (Booking.garage b) = Some g ->
      may_drive g user ->
      status req <> "" ->
      let cur := Booking.status b in
      let out := updateBookingStatus (AnId i) req user now db in
      (In (status req) (spec_transitions cur) ->
       fst out = reply 200 ("Booking " ++ status req ++ " successfully")
       /\ exists s,
           Booking.name s = status req
           /\ Booking_findById (snd out) i = Some (Booking.set_status b s now))
      /\ (status req = Booking.name cur ->
          fst out = reply 200 ("Booking already " ++ status req)
          /\ snd out = db)
      /\ (~ In (status req) (spec_transitions cur) ->
          status req <> Booking.name cur ->
          fst out = reply 400 ("Cannot transition from " ++ Booking.name cur
                               ++ " to " ++ status req)
          /\ snd out = db))
  /\ (forall db i b reason user now,
         find (fun b => Nat.eqb (Booking._id b) i
                        && Nat.eqb (Booking.carOwner b) (id user)
                        && negb (Booking.isDeleted b)) (bookings db)
         = Some b ->
         let out := cancelBooking (AnId i) reason user now db in
         (code (fst out) = 200%nat <->
          Booking.status b = Booking.pending
          \/ Booking.status b = Booking.approved)
         /\ (code (fst out) = 200%nat ->
             bookings (snd out)
             = replace Booking._id
                 (Booking.set_status b Booking.cancelled now) (bookings db))
         /\ (code (fst out) <> 200%nat ->
             fst out = reply 400 ("Cannot cancel booking with status: "
                                  ++ Booking.name (Booking.status b))
             /\ snd out = db)).
Proof.
  split.
  - intros db i b g req user now Hb Hd Hg Hu Hs cur out.
    subst out. split; [|split].
    + intros Hin. exact (update_performs db i b g req user now Hb Hd Hg Hu Hin).
    + rewrite (update_cases _ _ _ _ _ _ _ Hb Hd Hg Hu Hs). fold cur.
      intros ->. now rewrite String.eqb_refl.
    + rewrite (update_cases _ _ _ _ _ _ _ Hb Hd Hg Hu Hs). fold cur.
      intros Hn Hne.
      destruct (String.eqb_spec (Booking.name cur) (status req)) as [E|_];
        [congruence|].
      now rewrite (includes_none _ _ Hn).
  - intros db i b reason user now Hb out. subst out.
    rewrite (cancel_cases _ _ _ _ _ _ Hb).
    destruct (Booking.status b) eqn:Es; cbn; repeat split;
      try (intros; congruence); try (intros [?|?]; congruence); auto.
Qed.

(** The table at work on the sample booking: the garage owner approves the
    pending booking 1, cannot complete it directly, and the driver who
    made it may cancel it. *)
Lemma transitions_follow_table_witness :
  fst (updateBookingStatus (AnId 1%nat) (Sample.to "approved") Sample.owner10
         2000 Sample.db1)
  = reply 200 "Booking approved successfully"
  /\ fst (updateBookingStatus (AnId 1%nat) (Sample.to "completed")
            Sample.owner10 2000 Sample.db1)
     = reply 400 "Cannot transition from pending to completed"
  /\ code (fst (cancelBooking (AnId 1%nat) "" Sample.driver20 2000
                  Sample.db1)) = 200%nat.
Proof.
  destruct transitions_follow_table as [Hupd Hcancel].
  split; [|split].
  - edestruct (Hupd Sample.db1 1%nat Sample.booking1 Sample.garage1_booked
                 (Sample.to "approved") Sample.owner10 2000) as [H _].
    + reflexivity.
    + reflexivity.
    + reflexivity.
    + left. reflexivity.
    + discriminate.
    + apply H. simpl. auto.
  - edestruct (Hupd Sample.db1 1%nat Sample.booking1 Sample.garage1_booked
                 (Sample.to "completed") Sample.owner10 2000) as [_ [_ H]].
    + reflexivity.
    + reflexivity.
    + reflexivity.
    + left. reflexivity.
    + discriminate.
    + apply H; simpl; intuition discriminate.
  - edestruct (Hcancel Sample.db1 1%nat Sample.booking1 "" Sample.driver20
                 2000) as [H _].
    + reflexivity.
    + apply H. left. reflexivity.
Defined.

(** C4 as stated fails: a request for the status the booking already has
    is not in the table, yet it succeeds. *)
Lemma same_status_request_succeeds :
  option_map Booking.status (Booking_findById Sample.db1 1%nat)
  = Some Booking.pending
  /\ ~ In "pending" (spec_transitions Booking.pending)
  /\ updateBookingStatus (AnId 1%nat) (Sample.to "pending") Sample.owner10
       2000 Sample.db1
     = (reply 200 "Booking already pending", Sample.db1).
Proof.
  split; [reflexivity|]. split; [|reflexivity].
  simpl. intuition discriminate.
Qed.

End StateMachineFacts.

(* ================================================================== *)
(** ** One active booking per slot *)
(* ================================================================== *)

Module SlotsFacts.

Import BookingCtl Slots.

Ltac refused := left; split; [reflexivity | discriminate].

(** [createBooking] either leaves the database alone and does not answer
    201, or every guard passed and it inserted the new booking. *)
Lemma create_outcome req user now db :
  (snd (createBooking req user now db) = db
   /\ code (fst (createBooking req user now db)) <> 201%nat)
  \/ exists gid sid ms ts vi garage,
      well_formed req gid sid ms ts vi
      /\ activeGarage db gid = Some garage
      /\ offeredService db gid sid <> None
      /\ existingBooking db gid ms ts = None
      /\ validate ts vi = true
      /\ createBooking req user now db
         = created req user now db gid sid ms ts vi garage.
Proof.
  unfold createBooking, well_formed, created.
  destruct (garageId req) as [| |gid], (serviceId req) as [| |sid],
    (bookingDate req) as [| |ms], (timeSlot req) as [ts|],
    (vehicleInfo req) as [vi|]; simpl; try refused;
    try (destruct (activeGarage db gid) as [garage|] eqn:Eg; simpl;
         try refused);
    try (destruct (offeredService db gid sid) eqn:Es; simpl; try refused).
  destruct (existingBooking db gid ms ts) eqn:Ee; [refused|].
  destruct (validate ts vi) eqn:Ev; [|refused].
  right. exists gid, sid, ms, ts, vi, garage.
  repeat split; congruence.
Qed.

(** The bookings after a status request: untouched, or one booking
    rewritten with a status its table allows. *)
Lemma transition_outcome bid req user now db :
  bookings (snd (updateBookingStatus bid req user now db)) = bookings db
  \/ exists i b target,
      Booking_findById db i = Some b
      /\ In target (validTransitions (Booking.status b))
      /\ bookings (snd (updateBookingStatus bid req user now db))
         = replace Booking._id (Booking.set_status b target now)
             (bookings db).
Proof.
  unfold updateBookingStatus.
  destruct bid as [| |i]; try (left; reflexivity).
  destruct (String.eqb (status req) ""); [left; reflexivity|].
  destruct (Booking_findById db i) as [b|] eqn:Eb; [|left; reflexivity].
  destruct (Booking.isDeleted b); [left; reflexivity|].
  destruct (Garage_findById db (Booking.garage b)) as [g|];
    [|left; reflexivity].
  destruct (negb _ && negb _); [left; reflexivity|].
  destruct (String.eqb _ (status req)); [left; reflexivity|].
  destruct (includes _ _) as [target|] eqn:Et; [|left; reflexivity].
  right. exists i, b, target. split; [assumption|]. split.
  - unfold includes in Et. now apply find_some in Et.
  - simpl. destruct (Booking.Status_eqb target Booking.completed);
      reflexivity.
Qed.

Lemma cancel_outcome bid reason user now db :
  bookings (snd (cancelBooking bid reason user now db)) = bookings db
  \/ exists b,
      bookings (snd (cancelBooking bid reason user now db))
      = replace Booking._id (Booking.set_status b Booking.cancelled now)
          (bookings db).
Proof.
  unfold cancelBooking.
  destruct bid as [| |i]; try (left; reflexivity).
  destruct (find _ (bookings db)) as [b|]; [|left; reflexivity].
  destruct (existsb _ _); [|left; reflexivity].
  right. exists b. reflexivity.
Qed.

Lemma delete_outcome bid user now db :
  bookings (snd (deleteBooking bid user now db)) = bookings db
  \/ exists b,
      bookings (snd (deleteBooking bid user now db))
      = replace Booking._id (Booking.set_isDeleted b true now) (bookings db).
Proof.
  unfold deleteBooking.
  destruct bid as [| |i]; try (left; reflexivity).
  destruct (Booking_findById db i) as [b|]; [|left; reflexivity].
  destruct (Booking.isDeleted b); [left; reflexivity|].
  destruct (negb _); [left; reflexivity|].
  destruct (Booking.Status_eqb _ _).
  - destruct (Garage_findById _ _); [|left; reflexivity].
    right. exists b. reflexivity.
  - right. exists b. reflexivity.
Qed.

Lemma find_none_filter {A} (p : A -> bool) l :
  find p l = None -> filter p l = [].
Proof.
  induction l as [|x l IH]; simpl; [reflexivity|].
  destruct (p x); [discriminate|assumption].
Qed.

(** The slot query reads the slot only through its start and end. *)
Lemma slot_taken_by_same g d ts ts' b :
  start ts' = start ts -> end_ ts' = end_ ts ->
  slot_taken_by g d ts' b = slot_taken_by g d ts b.
Proof. unfold slot_taken_by. now intros -> ->. Qed.

Lemma slot_taken_by_fields g d ts b :
  slot_taken_by g d ts b = true ->
  Booking.garage b = g /\ Booking.bookingDate b = d
  /\ start (Booking.timeSlot b) = start ts
  /\ end_ (Booking.timeSlot b) = end_ ts
  /\ Booking.occupies (Booking.status b) = true
  /\ Booking.isDeleted b = false.
Proof.
  unfold slot_taken_by. intros H.
  apply andb_prop in H. destruct H as [H Hdel].
  apply andb_prop in H. destruct H as [H Hocc].
  apply andb_prop in H. destruct H as [H Hend].
  apply andb_prop in H. destruct H as [H Hstart].
  apply andb_prop in H. destruct H as [Hg Hd].
  apply Nat.eqb_eq in Hg. apply Z.eqb_eq in Hd.
  apply String.eqb_eq in Hstart, Hend. apply negb_true_iff in Hdel.
  auto 6.
Qed.

Lemma slot_unique_insert l b :
  slot_unique l ->
  find (slot_taken_by (Booking.garage b) (Booking.bookingDate b)
          (Booking.timeSlot b)) l = None ->
  slot_unique (app l [b]).
Proof.
  intros U Hfree g d ts. rewrite filter_app, length_app. simpl.
  destruct (slot_taken_by g d ts b) eqn:Eb; simpl;
    [|specialize (U g d ts); lia].
  apply slot_taken_by_fields in Eb.
  destruct Eb as (<- & <- & Hs & He & _).
  apply find_none_filter in Hfree.
  assert (E : filter (slot_taken_by (Booking.garage b)
                        (Booking.bookingDate b) ts) l = []).
  { rewrite <- Hfree. apply filter_ext. intros x.
    symmetry. now apply slot_taken_by_same. }
  rewrite E. simpl. lia.
Qed.

Lemma occupies_of_source s target :
  In target (validTransitions s) -> Booking.occupies s = true.
Proof. destruct s; simpl; intuition. Qed.

Lemma slot_unique_rewrite l b b' :
  slot_unique l ->
  find (by_id Booking._id (Booking._id b')) l = Some b ->
  (forall g d ts, slot_taken_by g d ts b' = true ->
                  slot_taken_by g d ts b = true) ->
  slot_unique (replace Booking._id b' l).
Proof.
  intros U Hb Hle g d ts.
  pose proof (replace_filter_le Booking._id (slot_taken_by g d ts) l b' b Hb
                (Hle g d ts)).
  specialize (U g d ts). lia.
Qed.

Lemma slot_unique_vacate l b' :
  slot_unique l ->
  (forall g d ts, slot_taken_by g d ts b' = false) ->
  slot_unique (replace Booking._id b' l).
Proof.
  intros U Hfree g d ts.
  pose proof (replace_filter_none Booking._id (slot_taken_by g d ts) l b'
                (Hfree g d ts)).
  specialize (U g d ts). lia.
Qed.

(** Every request of the controller keeps the slots unique. *)
Lemma handle_keeps_slots r db :
  slot_unique (bookings db) -> slot_unique (bookings (snd (handle r db))).
Proof.
  intros U. destruct r as [req user now|bid req user now|bid reason user now
                          |bid user now]; simpl.
  - destruct (create_outcome req user now db)
      as [[-> _]
         |(gid & sid & ms & ts & vi & garage & _ & _ & _ & Hfree & _ & ->)];
      [assumption|].
    unfold created. simpl. apply slot_unique_insert; assumption.
  - destruct (transition_outcome bid req user now db)
      as [->|(i & b & target & Hb & Hin & ->)]; [assumption|].
    apply slot_unique_rewrite with (b := b); [assumption| |].
    + simpl. pose proof (find_by_id_key _ _ _ _ Hb) as Hi. now rewrite Hi.
    + intros g d ts. unfold slot_taken_by. simpl.
      rewrite (occupies_of_source _ _ Hin).
      intros H.
      apply andb_prop in H. destruct H as [H Hdel].
      apply andb_prop in H. destruct H as [H _].
      now rewrite H, Hdel.
  - destruct (cancel_outcome bid reason user now db) as [->|(b & ->)];
      [assumption|].
    apply slot_unique_vacate; [assumption|].
    intros g d ts. unfold slot_taken_by. simpl.
    rewrite andb_false_r. reflexivity.
  - destruct (delete_outcome bid user now db) as [->|(b & ->)];
      [assumption|].
    apply slot_unique_vacate; [assumption|].
    intros g d ts. unfold slot_taken_by. simpl.
    apply andb_false_r.
Qed.

Lemma run_keeps_slots rs : forall db,
  slot_unique (bookings db) -> slot_unique (bookings (run rs db)).
Proof.
  induction rs as [|r rs IH]; intros db U; simpl; [assumption|].
  apply IH, handle_keeps_slots, U.
Qed.

Lemma create_conflict req user now db gid sid ms ts vi c :
  well_formed req gid sid ms ts vi ->
  existingBooking db gid ms ts = Some c ->
  snd (createBooking req user now db) = db
  /\ code (fst (createBooking req user now db)) <> 201%nat
  /\ (activeGarage db gid <> None -> offeredService db gid sid <> None ->
      fst (createBooking req user now db)
      = reply 400 "Time slot already booked").
Proof.
  intros (Hg & Hs & Hd & Ht & Hv) Hc. unfold createBooking.
  rewrite Hg, Hs, Hd, Ht, Hv. simpl.
  destruct (activeGarage db gid);
    [|split; [reflexivity|split; [discriminate|congruence]]].
  destruct (offeredService db gid sid);
    [|split; [reflexivity|split; [discriminate|congruence]]].
  rewrite Hc. split; [reflexivity|split; [discriminate|reflexivity]].
Qed.

Lemma create_success req user now db :
  code (fst (createBooking req user now db)) = 201%nat ->
  exists gid sid ms ts vi,
    well_formed req gid sid ms ts vi
    /\ existingBooking db gid ms ts = None
    /\ bookings (snd (createBooking req user now db))
       = app (bookings db)
           [new_booking db user gid sid ms ts vi (notes req) now].
Proof.
  intros H.
  destruct (create_outcome req user now db)
    as [[_ N]|(gid & sid & ms & ts & vi & garage & Hw & _ & _ & Hfree & _ & E)];
    [contradiction|].
  exists gid, sid, ms, ts, vi. rewrite E. auto.
Qed.

(** The booking controller on its own keeps the slots unique.  Whatever
    sequence of create, status, cancel and soft-delete requests it
    serves, a database in which every (garage, date, start, end) holds at
    most one booking that is neither cancelled, rejected nor soft-deleted
    stays that way.  A well-formed
    create request for a slot that such a booking holds writes nothing and
    does not answer 201; once the garage and service guards pass it
    answers 400 "Time slot already booked".  A create request that answers
    201 found the slot free and appended one booking, for that garage,
    date and slot, with status pending. *)
Theorem one_active_booking_per_slot :
  (forall rs db,
      slot_unique (bookings db) -> slot_unique (bookings (run rs db)))
  /\ (forall req user now db gid sid ms ts vi c,
         well_formed req gid sid ms ts vi ->
         existingBooking db gid ms ts = Some c ->
         let out := createBooking req user now db in
         snd out = db
         /\ code (fst out) <> 201%nat
         /\ (activeGarage db gid <> None ->
             offeredService db gid sid <> None ->
             fst out = reply 400 "Time slot already booked"))
  /\ (forall req user now db,
         let out := createBooking req user now db in
         code (fst out) = 201%nat ->
         exists gid sid ms ts vi b,
           well_formed req gid sid ms ts vi
           /\ existingBooking db gid ms ts = None
           /\ bookings (snd out) = app (bookings db) [b]
           /\ Booking.status b = Booking.pending
           /\ Booking.isDeleted b = false
           /\ Booking.garage b = gid
           /\ Booking.bookingDate b = ms
           /\ Booking.timeSlot b = ts).
Proof.
  split; [|split].
  - intros rs db. apply run_keeps_slots.
  - intros req user now db gid sid ms ts vi c Hw Hc out.
    exact (create_conflict req user now db gid sid ms ts vi c Hw Hc).
  - intros req user now db out H.
    destruct (create_success req user now db H)
      as (gid & sid & ms & ts & vi & Hw & Hfree & E).
    exists gid, sid, ms, ts, vi,
      (new_booking db user gid sid ms ts vi (notes req) now).
    repeat split; try assumption; apply Hw.
Qed.

(** The theorem at work: with booking 1 holding Monday 09:00-10:00, a
    second request for the same slot is refused and changes nothing, and
    the slots of the sample database stay unique under a run of
    requests. *)
Lemma one_active_booking_per_slot_witness :
  createBooking (Sample.book Sample.monday_2024_06_10 "09:00" "10:00")
    Sample.driver21 2000 Sample.db1
  = (reply 400 "Time slot already booked", Sample.db1)
  /\ slot_unique
       (bookings
          (run [Create (Sample.book Sample.monday_2024_06_10 "09:00" "10:00")
                  Sample.driver20 1000;
                Create (Sample.book Sample.monday_2024_06_10 "09:00" "10:00")
                  Sample.driver21 2000;
                Cancel (AnId 1%nat) "" Sample.driver20 3000;
                Create (Sample.book Sample.monday_2024_06_10 "09:00" "10:00")
                  Sample.driver21 4000]
             Sample.db0)).
Proof.
  destruct one_active_booking_per_slot as (Hrun & Hconflict & _).
  split.
  - destruct (Hconflict
                (Sample.book Sample.monday_2024_06_10 "09:00" "10:00")
                Sample.driver21 2000 Sample.db1 1%nat 1%nat
                Sample.monday_2024_06_10 (Sample.slot "09:00" "10:00")
                Sample.car Sample.booking1) as (Hdb & _ & Hmsg).
    + repeat split.
    + reflexivity.
    + apply injective_projections; [apply Hmsg; discriminate|exact Hdb].
  - apply Hrun. intros g d ts. simpl. lia.
Defined.

End SlotsFacts.

(* ================================================================== *)
(** ** Creation against the availability query *)
(* ================================================================== *)

Module AvailabilityFacts.

Import BookingCtl Slots Availability SlotsFacts.

(** When the availability query answers "Time slot already booked", the
    slot query found a booking. *)
Lemma booked_means_taken tz gid sid ms ts db :
  checkAvailability tz (query gid sid ms ts) db = Unavailable booked_reason ->
  existingBooking db gid ms ts <> None.
Proof.
  unfold checkAvailability, slot_checks, query. simpl.
  destruct (listedGarage db gid) as [garage|]; [|discriminate].
  destruct (Garage.day _ _) as [businessDay|]; [|discriminate].
  destruct (Garage.closed businessDay); [discriminate|].
  destruct (negb _); [discriminate|].
  destruct (existingBooking db gid ms ts); [discriminate|].
  destruct (Service_findById db sid) as [service|]; [|discriminate].
  destruct (Js.lt _ _); discriminate.
Qed.

(** What a create request does check.  It answers 201 exactly when its
    fields are present and well-formed, the garage is found active and
    not deleted, the service is found for that garage, available and not
    deleted, the slot query finds no booking, and the new document passes
    schema validation.  Of the checks of the availability query it runs
    the slot query: whenever the availability query answers "Time slot
    already booked" for the same inputs, the create request changes
    nothing and does not answer 201. *)
Theorem create_shares_slot_check :
  (forall req user now db,
      code (fst (createBooking req user now db)) = 201%nat <->
      exists gid sid ms ts vi,
        well_formed req gid sid ms ts vi
        /\ activeGarage db gid <> None
        /\ offeredService db gid sid <> None
        /\ existingBooking db gid ms ts = None
        /\ validate ts vi = true)
  /\ (forall tz req user now db gid sid ms ts vi,
         well_formed req gid sid ms ts vi ->
         checkAvailability tz (query gid sid ms ts) db
         = Unavailable booked_reason ->
         code (fst (createBooking req user now db)) <> 201%nat
         /\ snd (createBooking req user now db) = db).
Proof.
  split.
  - intros req user now db. split.
    + intros H.
      destruct (create_outcome req user now db)
        as [[_ N]|(gid & sid & ms & ts & vi & garage & Hw & Hg & Hs & Hf & Hv
                   & _)];
        [contradiction|].
      exists gid, sid, ms, ts, vi. rewrite Hg.
      split; [exact Hw|]. split; [discriminate|]. auto.
    + intros (gid & sid & ms & ts & vi & (Hg & Hs & Hd & Ht & Hv) & Ha & Ho
              & Hf & Hval).
      unfold createBooking. rewrite Hg, Hs, Hd, Ht, Hv. simpl.
      destruct (activeGarage db gid); [|contradiction].
      destruct (offeredService db gid sid); [|contradiction].
      rewrite Hf, Hval. reflexivity.
  - intros tz req user now db gid sid ms ts vi Hw Hq.
    apply booked_means_taken in Hq.
    destruct (existingBooking db gid ms ts) as [c|] eqn:Ec; [|contradiction].
    destruct (create_conflict req user now db gid sid ms ts vi c Hw Ec)
      as (Hdb & Hcode & _).
    split; assumption.
Qed.

(** The sample slot is refused by both once booking 1 holds it. *)
Lemma create_shares_slot_check_witness :
  code (fst (createBooking
               (Sample.book Sample.monday_2024_06_10 "09:00" "10:00")
               Sample.driver21 2000 Sample.db1)) <> 201%nat
  /\ code (fst (createBooking
                  (Sample.book Sample.monday_2024_06_10 "10:00" "11:00")
                  Sample.driver21 2000 Sample.db1)) = 201%nat.
Proof.
  destruct create_shares_slot_check as [Hiff Hbooked]. split.
  - apply (Hbooked 0 _ Sample.driver21 2000 Sample.db1 1%nat 1%nat
             Sample.monday_2024_06_10 (Sample.slot "09:00" "10:00")
             Sample.car).
    + repeat split.
    + reflexivity.
  - apply Hiff.
    exists 1%nat, 1%nat, Sample.monday_2024_06_10,
      (Sample.slot "10:00" "11:00"), Sample.car.
    repeat split; discriminate.
Defined.

(** C2 on the code.  Under its comment 'Check if time slot is available'
    [createBooking] runs the slot query only, where [checkAvailability]
    first refuses a closed day and a slot outside the opening hours and
    afterwards a slot shorter than the service.  On the sample garage
    (closed on Sunday, open 09:00-18:00 on Monday, service of 60 minutes)
    the availability query reports the slot unavailable and the create
    request for the same inputs answers 201: on the closed day, outside
    the opening hours, and for a slot shorter than the service. *)
Theorem create_ignores_hours_and_duration :
  (checkAvailability 0 (Sample.ask Sample.sunday_2024_06_09 "09:00" "10:00")
     Sample.db0 = Unavailable "Garage is closed on this day"
   /\ fst (createBooking (Sample.book Sample.sunday_2024_06_09 "09:00" "10:00")
             Sample.driver20 1000 Sample.db0)
      = reply 201 "Booking created successfully")
  /\ (checkAvailability 0
        (Sample.ask Sample.monday_2024_06_10 "07:00" "08:00") Sample.db0
      = Unavailable "Time slot is outside business hours"
      /\ fst (createBooking
                (Sample.book Sample.monday_2024_06_10 "07:00" "08:00")
                Sample.driver20 1000 Sample.db0)
         = reply 201 "Booking created successfully")
  /\ (checkAvailability 0
        (Sample.ask Sample.monday_2024_06_10 "09:00" "09:30") Sample.db0
      = Unavailable
          "Time slot duration (30min) is less than service duration (60min)"
      /\ fst (createBooking
                (Sample.book Sample.monday_2024_06_10 "09:00" "09:30")
                Sample.driver20 1000 Sample.db0)
         = reply 201 "Booking created successfully").
Proof. repeat split. Qed.

End AvailabilityFacts.

(* ================================================================== *)
(** ** Times of day as zero-padded HH:MM strings *)
(* ================================================================== *)

Module ClockFacts.

Import Clock.

Example hhmm_0900 : hhmm 540 = "09:00".
Proof. reflexivity. Qed.

Example hhmm_2359 : hhmm 1439 = "23:59".
Proof. reflexivity. Qed.

Local Open Scope nat_scope.

Lemma digit_compare a b :
  a < 10 -> b < 10 -> Ascii.compare (digit a) (digit b) = Nat.compare a b.
Proof.
  intros Ha Hb.
  do 10 (destruct a as [|a];
         [do 10 (destruct b as [|b]; [reflexivity|]); lia|]).
  lia.
Qed.

Lemma two_compare n n' s s' :
  n < 100 -> n' < 100 ->
  String.compare (two n ++ s) (two n' ++ s')
  = match Nat.compare n n' with
    | Eq => String.compare s s'
    | c => c
    end.
Proof.
  intros Hn Hn'. unfold two. cbn [String.append String.compare].
  pose proof (Nat.div_mod_eq n 10) as En.
  pose proof (Nat.div_mod_eq n' 10) as En'.
  pose proof (Nat.mod_upper_bound n 10 ltac:(lia)) as Bn.
  pose proof (Nat.mod_upper_bound n' 10 ltac:(lia)) as Bn'.
  assert (Dn : n / 10 < 10) by (apply Nat.Div0.div_lt_upper_bound; lia).
  assert (Dn' : n' / 10 < 10) by (apply Nat.Div0.div_lt_upper_bound; lia).
  rewrite !digit_compare by assumption.
  destruct (Nat.compare_spec (n / 10) (n' / 10)) as [E|L|G].
  - destruct (Nat.compare_spec (n mod 10) (n' mod 10)) as [E'|L'|G'].
    + replace n' with n by lia. now rewrite Nat.compare_refl.
    + assert (n < n') as H by lia. apply Nat.compare_lt_iff in H.
      now rewrite H.
    + assert (n' < n) as H by lia. apply Nat.compare_gt_iff in H.
      now rewrite H.
  - assert (n < n') as H by lia. apply Nat.compare_lt_iff in H.
    now rewrite H.
  - assert (n' < n) as H by lia. apply Nat.compare_gt_iff in H.
    now rewrite H.
Qed.

(** On zero-padded HH:MM strings the lexicographic order is the order of
    the clock. *)
Lemma hhmm_compare a b :
  a < 1440 -> b < 1440 -> String.compare (hhmm a) (hhmm b) = Nat.compare a b.
Proof.
  intros Ha Hb. unfold hhmm.
  pose proof (Nat.div_mod_eq a 60) as Ea.
  pose proof (Nat.div_mod_eq b 60) as Eb.
  pose proof (Nat.mod_upper_bound a 60 ltac:(lia)) as Ba.
  pose proof (Nat.mod_upper_bound b 60 ltac:(lia)) as Bb.
  assert (Da : a / 60 < 24) by (apply Nat.Div0.div_lt_upper_bound; lia).
  assert (Db : b / 60 < 24) by (apply Nat.Div0.div_lt_upper_bound; lia).
  rewrite two_compare by lia.
  change (String.compare (":" ++ two (a mod 60)) (":" ++ two (b mod 60)))
    with (String.compare (two (a mod 60) ++ "") (two (b mod 60) ++ "")).
  rewrite two_compare by lia. cbn [String.compare].
  destruct (Nat.compare_spec (a / 60) (b / 60)) as [E|L|G].
  - destruct (Nat.compare_spec (a mod 60) (b mod 60)) as [E'|L'|G'].
    + replace b with a by lia. now rewrite Nat.compare_refl.
    + assert (a < b) as H by lia. apply Nat.compare_lt_iff in H.
      now rewrite H.
    + assert (b < a) as H by lia. apply Nat.compare_gt_iff in H.
      now rewrite H.
  - assert (a < b) as H by lia. apply Nat.compare_lt_iff in H. now rewrite H.
  - assert (b < a) as H by lia. apply Nat.compare_gt_iff in H. now rewrite H.
Qed.

Lemma hhmm_leb a b :
  a < 1440 -> b < 1440 -> String.leb (hhmm a) (hhmm b) = (a <=? b).
Proof.
  intros Ha Hb. unfold String.leb. rewrite hhmm_compare by assumption.
  destruct (Nat.compare_spec a b) as [E|L|G].
  - subst. symmetry. now apply Nat.leb_le.
  - symmetry. apply Nat.leb_le. lia.
  - symmetry. apply Nat.leb_gt. lia.
Qed.

Lemma every_hhmm_ascii :
  forallb (fun t => Trimmed.ascii_only (hhmm t)) (seq 0 1440) = true.
Proof. vm_compute. reflexivity. Qed.

Lemma hhmm_ascii t : t < 1440 -> Trimmed.ascii_only (hhmm t) = true.
Proof.
  intros H.
  apply (proj1 (forallb_forall _ (seq 0 1440)) every_hhmm_ascii t).
  apply in_seq. lia.
Qed.

(** The comparison of the language on zero-padded HH:MM strings. *)
Lemma hhmm_js_leb a b :
  a < 1440 -> b < 1440 -> Js.leb (hhmm a) (hhmm b) = (a <=? b).
Proof.
  intros Ha Hb.
  rewrite (JsFacts.leb_ascii _ _ (hhmm_ascii a Ha) (hhmm_ascii b Hb)).
  now apply hhmm_leb.
Qed.

End ClockFacts.

(* ================================================================== *)
(** ** The availability query at the edges of the business hours *)
(* ================================================================== *)

Module HoursFacts.

Import BookingCtl Clock ClockFacts.

(** On zero-padded times the business-hours check is the comparison of
    the clock times, both ends included. *)
Lemma within_hours ts d (o c s e : nat) :
  (o < 1440 /\ c < 1440 /\ s < 1440 /\ e < 1440)%nat ->
  Garage.open d = Some (hhmm o) -> Garage.close d = Some (hhmm c) ->
  start ts = hhmm s -> end_ ts = hhmm e ->
  isWithinBusinessHours ts d = ((o <=? s)%nat && (e <=? c)%nat)%bool.
Proof.
  intros (Ho & Hc & Hs & He) Eo Ec Es Ee.
  unfold isWithinBusinessHours, Js.ge, Js.le.
  rewrite Eo, Ec, Es, Ee. now rewrite !hhmm_js_leb.
Qed.

(** C7.  For a request that names a listed garage, a date and a slot, and
    a garage that has a business-hours entry for the weekday of the date:
    - when the entry is marked closed the answer is unavailable, "Garage
      is closed on this day", whatever the slot, the bookings and the
      service are;
    - when it is open from [o] to [c] and the slot runs from [s] to [e],
      all four zero-padded HH:MM: if [o <= s] and [e <= c] (so also when
      [s = o] or [e = c]) the hours check passes and the answer is that of
      the slot query and duration check that follow; if [s < o] or
      [c < e] (so also one minute outside) the answer is unavailable,
      "Time slot is outside business hours", whatever the bookings and
      the service are;
    - in the checks that follow, a booking that holds the slot is reported
      before the duration of the service is looked at. *)
Theorem availability_boundaries tz req db gid ts garage d :
  av_garageId req = AnId gid ->
  av_date req <> NoDate ->
  av_timeSlot req = Some ts ->
  listedGarage db gid = Some garage ->
  Garage.day (Garage.businessHours garage) (dayOfWeek tz (av_date req))
  = Some d ->
  (Garage.closed d = true ->
   checkAvailability tz req db = Unavailable closed_reason)
  /\ (forall o c s e : nat,
         Garage.closed d = false ->
         (o < 1440 /\ c < 1440 /\ s < 1440 /\ e < 1440)%nat ->
         Garage.open d = Some (hhmm o) -> Garage.close d = Some (hhmm c) ->
         start ts = hhmm s -> end_ ts = hhmm e ->
         ((o <= s /\ e <= c)%nat ->
          checkAvailability tz req db = slot_checks req gid ts db)
         /\ ((s < o \/ c < e)%nat ->
             checkAvailability tz req db = Unavailable hours_reason))
  /\ (forall ms c,
         av_date req = ADate ms ->
         existingBooking db gid ms ts = Some c ->
         slot_checks req gid ts db = Unavailable booked_reason).
Proof.
  intros Hg Hd Ht Hl Hday.
  assert (E : checkAvailability tz req db =
              if Garage.closed d then Unavailable closed_reason
              else if negb (isWithinBusinessHours ts d) then
                     Unavailable hours_reason
                   else slot_checks req gid ts db).
  { unfold checkAvailability. rewrite Hg, Ht, Hl, Hday.
    destruct (av_date req); [contradiction| |]; reflexivity. }
  split; [|split].
  - intros Hc. now rewrite E, Hc.
  - intros o c s e Hc Hb Eo Ec Es Ee. rewrite E, Hc.
    rewrite (within_hours ts d o c s e Hb Eo Ec Es Ee). split.
    + intros [H1 H2]. apply Nat.leb_le in H1, H2. now rewrite H1, H2.
    + intros [H|H]; apply Nat.leb_gt in H; rewrite H; simpl;
        [reflexivity|now rewrite andb_false_r].
  - intros ms c Ems Ec. unfold slot_checks. now rewrite Ems, Ec.
Qed.

(** The sample garage is open 09:00-18:00 on Monday and closed on Sunday:
    09:00-18:00 is accepted, 08:59-10:00 and 17:00-18:01 are outside the
    business hours, and Sunday is closed even for 09:00-10:00. *)
Lemma availability_boundaries_witness :
  checkAvailability 0 (Sample.ask Sample.monday_2024_06_10 "09:00" "18:00")
    Sample.db0 = Available "Time slot is available"
  /\ checkAvailability 0
       (Sample.ask Sample.monday_2024_06_10 "08:59" "10:00") Sample.db0
     = Unavailable "Time slot is outside business hours"
  /\ checkAvailability 0
       (Sample.ask Sample.monday_2024_06_10 "17:00" "18:01") Sample.db0
     = Unavailable "Time slot is outside business hours"
  /\ checkAvailability 0
       (Sample.ask Sample.sunday_2024_06_09 "09:00" "10:00") Sample.db0
     = Unavailable "Garage is closed on this day".
Proof.
  assert (B : forall s e : nat,
             (540 < 1440 /\ 1080 < 1440 /\ s < 1440 /\ e < 1440)%nat ->
             ((540 <= s /\ e <= 1080)%nat ->
              checkAvailability 0
                (Sample.ask Sample.monday_2024_06_10 (hhmm s) (hhmm e))
                Sample.db0
              = slot_checks
                  (Sample.ask Sample.monday_2024_06_10 (hhmm s) (hhmm e))
                  1%nat (Sample.slot (hhmm s) (hhmm e)) Sample.db0)
             /\ ((s < 540 \/ 1080 < e)%nat ->
                 checkAvailability 0
                   (Sample.ask Sample.monday_2024_06_10 (hhmm s) (hhmm e))
                   Sample.db0
                 = Unavailable hours_reason)).
  { intros s e Hb.
    apply (availability_boundaries 0
             (Sample.ask Sample.monday_2024_06_10 (hhmm s) (hhmm e))
             Sample.db0 1%nat (Sample.slot (hhmm s) (hhmm e))
             Sample.garage1 Sample.weekday_hours);
      try reflexivity; try discriminate; exact Hb. }
  split; [|split; [|split]].
  - change "09:00" with (hhmm 540). change "18:00" with (hhmm 1080).
    rewrite (proj1 (B 540%nat 1080%nat ltac:(lia))) by lia. reflexivity.
  - change "08:59" with (hhmm 539). change "10:00" with (hhmm 600).
    apply (proj2 (B 539%nat 600%nat ltac:(lia))). lia.
  - change "17:00" with (hhmm 1020). change "18:01" with (hhmm 1081).
    apply (proj2 (B 1020%nat 1081%nat ltac:(lia))). lia.
  - apply (availability_boundaries 0
             (Sample.ask Sample.sunday_2024_06_09 "09:00" "10:00")
             Sample.db0 1%nat (Sample.slot "09:00" "10:00")
             Sample.garage1 Sample.closed_day);
      try reflexivity; discriminate.
Defined.

(** The agreement with the clock needs the zero padding: against an
    opening time written "9:00" the slot 10:00-11:00 compares as too
    early. *)
Example unpadded_hours_misorder :
  isWithinBusinessHours (Sample.slot "10:00" "11:00")
    {| Garage.open := Some "9:00"; Garage.close := Some "18:00";
       Garage.closed := false |} = false.
Proof. reflexivity. Qed.

End HoursFacts.

(* ================================================================== *)
(** ** The garage counters *)
(* ================================================================== *)

Module StatsFacts.

Import BookingCtl Slots StateMachine Stats SlotsFacts StateMachineFacts.

Lemma may_delete_passes db b user :
  may_delete db b user ->
  (Role_eqb (role user) admin
   || Nat.eqb (Booking.carOwner b) (id user)
   || (Role_eqb (role user) garage_owner
       && Garage_exists db (Booking.garage b) (id user)))%bool = true.
Proof.
  intros [H|[H|[H1 H2]]].
  - now rewrite H.
  - rewrite H, Nat.eqb_refl. apply orb_true_iff. left. apply orb_true_r.
  - rewrite H1, H2. apply orb_true_r.
Qed.

Lemma Garage_found_after_save db g g0 :
  Garage_findById db (Garage._id g) = Some g0 ->
  Garage_findById (Garage_save db g) (Garage._id g)
  = Some (Garage.pre_save g).
Proof.
  unfold Garage_findById, Garage_save. simpl.
  apply (find_replace_same Garage._id (garages db) (Garage.pre_save g)).
Qed.

Lemma activeGarage_is_the_garage db gid g :
  NoDup (map Garage._id (garages db)) ->
  activeGarage db gid = Some g -> Garage_findById db gid = Some g.
Proof.
  intros ND. unfold activeGarage, Garage_findById.
  apply (find_pinned Garage._id); [assumption|].
  intros y Hy. apply andb_prop in Hy. destruct Hy as [Hy _].
  apply andb_prop in Hy. destruct Hy as [Hy _]. now apply Nat.eqb_eq.
Qed.

(** The counters through the save hook, on safe integers. *)
Lemma whole_of_safe n : safe n -> Garage.whole n = n.
Proof.
  intros H. apply JsFacts.whole_safe. unfold safe in H. lia.
Qed.

Lemma counted n : safe n -> Garage.whole (Js.plus n 1) = n + 1.
Proof.
  intros H. unfold safe in H.
  destruct (Z.eq_dec (n + 1) Js.two53) as [E|N].
  - replace n with (Js.two53 - 1) by lia. vm_compute. reflexivity.
  - rewrite JsFacts.plus_safe by lia. apply JsFacts.whole_safe. lia.
Qed.

Lemma uncounted n :
  safe n -> Garage.whole (Z.max 0 (Js.minus n 1)) = Z.max 0 (n - 1).
Proof.
  intros H. unfold safe in H.
  destruct (Z.eq_dec (n - 1) (- Js.two53)) as [E|N].
  - replace n with (1 - Js.two53) by lia. vm_compute. reflexivity.
  - rewrite JsFacts.minus_safe by lia. apply JsFacts.whole_safe. lia.
Qed.

Lemma create_counts req user now db :
  NoDup (map Garage._id (garages db)) ->
  code (fst (createBooking req user now db)) = 201%nat ->
  exists gid g g',
    garageId req = AnId gid
    /\ Garage_findById db gid = Some g
    /\ Garage_findById (snd (createBooking req user now db)) gid = Some g'
    /\ (countable g -> total g' = total g + 1 /\ done g' = done g).
Proof.
  intros ND H.
  destruct (create_outcome req user now db)
    as [[_ N]|(gid & sid & ms & ts & vi & g & Hw & Hg & _ & _ & _ & E)];
    [contradiction|].
  apply activeGarage_is_the_garage in Hg; [|assumption].
  exists gid, g, (Garage.pre_save (count_booking g)).
  split; [apply Hw|]. split; [assumption|]. rewrite E. unfold created.
  cbn [snd]. split.
  - pose proof (find_by_id_key _ _ _ _ Hg) as Hi.
    rewrite <- Hi at 2.
    change (Garage._id g) with (Garage._id (count_booking g)).
    apply Garage_found_after_save with (g0 := g).
    unfold Garage_findById. simpl. rewrite Hi. exact Hg.
  - intros [Ht Hd]. split.
    + exact (counted (total g) Ht).
    + exact (whole_of_safe (done g) Hd).
Qed.

Lemma complete_counts db i b g req user now :
  Booking_findById db i = Some b ->
  Booking.isDeleted b = false ->
  Garage_findById db (Booking.garage b) = Some g ->
  may_drive g user ->
  Booking.status b = Booking.in_progress ->
  status req = "completed" ->
  fst (updateBookingStatus (AnId i) req user now db)
  = reply 200 "Booking completed successfully"
  /\ exists g',
      Garage_findById (snd (updateBookingStatus (AnId i) req user now db))
        (Booking.garage b) = Some g'
      /\ (countable g -> done g' = done g + 1 /\ total g' = total g).
Proof.
  intros Hb Hd Hg Hu Hs Hr.
  rewrite (update_cases _ _ _ _ _ _ _ Hb Hd Hg Hu)
    by (rewrite Hr; discriminate).
  rewrite Hs, Hr. cbn. split; [reflexivity|].
  exists (Garage.pre_save (count_completed g)).
  split.
  - pose proof (find_by_id_key _ _ _ _ Hg) as Hi.
    unfold Booking_save.
    change (Garage_findById (set_bookings ?d ?l) ?k)
      with (Garage_findById d k).
    rewrite <- Hi.
    change (Garage._id g) with (Garage._id (count_completed g)).
    apply Garage_found_after_save with (g0 := g).
    simpl. now rewrite Hi.
  - intros [Ht Hdn]. split.
    + exact (counted (done g) Hdn).
    + exact (whole_of_safe (total g) Ht).
Qed.

Lemma delete_counts db i b g user now :
  Booking_findById db i = Some b ->
  Booking.isDeleted b = false ->
  may_delete db b user ->
  Booking.status b = Booking.completed ->
  Garage_findById db (Booking.garage b) = Some g ->
  fst (deleteBooking (AnId i) user now db)
  = reply 200 "Booking deleted successfully"
  /\ exists g',
      Garage_findById (snd (deleteBooking (AnId i) user now db))
        (Booking.garage b) = Some g'
      /\ (countable g ->
          done g' = Z.max 0 (done g - 1) /\ total g' = total g).
Proof.
  intros Hb Hd Hu Hs Hg. unfold deleteBooking.
  rewrite Hb, Hd, (may_delete_passes _ _ _ Hu), Hs.
  cbn [negb]. change (Booking.Status_eqb Booking.completed Booking.completed)
    with true. cbv iota.
  change (Garage_findById (Booking_save ?d ?x) ?k)
    with (Garage_findById d k).
  cbn [Booking.paths Booking.set_isDeleted Booking.garage].
  rewrite Hg. cbn [fst snd]. split; [reflexivity|].
  exists (Garage.pre_save (uncount_completed g)).
  split.
  - pose proof (find_by_id_key _ _ _ _ Hg) as Hi.
    rewrite <- Hi.
    change (Garage._id g) with (Garage._id (uncount_completed g)).
    apply Garage_found_after_save with (g0 := g).
    simpl. now rewrite Hi.
  - intros [Ht Hdn]. split.
    + exact (uncounted (done g) Hdn).
    + exact (whole_of_safe (total g) Ht).
Qed.

(** C6, as amended.  For a garage whose two counters are safe integers
    (whole numbers of magnitude below 2^53): a create request that
    answers 201 leaves the garage with [totalBookings] one higher and
    [completedBookings] as it was; a status request that moves a booking
    from in_progress to completed leaves its garage with
    [completedBookings] one higher and [totalBookings] as it was; the
    soft delete of a completed booking leaves its garage with
    [completedBookings] one lower but not below zero and [totalBookings]
    as it was.  On the sample garage: after three bookings and one
    completion the counters are 3 and 1, and after the soft delete of
    the completed booking they are 3 and 0. *)
Theorem garage_counters_follow_bookings :
  (forall req user now db,
      NoDup (map Garage._id (garages db)) ->
      code (fst (createBooking req user now db)) = 201%nat ->
      exists gid g g',
        garageId req = AnId gid
        /\ Garage_findById db gid = Some g
        /\ Garage_findById (snd (createBooking req user now db)) gid
           = Some g'
        /\ (countable g -> total g' = total g + 1 /\ done g' = done g))
  /\ (forall db i b g req user now,
         Booking_findById db i = Some b ->
         Booking.isDeleted b = false ->
         Garage_findById db (Booking.garage b) = Some g ->
         may_drive g user ->
         Booking.status b = Booking.in_progress ->
         status req = "completed" ->
         fst (updateBookingStatus (AnId i) req user now db)
         = reply 200 "Booking completed successfully"
         /\ exists g',
             Garage_findById
               (snd (updateBookingStatus (AnId i) req user now db))
               (Booking.garage b) = Some g'
             /\ (countable g ->
                 done g' = done g + 1 /\ total g' = total g))
  /\ (forall db i b g user now,
         Booking_findById db i = Some b ->
         Booking.isDeleted b = false ->
         may_delete db b user ->
         Booking.status b = Booking.completed ->
         Garage_findById db (Booking.garage b) = Some g ->
         fst (deleteBooking (AnId i) user now db)
         = reply 200 "Booking deleted successfully"
         /\ exists g',
             Garage_findById (snd (deleteBooking (AnId i) user now db))
               (Booking.garage b) = Some g'
             /\ (countable g ->
                 done g' = Z.max 0 (done g - 1) /\ total g' = total g))
  /\ counters three_created = [(3, 0)]
  /\ counters one_completed = [(3, 1)]
  /\ counters completed_deleted = [(3, 0)].
Proof.
  split; [exact create_counts|].
  split; [exact complete_counts|].
  split; [exact delete_counts|].
  split; [|split]; vm_compute; reflexivity.
Qed.

(** The counters of the sample garage, step by step, through the
    theorem: booking 1 is created, completed and soft-deleted. *)
Lemma garage_counters_follow_bookings_witness :
  (exists g',
      Garage_findById Sample.db1 1%nat = Some g'
      /\ total g' = 1 /\ done g' = 0)
  /\ (exists g',
         Garage_findById
           (snd (deleteBooking (AnId 1%nat) Sample.admin30 3000
                   one_completed)) 1%nat = Some g'
         /\ done g' = 0 /\ total g' = 3).
Proof.
  destruct garage_counters_follow_bookings as (Hc & _ & Hd & _).
  split.
  - destruct (Hc (Sample.book Sample.monday_2024_06_10 "09:00" "10:00")
                Sample.driver20 1000 Sample.db0)
      as (gid & g & g' & Hgid & Hg & Hg' & Hcount).
    + simpl. repeat constructor. simpl. tauto.
    + vm_compute. reflexivity.
    + injection Hgid as <-.
      assert (Eg : g = Sample.garage1).
      { vm_compute in Hg. now injection Hg as <-. }
      subst g. exists g'. split; [exact Hg'|].
      apply Hcount. split; vm_compute; split; reflexivity.
  - let ob := eval vm_compute in (Booking_findById one_completed 1%nat) in
    let og := eval vm_compute in (Garage_findById one_completed 1%nat) in
    match ob with
    | Some ?b =>
        match og with
        | Some ?g =>
            destruct (Hd one_completed 1%nat b g Sample.admin30 3000)
              as (_ & g' & Hg' & Hcount);
            [vm_compute; reflexivity | reflexivity | left; reflexivity
            | reflexivity | vm_compute; reflexivity
            | exists g'; split; [exact Hg'|];
              apply Hcount; split; vm_compute; split; reflexivity ]
        end
    end.
Defined.

(** C6 as stated fails on the code, where the counters are Numbers.  On
    the sample database with [totalBookings] of garage 1 at 2^53 (a value
    that an admin's update of the garage can store), a create request is
    answered 201 and leaves the counter at 2^53, since 2^53 + 1 is no
    double and the sum is rounded back. *)
Lemma counter_stops_at_two53 :
  code (fst (booked_from 9007199254740992)) = 201%nat
  /\ counters (counting_from 9007199254740992) = [(9007199254740992, 0)]
  /\ counters (snd (booked_from 9007199254740992))
     = [(9007199254740992, 0)]
  /\ map Booking.status (bookings (snd (booked_from 9007199254740992)))
     = [Booking.pending].
Proof. repeat split; vm_compute; reflexivity. Qed.

End StatsFacts.

(* ================================================================== *)
(** ** The status history and what is stored of it *)
(* ================================================================== *)

Module HistoryFacts.

Import BookingCtl History.

(** Saving a document stores its schema paths and nothing of its
    [statusHistory]. *)
Lemma save_drops_history db d b :
  Booking_findById db (Booking._id (Booking.paths d)) = Some b ->
  reloaded (Booking_save db d) (Booking._id (Booking.paths d))
  = Some (Booking.hydrate (Booking.paths d)).
Proof.
  intros H. unfold reloaded.
  now rewrite (StateMachineFacts.findById_after_save db d b H).
Qed.

(** The handler pushes exactly one entry onto the document in memory. *)
Lemma push_history_one d s by_ reason now :
  exists e,
    Booking.statusHistory (push_history d s by_ reason now)
    = Some (app (match Booking.statusHistory d with
                 | Some h => h
                 | None => []
                 end) [e])
    /\ Booking.h_status e = Booking.name s
    /\ Booking.changedBy e = by_
    /\ Booking.changedAt e = now.
Proof. eexists. repeat split. Qed.

(** C3 on the code.  After a status request that succeeds with a
    transition, the stored booking carries the new status, and the
    document the next query loads has no [statusHistory] at all: the entry
    the handler pushed is not persisted.  The same holds for the car
    owner's cancel request.  On the sample database, after the garage
    owner approved booking 1, its timeline shows the creation and the
    current status and no status change. *)
Theorem pushed_history_is_not_stored :
  (forall db i b g req user now,
      Booking_findById db i = Some b ->
      Booking.isDeleted b = false ->
      Garage_findById db (Booking.garage b) = Some g ->
      StateMachine.may_drive g user ->
      In (status req) (StateMachine.spec_transitions (Booking.status b)) ->
      exists d,
        reloaded (snd (updateBookingStatus (AnId i) req user now db)) i
        = Some d
        /\ Booking.name (Booking.status (Booking.paths d)) = status req
        /\ Booking.statusHistory d = None)
  /\ (forall db i b reason user now,
         NoDup (map Booking._id (bookings db)) ->
         find (fun b => Nat.eqb (Booking._id b) i
                        && Nat.eqb (Booking.carOwner b) (id user)
                        && negb (Booking.isDeleted b)) (bookings db)
         = Some b ->
         In (Booking.status b) cancellableStatuses ->
         exists d,
           reloaded (snd (cancelBooking (AnId i) reason user now db)) i
           = Some d
           /\ Booking.status (Booking.paths d) = Booking.cancelled
           /\ Booking.statusHistory d = None)
  /\ (let approved_db :=
        snd (updateBookingStatus (AnId 1%nat) (Sample.to "approved")
               Sample.owner10 2000 Sample.db1) in
      map Booking.status (bookings approved_db) = [Booking.approved]
      /\ getBookingTimeline (AnId 1%nat) Sample.owner10 approved_db
         = inr [ {| event := "Booking Created"; ev_status := "created";
                    timestamp := 1000;
                    description := "Booking request submitted";
                    ev_changedBy := None |};
                 {| event := "Current Status"; ev_status := "approved";
                    timestamp := 2000;
                    description := "Booking is currently approved";
                    ev_changedBy := None |} ]).
Proof.
  split; [|split; [|vm_compute; split; reflexivity]].
  - intros db i b g req user now Hb Hd Hg Hu Hin.
    destruct (StateMachineFacts.update_performs db i b g req user now
                Hb Hd Hg Hu Hin) as (_ & s & Hn & Hf).
    exists (Booking.hydrate (Booking.set_status b s now)).
    unfold reloaded. rewrite Hf. simpl. auto.
  - intros db i b reason user now ND Hb Hin.
    rewrite (StateMachineFacts.cancel_cases _ _ _ _ _ _ Hb).
    assert (E : existsb (Booking.Status_eqb (Booking.status b))
                  cancellableStatuses = true).
    { destruct (Booking.status b); simpl in Hin; intuition discriminate. }
    rewrite E. cbn [snd].
    assert (Hid : Booking_findById db i = Some b).
    { unfold Booking_findById.
      apply (find_pinned Booking._id)
        with (q := fun b => (Nat.eqb (Booking._id b) i
                             && Nat.eqb (Booking.carOwner b) (id user)
                             && negb (Booking.isDeleted b))%bool);
        [assumption| |assumption].
      intros y Hy. apply andb_prop in Hy. destruct Hy as [Hy _].
      apply andb_prop in Hy. destruct Hy as [Hy _]. now apply Nat.eqb_eq. }
    pose proof (find_by_id_key _ _ _ _ Hid) as Hi.
    eexists. split; [|split].
    + rewrite <- Hi.
      apply (save_drops_history db
               (push_history (Booking.hydrate b) Booking.cancelled (id user)
                  (or_default reason "Cancelled by customer") now) b).
      simpl. rewrite Hi. exact Hid.
    + reflexivity.
    + reflexivity.
Qed.

End HistoryFacts.

(* ================================================================== *)
(** ** Provider notifications *)
(* ================================================================== *)

Module SettlementFacts.

Import PaymentCtl Settlement.

Lemma bookings_Payment_save db p : bookings (Payment_save db p) = bookings db.
Proof.
  unfold Payment_save, post_save, User_update.
  destruct (Payment.paymentType p), (Payment.status p); try reflexivity.
  simpl. destruct (find _ _); reflexivity.
Qed.

Lemma findById_Payment_save db p i :
  Booking_findById (Payment_save db p) i = Booking_findById db i.
Proof. unfold Booking_findById. now rewrite bookings_Payment_save. Qed.

(** The update document of the settlement, after casting: only [status]
    is a path of the booking schema. *)
Lemma settlement_update_cast pid :
  cast_update [("isPaid", VBool true); ("payment", VId pid);
               ("status", VString "approved")]
  = [("status", VString "approved")].
Proof. reflexivity. Qed.

(** A valid success notification for a booking payment: whatever the
    status of the payment and of the booking, the payment is written as
    completed with a new [paidAt], and the booking is written as
    approved. *)
Lemma success_writes_booking hmac payload now db p bid b :
  Payment_findByTx db (Payment.tx_ref payload) = Some p ->
  Payment.p_status payload = "success" ->
  Payment.paymentType p = Payment.booking_payment ->
  Payment.booking p = Some bid ->
  Booking_findById db bid = Some b ->
  let out :=
    handleChapaWebhook hmac payload (Some (hmac payload)) now db in
  fst out = reply 200 "Webhook processed"
  /\ payments (snd out)
     = replace Payment._id
         (settle p Payment.completed (Some (Payment.Hook payload)) (Some now))
         (payments db)
  /\ Booking_findById (snd out) bid
     = Some (Booking.set_status b Booking.approved now).
Proof.
  intros Hp Hs Ht Hb Hf out. subst out. unfold handleChapaWebhook.
  rewrite String.eqb_refl, Hp, Hs. cbn [negb String.eqb Ascii.eqb Bool.eqb].
  cbn [settle Payment.paymentType Payment.booking Payment._id].
  rewrite Ht, Hb. cbn [fst snd].
  unfold Booking_findByIdAndUpdate. rewrite findById_Payment_save, Hf.
  rewrite settlement_update_cast.
  split; [reflexivity|]. split.
  - cbn [payments set_bookings]. unfold Payment_save, post_save.
    cbn [settle Payment.paymentType Payment.status]. rewrite Ht. reflexivity.
  - pose proof (find_by_id_key _ _ _ _ Hf) as Hi.
    unfold Booking_findById. cbn [bookings set_bookings].
    rewrite bookings_Payment_save.
    cbn [fold_right set_path fst snd]. cbn.
    rewrite <- Hi.
    apply (find_replace_same Booking._id (bookings db)
             (Booking.set_status b Booking.approved now) b).
    simpl. rewrite Hi. exact Hf.
Qed.

(** The manual verification does re-check: for a payment already
    completed (and naming no garage, so that the query succeeds), a
    "success" answer of the provider writes nothing. *)
Lemma verify_is_idempotent tx now db p :
  Payment_findByTx db tx = Some p ->
  Payment.garageCreation_garage p = None ->
  Payment.status p = Payment.completed ->
  verifyPayment tx (Some "success") now db = (reply 200 "OK", db).
Proof.
  intros Hp Hg Hs. unfold verifyPayment, populate_throws.
  now rewrite Hp, Hg, Hs.
Qed.

(** C5 on the code.  The webhook handler writes on every valid success
    notification for a booking payment, without looking at the status of
    the payment or of the booking: the payment gets a new [paidAt] and the
    booking is written as approved (the [isPaid] and [payment] keys of the
    update are no paths of the booking schema and are dropped).  On the
    sample database the second delivery of the same notification, after
    the garage owner started the work, puts the booking back to approved
    and restamps the payment; the manual verification, in contrast, leaves
    a completed payment alone. *)
Theorem second_delivery_rewrites :
  (forall hmac payload now db p bid b,
      Payment_findByTx db (Payment.tx_ref payload) = Some p ->
      Payment.p_status payload = "success" ->
      Payment.paymentType p = Payment.booking_payment ->
      Payment.booking p = Some bid ->
      Booking_findById db bid = Some b ->
      let out :=
        handleChapaWebhook hmac payload (Some (hmac payload)) now db in
      fst out = reply 200 "Webhook processed"
      /\ payments (snd out)
         = replace Payment._id
             (settle p Payment.completed (Some (Payment.Hook payload))
                (Some now)) (payments db)
      /\ Booking_findById (snd out) bid
         = Some (Booking.set_status b Booking.approved now))
  /\ (booking_status settled_once 1%nat = Some Booking.approved
      /\ payment_state settled_once "tx-1"
         = Some (Payment.completed, Some 5000))
  /\ (booking_status work_started 1%nat = Some Booking.in_progress
      /\ payment_state work_started "tx-1"
         = Some (Payment.completed, Some 5000))
  /\ (booking_status settled_twice 1%nat = Some Booking.approved
      /\ payment_state settled_twice "tx-1"
         = Some (Payment.completed, Some 7000))
  /\ verifyPayment "tx-1" (Some "success") 7000 work_started
     = (reply 200 "OK", work_started).
Proof.
  split; [exact success_writes_booking|].
  repeat split; vm_compute; reflexivity.
Qed.

(** What a notification that is not a success writes: the payment, as
    failed, and nothing else. *)
Lemma failure_writes_payment hmac payload now db p :
  Payment_findByTx db (Payment.tx_ref payload) = Some p ->
  Payment.p_status payload <> "success" ->
  handleChapaWebhook hmac payload (Some (hmac payload)) now db
  = (reply 200 "Webhook processed",
     set_payments db
       (replace Payment._id
          (settle p Payment.failed (Some (Payment.Hook payload))
             (Payment.paidAt p)) (payments db))).
Proof.
  intros Hp Hs. unfold handleChapaWebhook.
  rewrite String.eqb_refl, Hp. apply String.eqb_neq in Hs. rewrite Hs.
  cbn [negb]. unfold Payment_save, post_save.
  cbn [settle Payment.paymentType Payment.status].
  destruct (Payment.paymentType p); reflexivity.
Qed.

Lemma findByTx_after_write db tx p p' :
  NoDup (map Payment._id (payments db)) ->
  Payment_findByTx db tx = Some p ->
  Payment._id p' = Payment._id p ->
  Payment.transactionId p' = Payment.transactionId p ->
  Payment_findByTx
    (set_payments db (replace Payment._id p' (payments db))) tx = Some p'.
Proof.
  unfold Payment_findByTx. cbn [payments set_payments].
  intros ND Hp Hid Htx.
  assert (Hq : match Payment.transactionId p' with
               | Some t => String.eqb t tx
               | None => false
               end = true).
  { rewrite Htx. apply find_some in Hp. apply Hp. }
  revert ND Hp. induction (payments db) as [|z l IH]; simpl; [discriminate|].
  intros ND. inversion ND as [|k ks Nin ND']; subst.
  destruct (match Payment.transactionId z with
            | Some t => String.eqb t tx
            | None => false
            end) eqn:Ez.
  - intros [= ->]. rewrite Hid, Nat.eqb_refl. simpl. now rewrite Hq.
  - intros Hp. destruct (Nat.eqb (Payment._id z) (Payment._id p')) eqn:E.
    + exfalso. apply Nin. apply find_some in Hp. destruct Hp as [Hin _].
      apply Nat.eqb_eq in E. rewrite E, Hid. now apply in_map.
    + simpl. rewrite Ez. now apply IH.
Qed.

(** C10.  For a payment found by the transaction reference of a
    notification that carries a valid signature and a status other than
    'success': the handler answers 200, the payment is stored as failed
    whatever its status was, and the bookings, users and garages are
    exactly what they were, so nothing a previous settlement wrote is
    taken back. *)
Theorem failure_marks_failed_only hmac payload now db p :
  NoDup (map Payment._id (payments db)) ->
  Payment_findByTx db (Payment.tx_ref payload) = Some p ->
  Payment.p_status payload <> "success" ->
  let out := handleChapaWebhook hmac payload (Some (hmac payload)) now db in
  fst out = reply 200 "Webhook processed"
  /\ (exists p',
         Payment_findByTx (snd out) (Payment.tx_ref payload) = Some p'
         /\ Payment.status p' = Payment.failed
         /\ Payment._id p' = Payment._id p)
  /\ bookings (snd out) = bookings db
  /\ users (snd out) = users db
  /\ garages (snd out) = garages db.
Proof.
  intros ND Hp Hs out. subst out.
  rewrite (failure_writes_payment hmac payload now db p Hp Hs).
  cbn [fst snd]. split; [reflexivity|]. split; [|repeat split].
  eexists. split; [|split].
  - apply findByTx_after_write with (p := p); [assumption|assumption| |];
      reflexivity.
  - reflexivity.
  - reflexivity.
Qed.

Lemma failure_marks_failed_only_witness :
  (payment_state both_settled "tx-1" = Some (Payment.completed, Some 5000)
   /\ booking_status both_settled 1%nat = Some Booking.approved
   /\ map User.canCreateGarage (users both_settled)
      = [true; false; false; false]
   /\ map Payment.status (payments both_failed)
      = [Payment.failed; Payment.failed]
   /\ booking_status both_failed 1%nat = Some Booking.approved
   /\ map User.canCreateGarage (users both_failed)
      = [true; false; false; false])
  /\ (exists p',
         Payment_findByTx (snd (deliver "tx-1" "failed" 8000 both_settled))
           "tx-1" = Some p'
         /\ Payment.status p' = Payment.failed
         /\ Payment._id p' = 1%nat)
  /\ bookings (snd (deliver "tx-1" "failed" 8000 both_settled))
     = bookings both_settled
  /\ users (snd (deliver "tx-1" "failed" 8000 both_settled))
     = users both_settled.
Proof.
  split; [repeat split; vm_compute; reflexivity|].
  let op := eval vm_compute in (Payment_findByTx both_settled "tx-1") in
  match op with
  | Some ?p =>
      destruct (failure_marks_failed_only sample_hmac
                  (notify "tx-1" "failed") 8000 both_settled p)
        as (_ & (p' & Hf & Hst & Hid) & Hb & Hu & _);
      [ vm_compute; repeat constructor; simpl; intuition discriminate
      | vm_compute; reflexivity
      | discriminate
      | split; [exists p'; repeat split; assumption | split; assumption] ]
  end.
Defined.

(** X1.  The settlement does not go through the transition table: a
    valid success notification for a booking payment stores the booking as
    approved whatever its status was.  On the sample database a cancelled
    booking whose slot was taken in the meantime becomes active again, and
    the slot then holds two active bookings. *)
Theorem settlement_bypasses_table :
  (forall hmac payload now db p bid b,
      Payment_findByTx db (Payment.tx_ref payload) = Some p ->
      Payment.p_status payload = "success" ->
      Payment.paymentType p = Payment.booking_payment ->
      Payment.booking p = Some bid ->
      Booking_findById db bid = Some b ->
      Booking_findById
        (snd (handleChapaWebhook hmac payload (Some (hmac payload)) now db))
        bid
      = Some (Booking.set_status b Booking.approved now))
  /\ map Booking.status (bookings slot_rebooked)
     = [Booking.cancelled; Booking.pending]
  /\ Slots.slot_unique (bookings slot_rebooked)
  /\ map Booking.status (bookings cancelled_then_paid)
     = [Booking.approved; Booking.pending]
  /\ List.length
       (filter (slot_taken_by 1%nat Sample.monday_2024_06_10
                  (Sample.slot "09:00" "10:00"))
          (bookings cancelled_then_paid)) = 2%nat
  /\ ~ Slots.slot_unique (bookings cancelled_then_paid).
Proof.
  split.
  { intros hmac payload now db p bid b Hp Hs Ht Hb Hf.
    apply (success_writes_booking hmac payload now db p bid b Hp Hs Ht Hb Hf). }
  split; [vm_compute; reflexivity|]. split.
  { apply (SlotsFacts.run_keeps_slots
             [Slots.Cancel (AnId 1%nat) "" Sample.driver20 3000;
              Slots.Create
                (Sample.book Sample.monday_2024_06_10 "09:00" "10:00")
                Sample.driver21 4000] paying).
    apply (SlotsFacts.run_keeps_slots
             [Slots.Create
                (Sample.book Sample.monday_2024_06_10 "09:00" "10:00")
                Sample.driver20 1000]
             (set_payments Sample.db0 (payments paying))).
    intros g d ts. simpl. lia. }
  split; [vm_compute; reflexivity|]. split; [vm_compute; reflexivity|].
  intros U.
  specialize (U 1%nat Sample.monday_2024_06_10 (Sample.slot "09:00" "10:00")).
  vm_compute in U. lia.
Qed.

(** C1 on the code.  The slots do not stay unique once the payment
    webhook takes part.  On the sample database every slot holds at most
    one active booking while driver 20 cancels booking 1 (200) and driver
    21 books the freed Monday 09:00-10:00 slot (201, booking 2).  The
    success notification for payment 1, the payment of booking 1, is then
    answered 200 and writes booking 1 as approved without looking at its
    status, where [updateBookingStatus] refuses every transition out of
    cancelled: bookings 1 and 2 are both active on the same garage, date,
    start and end, and a further create request for the slot is answered
    'Time slot already booked'. *)
Theorem webhook_double_books_slot :
  Slots.slot_unique (bookings paying)
  /\ fst (BookingCtl.cancelBooking (AnId 1%nat) "" Sample.driver20 3000
            paying)
     = reply 200 "Booking cancelled successfully"
  /\ code (fst (BookingCtl.createBooking
                  (Sample.book Sample.monday_2024_06_10 "09:00" "10:00")
                  Sample.driver21 4000
                  (snd (BookingCtl.cancelBooking (AnId 1%nat) ""
                          Sample.driver20 3000 paying)))) = 201%nat
  /\ Slots.slot_unique (bookings slot_rebooked)
  /\ fst (BookingCtl.updateBookingStatus (AnId 1%nat) (Sample.to "approved")
            Sample.owner10 5000 slot_rebooked)
     = reply 400 "Cannot transition from cancelled to approved"
  /\ fst (deliver "tx-1" "success" 5000 slot_rebooked)
     = reply 200 "Webhook processed"
  /\ map (fun b => (Booking._id b, Booking.status b, Booking.isDeleted b,
                    Booking.garage b, Booking.bookingDate b,
                    Booking.timeSlot b))
       (bookings cancelled_then_paid)
     = [(1%nat, Booking.approved, false, 1%nat, Sample.monday_2024_06_10,
         Sample.slot "09:00" "10:00");
        (2%nat, Booking.pending, false, 1%nat, Sample.monday_2024_06_10,
         Sample.slot "09:00" "10:00")]
  /\ ~ Slots.slot_unique (bookings cancelled_then_paid)
  /\ fst (BookingCtl.createBooking
            (Sample.book Sample.monday_2024_06_10 "09:00" "10:00")
            Sample.driver20 6000 cancelled_then_paid)
     = reply 400 "Time slot already booked".
Proof.
  assert (U0 : Slots.slot_unique (bookings paying)).
  { apply (SlotsFacts.run_keeps_slots
             [Slots.Create
                (Sample.book Sample.monday_2024_06_10 "09:00" "10:00")
                Sample.driver20 1000]
             (set_payments Sample.db0 (payments paying))).
    intros g d ts. simpl. lia. }
  split; [exact U0|].
  split; [vm_compute; reflexivity|]. split; [vm_compute; reflexivity|].
  split.
  { exact (SlotsFacts.run_keeps_slots
             [Slots.Cancel (AnId 1%nat) "" Sample.driver20 3000;
              Slots.Create
                (Sample.book Sample.monday_2024_06_10 "09:00" "10:00")
                Sample.driver21 4000] paying U0). }
  split; [vm_compute; reflexivity|]. split; [vm_compute; reflexivity|].
  split; [vm_compute; reflexivity|]. split; [|vm_compute; reflexivity].
  intros U.
  specialize (U 1%nat Sample.monday_2024_06_10 (Sample.slot "09:00" "10:00")).
  vm_compute in U. lia.
Qed.

(** X2.  The manual verification of a stored payment that names no
    garage and is already completed writes nothing, whatever it had
    settled.  A stored payment that names a garage is never verified:
    the query populates [garageCreation.garage], whose model 'Garage' is
    not registered (the garage schema is registered as 'garage'), so
    whatever the provider answers the handler replies 500 and writes
    nothing. *)
Theorem verify_leaves_completed_alone tx now db p :
  Payment_findByTx db tx = Some p ->
  (Payment.garageCreation_garage p = None ->
   Payment.status p = Payment.completed ->
   verifyPayment tx (Some "success") now db = (reply 200 "OK", db))
  /\ (Payment.garageCreation_garage p <> None ->
      forall st,
        verifyPayment tx (Some st) now db = (reply 500 missing_schema, db)).
Proof.
  intros Hp. split.
  - exact (verify_is_idempotent tx now db p Hp).
  - intros Hg st. unfold verifyPayment, populate_throws. rewrite Hp.
    destruct (Payment.garageCreation_garage p); [reflexivity|].
    now contradiction Hg.
Qed.

(** Payment 1, settled, names no garage; payment 2 names garage 1. *)
Lemma verify_leaves_completed_alone_witness :
  verifyPayment "tx-1" (Some "success") 9000 settled_once
  = (reply 200 "OK", settled_once)
  /\ verifyPayment "tx-2" (Some "success") 9000 settled_once
     = (reply 500 missing_schema, settled_once).
Proof.
  split.
  - let op := eval vm_compute in (Payment_findByTx settled_once "tx-1") in
    match op with
    | Some ?p =>
        apply (verify_leaves_completed_alone "tx-1" 9000 settled_once p);
        [vm_compute; reflexivity | reflexivity | reflexivity]
    end.
  - let op := eval vm_compute in (Payment_findByTx settled_once "tx-2") in
    match op with
    | Some ?p =>
        apply (verify_leaves_completed_alone "tx-2" 9000 settled_once p);
        [vm_compute; reflexivity | discriminate]
    end.
Defined.

End SettlementFacts.

(* ================================================================== *)
(** ** The review gate *)
(* ================================================================== *)

Module ReviewGateFacts.

Import ReviewCtl ReviewGate.

Lemma index_free db bid :
  no_deleted_review db bid ->
  existingReview db bid = None -> index_holds db bid = false.
Proof.
  unfold no_deleted_review, existingReview, index_holds.
  induction (reviews db) as [|r l IH]; simpl; [reflexivity|].
  intros Hn. destruct (Nat.eqb (Review.booking r) bid) eqn:E; simpl.
  - apply Nat.eqb_eq in E. rewrite (Hn r (or_introl eq_refl) E). discriminate.
  - intros H. apply IH; [|assumption]. intros r' Hin. apply Hn. now right.
Qed.

(** The guards of [createReview], in the order the handler runs them. *)
Lemma review_cases req user db bid gid :
  acceptable req bid gid ->
  createReview req user db =
  match ownBooking db bid user with
  | None => (reply 404 "Booking not found or not authorized", db)
  | Some booking =>
      if negb (eligible (Booking.status booking)) then
        (reply 400 "Can only review completed or approved bookings", db)
      else
        match existingReview db bid with
        | Some _ => (reply 400 "Review already exists for this booking", db)
        | None =>
            match BookingCtl.listedGarage db gid with
            | None => (reply 404 "Garage not found", db)
            | Some _ =>
                if negb (index_holds db bid) then
                  (reply 201 "Review created successfully",
                   set_reviews db
                     (app (reviews db)
                        [{| Review._id := fresh Review._id (reviews db);
                            Review.carOwner := id user;
                            Review.garage := gid;
                            Review.booking := bid;
                            Review.rating := rating req;
                            Review.title := Js.trim (title req);
                            Review.comment := Js.trim (comment req);
                            Review.images := images req;
                            Review.isVerified := true;
                            Review.isDeleted := false |}]))
                else (reply 500 "Error creating review", db)
            end
        end
  end.
Proof.
  intros (Hb & Hg & Hr & Ht & Hc & Hv). unfold createReview.
  rewrite Hb, Hg, Hv. apply String.eqb_neq in Ht, Hc.
  destruct (Qeq_bool (rating req) 0) eqn:Er;
    [apply Qeq_bool_iff in Er; contradiction|].
  rewrite Ht, Hc. reflexivity.
Qed.

(** Whatever the request, the handler either leaves the reviews alone or
    appends one review for a booking no stored review refers to. *)
Lemma review_outcome req user db :
  snd (createReview req user db) = db
  \/ exists r,
      reviews (snd (createReview req user db)) = app (reviews db) [r]
      /\ index_holds db (Review.booking r) = false.
Proof.
  unfold createReview.
  destruct (_ || _)%bool; [left; reflexivity|].
  destruct (bookingId req) as [| |bid]; try (left; reflexivity).
  destruct (ownBooking db bid user) as [b|]; [|left; reflexivity].
  destruct (negb _); [left; reflexivity|].
  destruct (existingReview db bid); [left; reflexivity|].
  destruct (garageId req) as [| |gid]; try (left; reflexivity).
  destruct (BookingCtl.listedGarage db gid); [|left; reflexivity].
  destruct (validate req); [|left; reflexivity].
  destruct (index_holds db bid) eqn:E; [left; reflexivity|].
  right. eexists. split; [reflexivity|exact E].
Qed.

Lemma one_review_per_booking_kept req user db :
  NoDup (map Review.booking (reviews db)) ->
  NoDup (map Review.booking (reviews (snd (createReview req user db)))).
Proof.
  intros ND. destruct (review_outcome req user db) as [->|(r & -> & Hfree)];
    [assumption|].
  rewrite map_app. simpl. apply NoDup_app_remove_l with (l := []).
  simpl. apply NoDup_Add with (a := Review.booking r)
                              (l := map Review.booking (reviews db)).
  - clear. induction (map Review.booking (reviews db)) as [|x l IH]; simpl.
    + constructor.
    + now constructor.
  - split; [assumption|].
    intros Hin. apply in_map_iff in Hin. destruct Hin as (r' & E & Hin).
    unfold index_holds in Hfree.
    assert (existsb (fun r0 => Nat.eqb (Review.booking r0) (Review.booking r))
              (reviews db) = true) as Ht.
    { apply existsb_exists. exists r'. split; [assumption|].
      now apply Nat.eqb_eq. }
    congruence.
Qed.

(** The validators count code units after trimming: a title of a hundred
    accented letters between two no-break spaces is trimmed to the
    hundred letters (two hundred bytes) and passes, as does the rating
    4.5; one letter more is too long. *)
Example validators_count_code_units :
  Js.length (Js.trim (title (titled (accented 100)))) = 100%nat
  /\ String.length (Js.trim (title (titled (accented 100)))) = 200%nat
  /\ validate (titled (accented 100)) = true
  /\ validate (titled (accented 101)) = false.
Proof. repeat split; vm_compute; reflexivity. Qed.

(** C8, as amended.  For a request whose fields are present and valid,
    and a booking that no soft-deleted review refers to: the request
    answers 201 exactly when a booking with that id exists, is not
    soft-deleted and belongs to the requesting car owner, its status is
    completed or approved, no non-deleted review refers to it, and a
    garage with the supplied id exists and is not soft-deleted.  A booking
    that is absent, soft-deleted or owned by someone else answers 404
    "Booking not found or not authorized"; a status outside completed and
    approved answers 400 "Can only review completed or approved
    bookings"; an existing review answers 400 "Review already exists for
    this booking"; and none of them writes.  Whatever the request, stored
    reviews that refer to pairwise different bookings still do so
    afterwards. *)
Theorem review_gate :
  (forall req user db bid gid,
      acceptable req bid gid ->
      no_deleted_review db bid ->
      let out := createReview req user db in
      (code (fst out) = 201%nat <->
       exists b,
         ownBooking db bid user = Some b
         /\ eligible (Booking.status b) = true
         /\ existingReview db bid = None
         /\ BookingCtl.listedGarage db gid <> None)
      /\ (ownBooking db bid user = None ->
          out = (reply 404 "Booking not found or not authorized", db))
      /\ (forall b,
             ownBooking db bid user = Some b ->
             eligible (Booking.status b) = false ->
             out = (reply 400 "Can only review completed or approved bookings",
                    db))
      /\ (forall b,
             ownBooking db bid user = Some b ->
             eligible (Booking.status b) = true ->
             existingReview db bid <> None ->
             out = (reply 400 "Review already exists for this booking", db)))
  /\ (forall req user db,
         NoDup (map Review.booking (reviews db)) ->
         NoDup (map Review.booking
                  (reviews (snd (createReview req user db))))).
Proof.
  split; [|exact one_review_per_booking_kept].
  intros req user db bid gid Ha Hn out. subst out.
  rewrite (review_cases req user db bid gid Ha).
  split; [|split; [|split]].
  - split.
    + destruct (ownBooking db bid user) as [b|]; [|discriminate].
      destruct (eligible (Booking.status b)) eqn:Ee; [|discriminate].
      cbn [negb]. destruct (existingReview db bid) eqn:Er; [discriminate|].
      destruct (BookingCtl.listedGarage db gid) eqn:Eg; [|discriminate].
      intros _. exists b. repeat split; congruence.
    + intros (b & -> & -> & Hr & Hg). cbn [negb]. rewrite Hr.
      destruct (BookingCtl.listedGarage db gid); [|contradiction].
      now rewrite (index_free db bid Hn Hr).
  - now intros ->.
  - intros b -> ->. reflexivity.
  - intros b -> -> Hr. cbn [negb].
    destruct (existingReview db bid); [reflexivity|contradiction].
Qed.

(** The gate on the sample bookings: the completed booking is reviewed
    once, a second review of it is refused as a duplicate, and a pending
    booking cannot be reviewed. *)
Lemma review_gate_witness :
  code (fst (createReview (review 1%nat 1%nat) Sample.driver20 reviewing))
  = 201%nat
  /\ createReview (review 1%nat 1%nat) Sample.driver20 reviewed_once
     = (reply 400 "Review already exists for this booking", reviewed_once)
  /\ createReview (review 3%nat 1%nat) Sample.driver20 reviewing
     = (reply 400 "Can only review completed or approved bookings",
        reviewing).
Proof.
  destruct review_gate as [Hgate _].
  split; [|split].
  - destruct (Hgate (review 1%nat 1%nat) Sample.driver20 reviewing
                1%nat 1%nat) as (Hiff & _).
    + repeat split; discriminate.
    + intros r Hin. vm_compute in Hin. contradiction.
    + apply Hiff.
      let ob := eval vm_compute in (ownBooking reviewing 1%nat Sample.driver20)
      in match ob with
         | Some ?b => exists b
         end.
      repeat split; try (vm_compute; reflexivity). vm_compute. discriminate.
  - let ob := eval vm_compute in
        (ownBooking reviewed_once 1%nat Sample.driver20) in
    match ob with
    | Some ?b =>
        destruct (Hgate (review 1%nat 1%nat) Sample.driver20 reviewed_once
                    1%nat 1%nat) as (_ & _ & _ & Hdup);
        [ repeat split; discriminate
        | intros r Hin Hb; vm_compute in Hin;
          destruct Hin as [<-|[]]; reflexivity
        | apply (Hdup b);
          [ vm_compute; reflexivity | vm_compute; reflexivity
          | vm_compute; discriminate ] ]
    end.
  - let ob := eval vm_compute in
        (ownBooking reviewing 3%nat Sample.driver20) in
    match ob with
    | Some ?b =>
        destruct (Hgate (review 3%nat 1%nat) Sample.driver20 reviewing
                    3%nat 1%nat) as (_ & _ & Hstate & _);
        [ repeat split; discriminate
        | intros r Hin; vm_compute in Hin; contradiction
        | apply (Hstate b); vm_compute; reflexivity ]
    end.
Defined.

(** C8 as stated fails on the code.  Driver 20 reviews booking 1, which
    is a booking of garage 1, under garage 2: the request answers 201 and
    the review is stored for garage 2.  And a booking that does not exist
    (99) and a booking of another car owner (2, of driver 21) get the very
    same answer. *)
Lemma review_for_another_garage :
  option_map Booking.garage (Booking_findById reviewing 1%nat) = Some 1%nat
  /\ fst (createReview (review 1%nat 2%nat) Sample.driver20 reviewing)
     = reply 201 "Review created successfully"
  /\ map (fun r => (Review.booking r, Review.garage r))
       (reviews (snd (createReview (review 1%nat 2%nat) Sample.driver20
                        reviewing)))
     = [(1%nat, 2%nat)]
  /\ Booking_findById reviewing 99%nat = None
  /\ option_map Booking.carOwner (Booking_findById reviewing 2%nat)
     = Some 21%nat
  /\ fst (createReview (review 99%nat 1%nat) Sample.driver20 reviewing)
     = reply 404 "Booking not found or not authorized"
  /\ fst (createReview (review 2%nat 1%nat) Sample.driver20 reviewing)
     = reply 404 "Booking not found or not authorized".
Proof. repeat split; vm_compute; reflexivity. Qed.

End ReviewGateFacts.

(* ================================================================== *)
(** ** Who reaches the booking routes *)
(* ================================================================== *)

Module AccessFacts.

Import Routes Access.

(** The route the request is meant for. *)
Lemma check_route_is_open_to_any_role :
  find (fun r => Method_eqb (method r) POST
                 && matches (pattern r) ["check-availability"]) table
  = Some {| method := POST; pattern := [Lit "check-availability"];
            roles := None; handler := checkAvailability |}.
Proof. reflexivity. Qed.

Lemma protect_stops jwt h db :
  (forall u, Auth.protect jwt h db <> Auth.Next u) ->
  exists r, Auth.protect jwt h db = Auth.Stop r
            /\ (code r = 401%nat \/ code r = 500%nat).
Proof.
  intros H. unfold Auth.protect in *.
  destruct h as [h|]; [|eexists; split; [reflexivity|now left]].
  destruct (String.prefix "Bearer" h);
    [|eexists; split; [reflexivity|now left]].
  destruct (Auth.bearer_token h) as [token|];
    [|eexists; split; [reflexivity|now right]].
  destruct (String.eqb token ""); [eexists; split; [reflexivity|now left]|].
  destruct (jwt token) as [uid|]; [|eexists; split; [reflexivity|now left]].
  destruct (find _ (users db)) as [u|];
    [|eexists; split; [reflexivity|now left]].
  exfalso. eapply H. reflexivity.
Qed.

(** C9 on the code.  Every request to the booking router passes through
    [protect] first: a request for which [protect] sets no principal is
    answered by [protect] itself (401, or 500 for a header that is the
    bare word Bearer) and reaches no handler, whatever its method and
    path.  That includes the availability query: without an Authorization
    header it is answered 401 "Not authorized, no token".  With a valid
    token of any role it reaches [checkAvailability]. *)
Theorem booking_routes_need_a_principal :
  (forall jwt req db,
      (forall u, Auth.protect jwt (authorization req) db <> Auth.Next u) ->
      exists r, dispatch jwt req db = Rejected r
                /\ (code r = 401%nat \/ code r = 500%nat))
  /\ (forall jwt db,
         dispatch jwt anonymous_check db
         = Rejected (reply 401 "Not authorized, no token"))
  /\ (forall jwt db h user,
         Auth.protect jwt (Some h) db = Auth.Next user ->
         dispatch jwt
           {| req_method := POST; req_path := ["check-availability"];
              authorization := Some h |} db
         = Invoke checkAvailability user).
Proof.
  split; [|split].
  - intros jwt req db H. unfold dispatch.
    destruct (protect_stops jwt (authorization req) db H) as (r & -> & Hc).
    exists r. split; [reflexivity|assumption].
  - reflexivity.
  - intros jwt db h user H. unfold dispatch. cbn [authorization].
    rewrite H. reflexivity.
Qed.

(** A header that is the bare word Bearer makes [protect] throw on
    [token.substring] and answer 500. *)
Example bare_bearer_header jwt db :
  Auth.protect jwt (Some "Bearer") db = Auth.Stop (reply 500 "Server error").
Proof. reflexivity. Qed.

End AccessFacts.

(* ================================================================== *)
(** ** A booking's life under the booking controller *)
(* ================================================================== *)

Module LifecycleFacts.

Import BookingCtl Slots Lifecycle.

Lemma advances_refl b : advances b b.
Proof. unfold advances, same_reservation. intuition. Qed.

Lemma advances_trans a b c : advances a b -> advances b c -> advances a c.
Proof.
  unfold advances, same_reservation.
  intros (Ha & Hr & Ht & Hd & Hu) (Hb & Hr' & Ht' & Hd' & Hu').
  split; [intuition congruence|]. split; [lia|]. split; [|split].
  - intros T. pose proof (Ht T) as E. rewrite <- E. apply Ht'. now rewrite E.
  - intros D. pose proof (Hd D) as E. subst b. now apply Hd'.
  - intros D. apply Hu, Hu', D.
Qed.

Lemma fresh_above {A} (key : A -> ObjectId) l x :
  In x l -> (key x < fresh key l)%nat.
Proof.
  unfold fresh. induction l as [|y l IH]; simpl; [contradiction|].
  intros [->|H]; [lia|]. specialize (IH H). lia.
Qed.

Lemma fresh_is_new {A} (key : A -> ObjectId) l :
  ~ In (fresh key l) (map key l).
Proof.
  intros H. apply in_map_iff in H. destruct H as (x & E & Hin).
  pose proof (fresh_above key l x Hin). lia.
Qed.

Lemma map_key_replace {A} (key : A -> ObjectId) x l :
  map key (replace key x l) = map key l.
Proof.
  induction l as [|y l IH]; simpl; [reflexivity|].
  destruct (Nat.eqb (key y) (key x)) eqn:E; simpl.
  - apply Nat.eqb_eq in E. now rewrite E.
  - now rewrite IH.
Qed.

Lemma find_app_new {A} (p : A -> bool) l x :
  p x = false -> find p (app l [x]) = find p l.
Proof.
  intros H. induction l as [|y l IH]; simpl; [now rewrite H|].
  destruct (p y); [reflexivity|exact IH].
Qed.

(** What a lookup by id sees after one document was rewritten in
    place. *)
Lemma findById_after_rewrite db x b0 i :
  Booking_findById db (Booking._id x) = Some b0 ->
  find (by_id Booking._id i) (replace Booking._id x (bookings db))
  = if Nat.eqb i (Booking._id x) then Some x else Booking_findById db i.
Proof.
  intros H. destruct (Nat.eqb i (Booking._id x)) eqn:E.
  - apply Nat.eqb_eq in E. subst i.
    exact (find_replace_same Booking._id (bookings db) x b0 H).
  - apply Nat.eqb_neq in E.
    exact (find_replace_other Booking._id (bookings db) x i E).
Qed.

Lemma set_status_advances b s now :
  Booking.isDeleted b = false ->
  (rank (Booking.status b) <= rank s)%nat ->
  terminal (Booking.status b) = false ->
  advances b (Booking.set_status b s now).
Proof.
  intros Hd Hr Ht. unfold advances, same_reservation. simpl.
  repeat split; try assumption; congruence.
Qed.

Lemma table_advances s target :
  In target (validTransitions s) ->
  (rank s <= rank target)%nat /\ terminal s = false.
Proof. destruct s; simpl; intuition (subst; simpl; lia). Qed.

Lemma handle_effect r db :
  NoDup (map Booking._id (bookings db)) ->
  Effect db (bookings (snd (handle r db))).
Proof.
  intros ND.
  destruct r as [req user now|bid req user now|bid reason user now
                |bid user now]; simpl.
  - destruct (SlotsFacts.create_outcome req user now db)
      as [[-> _]|(gid & sid & ms & ts & vi & garage & _ & _ & _ & _ & _ & ->)];
      [now apply Untouched|].
    unfold created. cbn [snd].
    eapply Inserted; reflexivity.
  - unfold updateBookingStatus.
    destruct bid as [| |i]; try (now apply Untouched).
    destruct (String.eqb (status req) ""); [now apply Untouched|].
    destruct (Booking_findById db i) as [b|] eqn:Eb; [|now apply Untouched].
    destruct (Booking.isDeleted b) eqn:Ed; [now apply Untouched|].
    destruct (Garage_findById db (Booking.garage b)) as [g|];
      [|now apply Untouched].
    destruct (negb _ && negb _); [now apply Untouched|].
    destruct (String.eqb _ (status req)); [now apply Untouched|].
    destruct (includes _ _) as [target|] eqn:Et; [|now apply Untouched].
    unfold includes in Et. apply find_some in Et. destruct Et as [Hin _].
    destruct (table_advances _ _ Hin) as [Hr Ht].
    pose proof (find_by_id_key _ _ _ _ Eb) as Hi.
    apply Rewritten with (b := b) (b' := Booking.set_status b target now).
    + cbn [snd]. destruct (Booking.Status_eqb target Booking.completed);
        reflexivity.
    + simpl. now rewrite Hi.
    + assumption.
    + now apply set_status_advances.
  - unfold cancelBooking.
    destruct bid as [| |i]; try (now apply Untouched).
    destruct (find _ (bookings db)) as [b|] eqn:Eb; [|now apply Untouched].
    destruct (existsb _ cancellableStatuses) eqn:Ec; [|now apply Untouched].
    assert (Hq : forall y,
               (Nat.eqb (Booking._id y) i
                && Nat.eqb (Booking.carOwner y) (id user)
                && negb (Booking.isDeleted y))%bool = true ->
               Booking._id y = i).
    { intros y Hy. apply andb_prop in Hy. destruct Hy as [Hy _].
      apply andb_prop in Hy. destruct Hy as [Hy _]. now apply Nat.eqb_eq. }
    pose proof (find_pinned Booking._id _ _ i b ND Hq Eb) as Hid.
    apply find_some in Eb. destruct Eb as [_ Hb].
    apply andb_prop in Hb. destruct Hb as [_ Hdel].
    apply negb_true_iff in Hdel.
    pose proof (find_by_id_key _ _ _ _ Hid) as Hi.
    apply Rewritten with (b := b)
                         (b' := Booking.set_status b Booking.cancelled now).
    + reflexivity.
    + simpl. rewrite Hi. exact Hid.
    + assumption.
    + apply set_status_advances; [assumption| |].
      * destruct (Booking.status b); simpl; lia.
      * destruct (Booking.status b); simpl in *; congruence.
  - unfold deleteBooking.
    destruct bid as [| |i]; try (now apply Untouched).
    destruct (Booking_findById db i) as [b|] eqn:Eb; [|now apply Untouched].
    destruct (Booking.isDeleted b) eqn:Ed; [now apply Untouched|].
    destruct (negb _); [now apply Untouched|].
    pose proof (find_by_id_key _ _ _ _ Eb) as Hi.
    assert (Hadv : advances b (Booking.set_isDeleted b true now)).
    { unfold advances, same_reservation. simpl.
      repeat split; try reflexivity; try lia; congruence. }
    destruct (Booking.Status_eqb _ _).
    + destruct (Garage_findById _ _); [|now apply Untouched].
      apply Rewritten with (b := b) (b' := Booking.set_isDeleted b true now);
        [reflexivity|simpl; now rewrite Hi|assumption|assumption].
    + apply Rewritten with (b := b) (b' := Booking.set_isDeleted b true now);
        [reflexivity|simpl; now rewrite Hi|assumption|assumption].
Qed.

Lemma handle_keeps_ids r db :
  NoDup (map Booking._id (bookings db)) ->
  NoDup (map Booking._id (bookings (snd (handle r db)))).
Proof.
  intros ND. destruct (handle_effect r db ND) as [->|b -> Hid _ _|b b' -> _ _ _].
  - assumption.
  - rewrite map_app. simpl. apply NoDup_app_remove_l with (l := []).
    simpl. apply NoDup_Add with (a := Booking._id b)
                                (l := map Booking._id (bookings db)).
    + clear. induction (map Booking._id (bookings db)) as [|x l IH]; simpl;
        now constructor.
    + split; [assumption|]. rewrite Hid. apply fresh_is_new.
  - now rewrite map_key_replace.
Qed.

Lemma handle_advances r db i b :
  NoDup (map Booking._id (bookings db)) ->
  Booking_findById db i = Some b ->
  exists b', Booking_findById (snd (handle r db)) i = Some b'
             /\ advances b b'.
Proof.
  intros ND Hb. unfold Booking_findById at 1.
  destruct (handle_effect r db ND) as [->|n -> Hid _ _|b0 x -> Hx Hdel Hadv].
  - exists b. split; [exact Hb|apply advances_refl].
  - exists b. split; [|apply advances_refl].
    rewrite find_app_new; [exact Hb|].
    apply Nat.eqb_neq. intros E. rewrite Hid in E.
    apply (fresh_is_new Booking._id (bookings db)). rewrite E.
    apply find_some in Hb. destruct Hb as [Hin Hk].
    apply Nat.eqb_eq in Hk. rewrite <- Hk. now apply in_map.
  - change (find (fun b1 => Nat.eqb (Booking._id b1) i)
              (replace Booking._id x (bookings db)))
      with (find (by_id Booking._id i) (replace Booking._id x (bookings db))).
    rewrite (findById_after_rewrite db x b0 i Hx).
    destruct (Nat.eqb i (Booking._id x)) eqn:E.
    + apply Nat.eqb_eq in E. subst i. rewrite Hx in Hb. injection Hb as ->.
      exists x. split; [reflexivity|assumption].
    + exists b. split; [exact Hb|apply advances_refl].
Qed.

(** X4.  Under any sequence of create, status, cancel and soft-delete
    requests a stored booking stays stored under its id, keeps its car
    owner, garage, service, date, slot and vehicle, never moves to a
    status of lower rank (pending, approved, in_progress, then the three
    terminal ones), keeps its status for good once that is completed,
    cancelled or rejected, is never undeleted, and is not changed at all
    once it is soft-deleted. *)
Theorem bookings_only_advance rs : forall db i b,
  NoDup (map Booking._id (bookings db)) ->
  Booking_findById db i = Some b ->
  exists b', Booking_findById (run rs db) i = Some b' /\ advances b b'.
Proof.
  induction rs as [|r rs IH]; intros db i b ND Hb; simpl.
  - exists b. split; [assumption|apply advances_refl].
  - destruct (handle_advances r db i b ND Hb) as (b1 & H1 & A1).
    destruct (IH (snd (handle r db)) i b1 (handle_keeps_ids r db ND) H1)
      as (b2 & H2 & A2).
    exists b2. split; [assumption|]. now apply advances_trans with b1.
Qed.

(** Booking 1 of the sample database, once completed, stays completed
    through a cancel request of its driver, a status request of the owner
    and a new booking. *)
Lemma bookings_only_advance_witness :
  exists b',
    Booking_findById
      (run [Cancel (AnId 1%nat) "" Sample.driver20 4000;
            Transition (AnId 1%nat) (Sample.to "approved") Sample.owner10 4001;
            Create (Sample.book Sample.monday_2024_06_10 "09:00" "10:00")
              Sample.driver21 4002]
         Stats.one_completed) 1%nat = Some b'
    /\ Booking.status b' = Booking.completed.
Proof.
  let ob := eval vm_compute in (Booking_findById Stats.one_completed 1%nat) in
  match ob with
  | Some ?b =>
      destruct (bookings_only_advance
                  [Cancel (AnId 1%nat) "" Sample.driver20 4000;
                   Transition (AnId 1%nat) (Sample.to "approved")
                     Sample.owner10 4001;
                   Create
                     (Sample.book Sample.monday_2024_06_10 "09:00" "10:00")
                     Sample.driver21 4002]
                  Stats.one_completed 1%nat b)
        as (b' & Hb' & _ & _ & Ht & _);
      [ vm_compute; repeat constructor; simpl; intuition discriminate
      | vm_compute; reflexivity
      | exists b'; split; [exact Hb'|apply Ht; reflexivity] ]
  end.
Defined.

Lemma replace_filter_drop {A} (key : A -> ObjectId) (p : A -> bool) l x y :
  find (by_id key (key x)) l = Some y ->
  p y = true -> p x = false ->
  S (List.length (filter p (replace key x l))) = List.length (filter p l).
Proof.
  unfold by_id. induction l as [|z l IH]; simpl; [discriminate|].
  destruct (Nat.eqb (key z) (key x)) eqn:E.
  - intros [= ->] Py Px. simpl. now rewrite Px, Py.
  - intros H Py Px. simpl. specialize (IH H Py Px).
    destruct (p z); simpl; lia.
Qed.

Lemma filter_nil_find {A} (p : A -> bool) l :
  List.length (filter p l) = 0%nat -> find p l = None.
Proof.
  induction l as [|x l IH]; simpl; [reflexivity|].
  destruct (p x); simpl; [discriminate|assumption].
Qed.

(** X5.  When a request of the booking controller takes the booking that
    holds a slot out of it (cancelled, rejected or soft-deleted), the slot
    query finds nothing any more, and a well-formed create request for
    that garage, date and slot is answered 201 once the garage is active,
    the service offered and the input valid. *)
Theorem released_slot_can_be_booked r db i b b' req user now gid sid ms ts
  vi :
  NoDup (map Booking._id (bookings db)) ->
  slot_unique (bookings db) ->
  Booking_findById db i = Some b ->
  slot_taken_by gid ms ts b = true ->
  Booking_findById (snd (handle r db)) i = Some b' ->
  slot_taken_by gid ms ts b' = false ->
  existingBooking (snd (handle r db)) gid ms ts = None
  /\ (well_formed req gid sid ms ts vi ->
      activeGarage (snd (handle r db)) gid <> None ->
      offeredService (snd (handle r db)) gid sid <> None ->
      validate ts vi = true ->
      code (fst (createBooking req user now (snd (handle r db))))
      = 201%nat).
Proof.
  intros ND U Hb Hold Hb' Hnew.
  assert (Hfree : existingBooking (snd (handle r db)) gid ms ts = None).
  { unfold existingBooking. unfold Booking_findById in Hb'.
    destruct (handle_effect r db ND)
      as [E|n E Hid _ _|b0 x E Hx _ _]; rewrite E in *.
    - unfold Booking_findById in Hb. congruence.
    - rewrite find_app_new in Hb'.
      + unfold Booking_findById in Hb. congruence.
      + apply Nat.eqb_neq. intros En. rewrite Hid in En.
        apply (fresh_is_new Booking._id (bookings db)). rewrite En.
        apply find_some in Hb. destruct Hb as [Hin Hk].
        apply Nat.eqb_eq in Hk. rewrite <- Hk. now apply in_map.
    - change (find (fun b1 => Nat.eqb (Booking._id b1) i)
                (replace Booking._id x (bookings db)))
        with (find (by_id Booking._id i)
                (replace Booking._id x (bookings db))) in Hb'.
      rewrite (findById_after_rewrite db x b0 i Hx) in Hb'.
      destruct (Nat.eqb i (Booking._id x)) eqn:Ei.
      + apply Nat.eqb_eq in Ei. subst i. injection Hb' as ->.
        rewrite Hx in Hb. injection Hb as ->.
        apply filter_nil_find.
        pose proof (replace_filter_drop Booking._id (slot_taken_by gid ms ts)
                      (bookings db) b' b Hx Hold Hnew) as Hdrop.
        specialize (U gid ms ts). lia.
      + congruence. }
  split; [exact Hfree|].
  intros (Hg & Hs & Hd & Ht & Hv) Hgarage Hservice Hvalid.
  unfold createBooking. rewrite Hg, Hs, Hd, Ht, Hv. simpl.
  destruct (activeGarage (snd (handle r db)) gid); [|congruence].
  destruct (offeredService (snd (handle r db)) gid sid); [|congruence].
  rewrite Hfree, Hvalid. reflexivity.
Qed.

(** On the sample database: driver 20 cancels booking 1, and driver 21
    then books its Monday 09:00-10:00 slot. *)
Lemma released_slot_can_be_booked_witness :
  code (fst (createBooking
               (Sample.book Sample.monday_2024_06_10 "09:00" "10:00")
               Sample.driver21 4000
               (snd (handle (Cancel (AnId 1%nat) "" Sample.driver20 3000)
                       Sample.db1))))
  = 201%nat.
Proof.
  let ob := eval vm_compute in
    (Booking_findById
       (snd (handle (Cancel (AnId 1%nat) "" Sample.driver20 3000)
               Sample.db1)) 1%nat) in
  match ob with
  | Some ?b' =>
      refine (proj2 (released_slot_can_be_booked
                (Cancel (AnId 1%nat) "" Sample.driver20 3000) Sample.db1
                1%nat Sample.booking1 b'
                (Sample.book Sample.monday_2024_06_10 "09:00" "10:00")
                Sample.driver21 4000 1%nat 1%nat Sample.monday_2024_06_10
                (Sample.slot "09:00" "10:00") Sample.car
                _ _ _ _ _ _) _ _ _ _)
  end.
  - vm_compute. repeat constructor. simpl. intuition.
  - intros g d ts. simpl. destruct (slot_taken_by g d ts _); simpl; lia.
  - vm_compute. reflexivity.
  - vm_compute. reflexivity.
  - vm_compute. reflexivity.
  - vm_compute. reflexivity.
  - repeat split.
  - vm_compute. discriminate.
  - vm_compute. discriminate.
  - vm_compute. reflexivity.
Defined.

End LifecycleFacts.

(* ================================================================== *)
(** ** Which role reaches which booking handler *)
(* ================================================================== *)

Module RoleFacts.

Import Routes.

Lemma authorize_passes allowed user :
  Auth.authorize allowed user = None -> In (role user) allowed.
Proof.
  unfold Auth.authorize.
  destruct (existsb (Role_eqb (role user)) allowed) eqn:E; [|discriminate].
  intros _. apply existsb_exists in E. destruct E as (r & Hin & Hr).
  destruct (role user), r; simpl in Hr; try discriminate; exact Hin.
Qed.

(** X6.  A request to the booking router that reaches a handler carries
    the principal that [protect] set, and the role of that principal is
    one the route lists: only a car owner reaches [createBooking] and
    [cancelBooking], only a garage owner or an admin reaches
    [updateBookingStatus] and [getBookingStats].  So an admin cannot
    cancel through the cancel route and a car owner cannot change a
    status through the status route. *)
Theorem booking_handlers_by_role jwt req db h user :
  dispatch jwt req db = Invoke h user ->
  Auth.protect jwt (authorization req) db = Auth.Next user
  /\ match h with
     | createBooking | cancelBooking => role user = car_owner
     | updateBookingStatus | getBookingStats =>
         role user = garage_owner \/ role user = admin
     | _ => True
     end.
Proof.
  unfold dispatch.
  destruct (Auth.protect jwt (authorization req) db) as [u|r];
    [|discriminate].
  destruct (find _ table) as [r|] eqn:Ef; [|discriminate].
  apply find_some in Ef. destruct Ef as [Hin _].
  assert (Hu : match roles r with
               | None => Invoke (handler r) u
               | Some allowed =>
                   match Auth.authorize allowed u with
                   | Some resp => Rejected resp
                   | None => Invoke (handler r) u
                   end
               end = Invoke h user ->
               u = user /\ handler r = h
               /\ match roles r with
                  | None => True
                  | Some allowed => In (role u) allowed
                  end).
  { destruct (roles r) as [allowed|].
    - destruct (Auth.authorize allowed u) eqn:Ea; [discriminate|].
      intros [= <- <-]. auto using authorize_passes.
    - intros [= <- <-]. auto. }
  intros H. destruct (Hu H) as (-> & <- & Hr). clear Hu H.
  split; [reflexivity|].
  simpl in Hin.
  repeat (destruct Hin as [<-|Hin]; [simpl in *; intuition congruence|]).
  contradiction.
Qed.

(** The status route on the sample database: the owner of garage 1
    reaches the handler, driver 20 is answered 403. *)
Lemma booking_handlers_by_role_witness :
  (role Sample.owner10 = garage_owner \/ role Sample.owner10 = admin)
  /\ dispatch Tokens.sample_jwt (Tokens.put_status "Bearer driver20")
       Sample.db0
     = Rejected
         (reply 403
            "Role car_owner is not authorized to access this route").
Proof.
  split.
  - exact (proj2 (booking_handlers_by_role Tokens.sample_jwt
                    (Tokens.put_status "Bearer owner10") Sample.db0
                    updateBookingStatus Sample.owner10 eq_refl)).
  - reflexivity.
Defined.

End RoleFacts.

(* ================================================================== *)
(** ** The duration of a slot *)
(* ================================================================== *)

Module DurationFacts.

Import BookingCtl Clock Duration.

Lemma slotDuration_minutes ts :
  slotDuration ts = Js.sub (minutes (end_ ts)) (minutes (start ts)).
Proof. reflexivity. Qed.

Lemma every_minute_reads_back :
  forallb reads_back (seq 0 1440) = true.
Proof. vm_compute. reflexivity. Qed.

Lemma minutes_hhmm t :
  (t < 1440)%nat -> minutes (hhmm t) = Some (Z.of_nat t).
Proof.
  intros H.
  pose proof (proj1 (forallb_forall reads_back (seq 0 1440))
                every_minute_reads_back t) as R.
  unfold reads_back in R.
  destruct (minutes (hhmm t)) as [z|].
  - f_equal. apply Z.eqb_eq, R, in_seq. lia.
  - discriminate R. apply in_seq. lia.
Qed.

(** X7.  On zero-padded HH:MM times [slotDuration] is the difference of
    the two times in minutes, negative when the slot ends before it
    starts.  So for a free slot and a stored service the availability
    query reports the duration reason exactly when end minus start is
    below the duration of the service. *)
Theorem slot_duration_of_clock_times s e :
  (s < 1440)%nat -> (e < 1440)%nat ->
  let ts := {| start := hhmm s; end_ := hhmm e |} in
  let d := Z.of_nat e - Z.of_nat s in
  slotDuration ts = Some d
  /\ forall req gid ms sid service db,
      av_date req = ADate ms ->
      existingBooking db gid ms ts = None ->
      av_serviceId req = AnId sid ->
      Service_findById db sid = Some service ->
      slot_checks req gid ts db
      = if d <? Service.duration service
        then Unavailable (duration_reason (Some d) (Service.duration service))
        else Available "Time slot is available".
Proof.
  intros Hs He ts d.
  assert (E : slotDuration ts = Some d).
  { rewrite slotDuration_minutes. unfold ts. cbn [start end_].
    rewrite !minutes_hhmm by assumption. cbn [Js.sub]. f_equal.
    apply JsFacts.minus_safe. unfold Js.two53. lia. }
  split; [exact E|].
  intros req gid ms sid service db Hd Hfree Hsid Hsvc.
  unfold slot_checks. rewrite Hd, Hfree, Hsid, Hsvc, E. reflexivity.
Qed.

(** 09:00 to 10:00 is sixty minutes; 10:00 to 09:00 is minus sixty. *)
Lemma slot_duration_of_clock_times_witness :
  slotDuration {| start := "09:00"; end_ := "10:00" |} = Some 60
  /\ slotDuration {| start := "10:00"; end_ := "09:00" |} = Some (-60).
Proof.
  split.
  - apply (slot_duration_of_clock_times 540 600); lia.
  - apply (slot_duration_of_clock_times 600 540); lia.
Defined.

End DurationFacts.

(* ================================================================== *)
(** ** Settlement of a garage-creation payment *)
(* ================================================================== *)

Module PermissionFacts.

Import PaymentCtl Settlement.

Lemma users_set_payments db l : users (set_payments db l) = users db.
Proof. reflexivity. Qed.

Lemma find_after_User_update db uid u flag l :
  find (by_id User._id uid) (users db) = Some u ->
  find (by_id User._id uid) (users (User_update db uid flag l))
  = Some (set_user_flag u flag l).
Proof.
  intros Hu. pose proof (find_by_id_key User._id _ _ _ Hu) as Hk.
  subst uid. unfold User_update.
  change (fun u0 => Nat.eqb (User._id u0) (User._id u))
    with (by_id User._id (User._id u)).
  rewrite Hu.
  exact (find_replace_same User._id (users db) (set_user_flag u flag l) u Hu).
Qed.

Lemma others_User_update db uid flag l :
  garages (User_update db uid flag l) = garages db
  /\ bookings (User_update db uid flag l) = bookings db
  /\ payments (User_update db uid flag l) = payments db.
Proof. unfold User_update. destruct (find _ _); repeat split. Qed.

Lemma users_Garage_mark_paid db gid pid now :
  users (Garage_mark_paid db gid pid now) = users db
  /\ bookings (Garage_mark_paid db gid pid now) = bookings db.
Proof. unfold Garage_mark_paid. destruct (Garage_findById _ _); split;
  reflexivity. Qed.

Lemma hook_writes_of_payer p db u resp paid :
  Payment.paymentType p = Payment.garage_creation ->
  find (by_id User._id (Payment.user p)) (users db) = Some u ->
  hook_writes (settle p Payment.completed resp paid) db = true.
Proof.
  intros Ht Hu. unfold hook_writes.
  cbn [settle Payment.paymentType Payment.status Payment.user].
  rewrite Ht.
  change (fun u0 => Nat.eqb (User._id u0) (Payment.user p))
    with (by_id User._id (Payment.user p)).
  now rewrite Hu.
Qed.

(** A valid success notification for a garage-creation payment of a
    stored payer: the transaction is aborted, and what stays is the write
    of the post-save hook. *)
Lemma settlement_of_garage_payment hmac payload now db p u :
  Payment_findByTx db (Payment.tx_ref payload) = Some p ->
  Payment.p_status payload = "success" ->
  Payment.paymentType p = Payment.garage_creation ->
  find (by_id User._id (Payment.user p)) (users db) = Some u ->
  handleChapaWebhook hmac payload (Some (hmac payload)) now db
  = (reply 500 write_conflict,
     User_update db (Payment.user p) true [(Payment._id p, "completed")]).
Proof.
  intros Hp Hs Ht Hu. unfold handleChapaWebhook.
  rewrite String.eqb_refl, Hp, Hs. cbn [negb String.eqb Ascii.eqb Bool.eqb].
  rewrite (hook_writes_of_payer p db u _ _ Ht Hu).
  cbn [settle Payment.paymentType]. rewrite Ht.
  unfold post_save. cbn [settle Payment.paymentType Payment.status
                         Payment.user Payment._id].
  now rewrite Ht.
Qed.

(** X8.  A success notification with a valid signature for a
    garage-creation payment whose payer is stored is answered 500: the
    post-save hook of the payment writes the payer outside the
    transaction, and the handler's own update of the payer inside the
    transaction then meets a write conflict, so the transaction is
    aborted.  The payments, the garages and the bookings are as they
    were, so the payment is not stored as completed and a linked garage
    is not marked as paid; the hook's write stays, so the payer has
    [canCreateGarage] set and one more entry in
    [garageCreationPayments]. *)
Theorem garage_settlement_grants_permission hmac payload now db p u :
  Payment_findByTx db (Payment.tx_ref payload) = Some p ->
  Payment.p_status payload = "success" ->
  Payment.paymentType p = Payment.garage_creation ->
  find (by_id User._id (Payment.user p)) (users db) = Some u ->
  let out :=
    handleChapaWebhook hmac payload (Some (hmac payload)) now db in
  code (fst out) = 500%nat
  /\ payments (snd out) = payments db
  /\ garages (snd out) = garages db
  /\ bookings (snd out) = bookings db
  /\ (exists u',
        find (by_id User._id (Payment.user p)) (users (snd out)) = Some u'
        /\ User.canCreateGarage u' = true
        /\ User.garageCreationPayments u'
           = app (User.garageCreationPayments u)
               [(Payment._id p, "completed")]).
Proof.
  intros Hp Hs Ht Hu out. unfold out.
  rewrite (settlement_of_garage_payment hmac payload now db p u Hp Hs Ht Hu).
  cbn [fst snd code reply].
  destruct (others_User_update db (Payment.user p) true
              [(Payment._id p, "completed")]) as (Hg & Hb & Hpay).
  split; [reflexivity|]. split; [exact Hpay|]. split; [exact Hg|].
  split; [exact Hb|].
  exists (set_user_flag u true [(Payment._id p, "completed")]).
  split; [|split; reflexivity].
  now apply find_after_User_update.
Qed.

(** On the sample database: the notification for payment 2 is answered
    500 and leaves the payment pending, and user 10 may create a
    garage. *)
Lemma garage_settlement_grants_permission_witness :
  code (fst (deliver "tx-2" "success" 5000 paying)) = 500%nat
  /\ payments (snd (deliver "tx-2" "success" 5000 paying)) = payments paying
  /\ exists u',
       find (by_id User._id 10%nat)
         (users (snd (deliver "tx-2" "success" 5000 paying))) = Some u'
       /\ User.canCreateGarage u' = true
       /\ User.garageCreationPayments u' = [(2%nat, "completed")].
Proof.
  destruct (garage_settlement_grants_permission sample_hmac
              (notify "tx-2" "success") 5000 paying payment2
              (Sample.mk_user 10%nat garage_owner)
              eq_refl eq_refl eq_refl eq_refl)
    as (Hc & Hp & _ & _ & Hu).
  split; [exact Hc|]. split; [exact Hp|exact Hu].
Defined.

End PermissionFacts.

(* ================================================================== *)
(** ** Who reaches the payment routes *)
(* ================================================================== *)

Module PaymentRouteFacts.

Import Routes PaymentRoutes.

(** What the pattern of the webhook route accepts. *)
Lemma matches_literal s path :
  matches [Lit s] path = true <->
  exists x, (path = [x] \/ path = [x; ""]) /\ lower_case x = lower_case s.
Proof.
  split.
  - destruct path as [|x [|y [|z rest]]]; simpl; try discriminate.
    + rewrite andb_true_r. intros H. apply String.eqb_eq in H.
      exists x. split; [now left|now symmetry].
    + intros H. apply andb_prop in H. destruct H as [H1 H2].
      apply String.eqb_eq in H1, H2. subst y.
      exists x. split; [now right|now symmetry].
    + rewrite andb_false_r. discriminate.
  - intros (x & [->| ->] & E); simpl; rewrite E, String.eqb_refl; reflexivity.
Qed.

(** X9.  On the payment router the provider's notification reaches
    [handleChapaWebhook] whatever the Authorization header, missing
    included: a POST whose path is chapa-webhook in any mix of upper and
    lower case, with or without a slash at its end.  These are the only
    requests served without a principal.  Every other handler runs for
    the principal that [protect] set, with a role its route lists:
    [initGaragePayment] for garage owners, [initBookingPayment] for car
    owners, [verifyPayment] for car owners and admins, [getPaymentStats],
    [getPayment] and [initiateRefund] for admins only. *)
Theorem payment_handlers_by_role :
  (forall jwt h db x,
      lower_case x = "chapa-webhook" ->
      dispatch jwt {| req_method := POST; req_path := [x];
                      authorization := h |} db
      = Public handleChapaWebhook
      /\ dispatch jwt {| req_method := POST; req_path := [x; ""];
                         authorization := h |} db
         = Public handleChapaWebhook)
  /\ lower_case "CHAPA-Webhook" = "chapa-webhook"
  /\ (forall jwt req db h,
         dispatch jwt req db = Public h ->
         h = handleChapaWebhook /\ req_method req = POST
         /\ exists x,
             (req_path req = [x] \/ req_path req = [x; ""])
             /\ lower_case x = "chapa-webhook")
  /\ (forall jwt req db h user,
         dispatch jwt req db = Invoke h user ->
         Auth.protect jwt (authorization req) db = Auth.Next user
         /\ match h with
            | handleChapaWebhook => False
            | initGaragePayment => role user = garage_owner
            | initBookingPayment => role user = car_owner
            | verifyPayment => role user = car_owner \/ role user = admin
            | getPaymentStats | getPayment | initiateRefund =>
                role user = admin
            | _ => True
            end).
Proof.
  split; [|split; [reflexivity|split]].
  - intros jwt h db x Hx. unfold dispatch, route_for, public.
    cbn [find method pattern req_method req_path Method_eqb andb matches].
    change (lower_case "chapa-webhook") with "chapa-webhook".
    rewrite Hx. split; reflexivity.
  - intros jwt req db h. unfold dispatch, route_for.
    destruct (find _ public) as [r|] eqn:Ef.
    + intros [= <-]. apply find_some in Ef. destruct Ef as [Hin Hm].
      destruct Hin as [<-|[]]. cbn [method pattern handler] in Hm.
      apply andb_prop in Hm. destruct Hm as [Hm Hp].
      split; [reflexivity|]. split.
      * destruct (req_method req); try discriminate; reflexivity.
      * apply matches_literal in Hp. exact Hp.
    + destruct (Auth.protect jwt (authorization req) db); [|discriminate].
      destruct (find _ table) as [r|]; [|discriminate].
      destruct (roles r); [|discriminate].
      destruct (Auth.authorize _ _); discriminate.
  - intros jwt req db h user. unfold dispatch, route_for.
    destruct (find _ public); [discriminate|].
    destruct (Auth.protect jwt (authorization req) db) as [u|r];
      [|discriminate].
    destruct (find _ table) as [r|] eqn:Ef; [|discriminate].
    apply find_some in Ef. destruct Ef as [Hin _].
    assert (Hu : match roles r with
                 | None => Invoke (handler r) u
                 | Some allowed =>
                     match Auth.authorize allowed u with
                     | Some resp => Rejected resp
                     | None => Invoke (handler r) u
                     end
                 end = Invoke h user ->
                 u = user /\ handler r = h
                 /\ match roles r with
                    | None => True
                    | Some allowed => In (role u) allowed
                    end).
    { destruct (roles r) as [allowed|].
      - destruct (Auth.authorize allowed u) eqn:Ea; [discriminate|].
        intros [= <- <-]. auto using RoleFacts.authorize_passes.
      - intros [= <- <-]. auto. }
    intros H. destruct (Hu H) as (-> & <- & Hr). clear Hu H.
    split; [reflexivity|].
    simpl in Hin.
    repeat (destruct Hin as [<-|Hin]; [simpl in *; intuition congruence|]).
    contradiction.
Qed.

End PaymentRouteFacts.

(* ================================================================== *)
(** ** Payment initialisation, refund and retry *)
(* ================================================================== *)

Module PaymentOpsFacts.

Import PaymentCtl PaymentOps Payments.

Lemma tx_free db tx : tx_taken db tx = false -> Payment_findByTx db tx = None.
Proof. unfold tx_taken. destruct (Payment_findByTx db tx); congruence. Qed.

Lemma payments_Payment_save db p :
  payments (Payment_save db p) = replace Payment._id p (payments db)
  /\ garages (Payment_save db p) = garages db
  /\ bookings (Payment_save db p) = bookings db.
Proof.
  unfold Payment_save, post_save.
  destruct (Payment.paymentType p), (Payment.status p); repeat split;
    try (rewrite (proj2 (proj2 (PermissionFacts.others_User_update _ _ _ _)))
         ; reflexivity);
    try (rewrite (proj1 (PermissionFacts.others_User_update _ _ _ _))
         ; reflexivity);
    try (rewrite (proj1 (proj2 (PermissionFacts.others_User_update _ _ _ _)))
         ; reflexivity).
Qed.

Lemma payments_findByIdAndUpdate db i u now :
  payments (Booking_findByIdAndUpdate db i u now) = payments db
  /\ garages (Booking_findByIdAndUpdate db i u now) = garages db
  /\ users (Booking_findByIdAndUpdate db i u now) = users db.
Proof.
  unfold Booking_findByIdAndUpdate.
  destruct (Booking_findById db i); repeat split.
Qed.

Lemma less_spec a b : less a b = false <-> (b <= a)%Q.
Proof.
  unfold less. rewrite negb_false_iff. apply Qle_bool_iff.
Qed.

Lemma no_number_spec a : no_number (Some a) = false <-> ~ (a == 0)%Q.
Proof.
  unfold no_number. rewrite <- Qeq_bool_iff.
  destruct (Qeq_bool a 0); split; congruence.
Qed.

Lemma in_range_not_zero a : (100 <= a)%Q -> ~ (a == 0)%Q.
Proof.
  intros H E. rewrite E in H. revert H. unfold Qle. simpl. lia.
Qed.

(** [initGaragePayment] either writes nothing and does not answer 201, or
    every guard passed and it inserted the pending payment. *)
Lemma init_outcome amount chapa nonce user now db :
  (snd (initGaragePayment amount chapa nonce user now db) = db
   /\ code (fst (initGaragePayment amount chapa nonce user now db))
      <> 201%nat)
  \/ exists a url,
      amount = Some a /\ (100 <= a)%Q /\ (a <= 1000000)%Q
      /\ chapa = Checkout url /\ url <> ""
      /\ Payment_findByTx db (garage_tx_ref now nonce) = None
      /\ initGaragePayment amount chapa nonce user now db
         = (reply 201 "Payment initialized successfully",
            set_payments db
              (app (payments db)
                 [new_garage_payment db user now nonce url])).
Proof.
  unfold initGaragePayment.
  destruct amount as [a|]; [|left; split; [reflexivity|discriminate]].
  destruct (no_number (Some a));
    [left; split; [reflexivity|discriminate]|].
  destruct (less a 100 || less 1000000 a) eqn:Er;
    [left; split; [reflexivity|discriminate]|].
  apply orb_false_elim in Er. destruct Er as [E1 E2].
  apply less_spec in E1, E2.
  destruct chapa as [m| | |url];
    try (left; split; [reflexivity|discriminate]).
  destruct (String.eqb url "") eqn:Eu;
    [left; split; [reflexivity|discriminate]|].
  apply String.eqb_neq in Eu.
  destruct (tx_taken db (garage_tx_ref now nonce)) eqn:Et;
    [left; split; [reflexivity|discriminate]|].
  right. exists a, url. repeat split; try assumption.
  now apply tx_free.
Qed.

(** X10.  For a request whose amount is a JSON number or absent,
    [initGaragePayment] answers 201 exactly when the amount is a number
    from 100 to 1,000,000, whole or not, the provider returned a checkout
    URL and the generated reference is not yet in use; any such amount
    will do, and 100.5 is accepted on the sample database.  It then
    appends one payment: pending, of type garage_creation, for the
    requesting user, linked to no garage, under that reference; users,
    garages and bookings are as before.  In every other case the database
    is unchanged. *)
Theorem garage_payment_init amount chapa nonce user now db :
  let out := initGaragePayment amount chapa nonce user now db in
  (code (fst out) = 201%nat <->
   exists a url,
     amount = Some a /\ (100 <= a)%Q /\ (a <= 1000000)%Q
     /\ chapa = Checkout url /\ url <> ""
     /\ Payment_findByTx db (garage_tx_ref now nonce) = None)
  /\ (code (fst out) <> 201%nat -> snd out = db)
  /\ (code (fst out) = 201%nat ->
      exists p,
        payments (snd out) = app (payments db) [p]
        /\ Payment.user p = id user
        /\ Payment.paymentType p = Payment.garage_creation
        /\ Payment.status p = Payment.pending
        /\ Payment.garageCreation_garage p = None
        /\ Payment.transactionId p = Some (garage_tx_ref now nonce)
        /\ users (snd out) = users db
        /\ garages (snd out) = garages db
        /\ bookings (snd out) = bookings db)
  /\ code (fst owner_pays_fraction) = 201%nat.
Proof.
  intros out. unfold out.
  destruct (init_outcome amount chapa nonce user now db)
    as [[Hdb Hc]|(a & url & Ha & Hlo & Hhi & Hch & Hu & Hfree & E)].
  - split; [split|split; [|split]].
    + intros H. contradiction.
    + intros (a & url & Ha & Hlo & Hhi & Hch & Hu & Hfree).
      exfalso. apply Hc. subst amount chapa.
      unfold initGaragePayment, tx_taken.
      rewrite (proj2 (no_number_spec a) (in_range_not_zero a Hlo)).
      rewrite (proj2 (less_spec a 100) Hlo).
      rewrite (proj2 (less_spec 1000000 a) Hhi).
      apply String.eqb_neq in Hu. cbv beta iota. rewrite Hu, Hfree.
      reflexivity.
    + intros _. exact Hdb.
    + intros H. contradiction.
    + vm_compute. reflexivity.
  - rewrite E. split; [split|split; [|split]].
    + intros _. exists a, url. auto 10.
    + reflexivity.
    + intros H. exfalso. apply H. reflexivity.
    + intros _. exists (new_garage_payment db user now nonce url).
      repeat split.
    + vm_compute. reflexivity.
Qed.

Lemma find_app_last {A} (q : A -> bool) l x :
  find q l = None -> q x = true -> find q (app l [x]) = Some x.
Proof.
  intros Hn Hx. induction l as [|y l IH]; simpl in *; [now rewrite Hx|].
  destruct (q y); [discriminate|auto].
Qed.

(** X11.  A garage owner whose [initGaragePayment] was answered 201
    obtains the permission to create a garage as soon as the provider
    reports success for the reference, although that notification is
    answered 500 and the payment stays pending: the post-save hook has
    set [canCreateGarage] of the stored user outside the transaction
    that the write conflict aborts. *)
Theorem paid_init_grants_permission hmac amount chapa nonce user now now'
  db u :
  code (fst (initGaragePayment amount chapa nonce user now db)) = 201%nat ->
  find (by_id User._id (id user)) (users db) = Some u ->
  let db1 := snd (initGaragePayment amount chapa nonce user now db) in
  let payload := Settlement.notify (garage_tx_ref now nonce) "success" in
  let out := handleChapaWebhook hmac payload (Some (hmac payload)) now' db1 in
  code (fst out) = 500%nat
  /\ payments (snd out) = payments db1
  /\ (exists p,
        Payment_findByTx (snd out) (garage_tx_ref now nonce) = Some p
        /\ Payment.status p = Payment.pending)
  /\ exists u',
      find (by_id User._id (id user)) (users (snd out)) = Some u'
      /\ User.canCreateGarage u' = true.
Proof.
  intros Hc Hu db1 payload out.
  destruct (init_outcome amount chapa nonce user now db)
    as [[_ N]|(a & url & _ & _ & _ & _ & _ & Hfree & E)]; [contradiction|].
  unfold out, db1. rewrite E. cbn [snd].
  set (p := new_garage_payment db user now nonce url).
  set (db2 := set_payments db (app (payments db) [p])).
  assert (Hp : Payment_findByTx db2 (Payment.tx_ref payload) = Some p).
  { unfold Payment_findByTx, db2. cbn [payments set_payments].
    apply find_app_last; [exact Hfree|].
    simpl. apply String.eqb_refl. }
  rewrite (PermissionFacts.settlement_of_garage_payment hmac payload now'
             db2 p u Hp eq_refl eq_refl Hu).
  cbn [fst snd code reply].
  destruct (PermissionFacts.others_User_update db2 (Payment.user p) true
              [(Payment._id p, "completed")]) as (_ & _ & Hpay).
  split; [reflexivity|]. split; [exact Hpay|]. split.
  - exists p. split; [|reflexivity].
    unfold Payment_findByTx. rewrite Hpay. exact Hp.
  - exists (set_user_flag u true [(Payment._id p, "completed")]).
    split; [|reflexivity].
    now apply PermissionFacts.find_after_User_update.
Qed.

Lemma paid_init_grants_permission_witness :
  code (fst (Settlement.deliver "payment-1000-ab12cd34" "success" 2000
               (snd owner_pays))) = 500%nat
  /\ exists u',
      find (by_id User._id 10%nat)
        (users (snd (Settlement.deliver "payment-1000-ab12cd34" "success"
                       2000 (snd owner_pays)))) = Some u'
      /\ User.canCreateGarage u' = true.
Proof.
  destruct (paid_init_grants_permission Settlement.sample_hmac
              (Some 500%Q) (Checkout "https://checkout/9") "ab12cd34"
              Sample.owner10 1000 2000 Sample.db0
              (Sample.mk_user 10%nat garage_owner) eq_refl eq_refl)
    as (Hc & _ & _ & Hu).
  split; [exact Hc|exact Hu].
Defined.

(** X12.  [initBookingPayment] never creates a payment: whatever the
    request, the database is unchanged and the answer is 400, 404 or 500,
    never 201.  For a booking of the requesting car owner that is not
    soft-deleted the answer is 500, from reading [booking.price]. *)
Theorem booking_payment_never_initialised :
  (forall bookingId amount user db,
      let out := initBookingPayment bookingId amount user db in
      snd out = db
      /\ (code (fst out) = 400%nat \/ code (fst out) = 404%nat
          \/ code (fst out) = 500%nat))
  /\ (forall i a user db b,
         a <> 0 ->
         Booking_findById db i = Some b ->
         Booking.carOwner b = id user ->
         Booking.isDeleted b = false ->
         code (fst (initBookingPayment (AnId i) (Some a) user db))
         = 500%nat).
Proof.
  split.
  - intros bookingId amount user db. unfold initBookingPayment.
    destruct (BookingCtl.no_id bookingId || no_amount amount);
      [split; [reflexivity|now left]|].
    destruct bookingId as [| |i];
      try (split; [reflexivity|now right; right]).
    destruct (find _ (bookings db));
      split; try reflexivity; [now right; right|now right; left].
  - intros i a user db b Ha Hb Ho Hd. unfold initBookingPayment.
    unfold no_amount. apply Z.eqb_neq in Ha. rewrite Ha. simpl.
    destruct (find _ (bookings db)) eqn:Ef; [reflexivity|].
    exfalso. apply find_some in Hb. destruct Hb as [Hin Hi].
    pose proof (find_none _ _ Ef b Hin) as Hn. simpl in Hn.
    rewrite Hi, Ho, Nat.eqb_refl, Hd in Hn. discriminate.
Qed.

Lemma findById_after_Payment_write db p p0 :
  Payment_findById db (Payment._id p) = Some p0 ->
  find (by_id Payment._id (Payment._id p)) (replace Payment._id p (payments db))
  = Some p.
Proof. exact (find_replace_same Payment._id (payments db) p p0). Qed.

Lemma refund_update_cast b now :
  fold_right (set_path now) (Booking.set_status b (Booking.status b) now)
    (cast_update [("isPaid", VBool false); ("status", VString "cancelled")])
  = Booking.set_status b Booking.cancelled now.
Proof. reflexivity. Qed.

(** The refund of a completed payment by an admin. *)
Lemma refund_performs i reason user now db p :
  Payment_findById db i = Some p ->
  Payment.status p = Payment.completed ->
  role user = admin ->
  initiateRefund (AnId i) reason user now db
  = (reply 200 "Refund initiated successfully",
     let db1 := Payment_save db (refunded p) in
     match Payment.paymentType p, Payment.booking p with
     | Payment.booking_payment, Some bid =>
         Booking_findByIdAndUpdate db1 bid
           [("isPaid", VBool false); ("status", VString "cancelled")] now
     | Payment.garage_creation, _ =>
         User_update db1 (Payment.user p) false []
     | _, _ => db1
     end).
Proof.
  intros Hp Hs Hr. unfold initiateRefund. rewrite Hp, Hs, Hr.
  cbn [is_completed is_refunded negb Role_eqb].
  rewrite andb_false_r. reflexivity.
Qed.

Lemma payments_after_refund i reason user now db p :
  Payment_findById db i = Some p ->
  Payment.status p = Payment.completed ->
  role user = admin ->
  payments (snd (initiateRefund (AnId i) reason user now db))
  = replace Payment._id (refunded p) (payments db)
  /\ garages (snd (initiateRefund (AnId i) reason user now db)) = garages db.
Proof.
  intros Hp Hs Hr. rewrite (refund_performs i reason user now db p Hp Hs Hr).
  cbn [snd].
  destruct (payments_Payment_save db (refunded p)) as (P & G & _).
  destruct (Payment.paymentType p), (Payment.booking p) as [bid|];
    cbn [refunded settle Payment.paymentType Payment.booking];
    try (split; assumption);
    try (rewrite (proj1 (payments_findByIdAndUpdate _ _ _ _)),
           (proj1 (proj2 (payments_findByIdAndUpdate _ _ _ _)));
         split; assumption);
    rewrite (proj2 (proj2 (PermissionFacts.others_User_update _ _ _ _))),
      (proj1 (PermissionFacts.others_User_update _ _ _ _));
    split; assumption.
Qed.

(** X13.  An admin's refund of a completed payment answers 200 and
    stores the payment as refunded; the garages, their counters
    included, are untouched.  The same request again, from anyone, is
    answered 400 "Only completed payments can be refunded" and writes
    nothing.  The booking of a booking payment is written as cancelled
    whatever its status was; the payer of a garage-creation payment
    loses [canCreateGarage]. *)
Theorem refund_by_admin i reason user now db p :
  Payment_findById db i = Some p ->
  Payment.status p = Payment.completed ->
  role user = admin ->
  let out := initiateRefund (AnId i) reason user now db in
  fst out = reply 200 "Refund initiated successfully"
  /\ Payment_findById (snd out) i = Some (refunded p)
  /\ garages (snd out) = garages db
  /\ (forall reason' user' now',
         initiateRefund (AnId i) reason' user' now' (snd out)
         = (reply 400 "Only completed payments can be refunded", snd out))
  /\ (forall bid b,
         Payment.paymentType p = Payment.booking_payment ->
         Payment.booking p = Some bid ->
         Booking_findById db bid = Some b ->
         Booking_findById (snd out) bid
         = Some (Booking.set_status b Booking.cancelled now))
  /\ (forall u,
         Payment.paymentType p = Payment.garage_creation ->
         find (by_id User._id (Payment.user p)) (users db) = Some u ->
         exists u',
           find (by_id User._id (Payment.user p)) (users (snd out))
           = Some u'
           /\ User.canCreateGarage u' = false).
Proof.
  intros Hp Hs Hr out.
  destruct (payments_after_refund i reason user now db p Hp Hs Hr)
    as [Hpay Hgar].
  pose proof (find_by_id_key Payment._id _ _ _ Hp) as Hi.
  assert (Hfound : Payment_findById (snd out) i = Some (refunded p)).
  { unfold Payment_findById, out. rewrite Hpay. subst i.
    exact (findById_after_Payment_write db (refunded p) p Hp). }
  split; [|split; [exact Hfound|split; [exact Hgar|split; [|split]]]].
  - unfold out. now rewrite (refund_performs i reason user now db p Hp Hs Hr).
  - intros reason' user' now'. unfold initiateRefund at 1.
    rewrite Hfound. reflexivity.
  - intros bid b Ht Hb Hbk. unfold out.
    rewrite (refund_performs i reason user now db p Hp Hs Hr). cbn [snd].
    rewrite Ht, Hb. unfold Booking_findByIdAndUpdate.
    assert (Hbk1 : Booking_findById (Payment_save db (refunded p)) bid
                   = Some b).
    { unfold Booking_findById.
      now rewrite (proj2 (proj2 (payments_Payment_save db (refunded p)))). }
    rewrite Hbk1, refund_update_cast.
    unfold Booking_findById. cbn [bookings set_bookings].
    rewrite (proj2 (proj2 (payments_Payment_save db (refunded p)))).
    pose proof (find_by_id_key Booking._id _ _ _ Hbk) as Hk. subst bid.
    exact (find_replace_same Booking._id (bookings db)
             (Booking.set_status b Booking.cancelled now) b Hbk).
  - intros u Ht Hu. unfold out.
    rewrite (refund_performs i reason user now db p Hp Hs Hr). cbn [snd].
    rewrite Ht.
    exists (set_user_flag u false []). split; [|reflexivity].
    apply PermissionFacts.find_after_User_update.
    unfold Payment_save, post_save. cbn [refunded settle Payment.paymentType
      Payment.status]. rewrite Ht. exact Hu.
Qed.

(** On the sample database: an admin refunds the settled payment 1, and
    booking 1 ends up cancelled. *)
Lemma refund_by_admin_witness :
  Booking_findById (snd admin_refunds) 1%nat
  = option_map (fun b => Booking.set_status b Booking.cancelled 9000)
      (Booking_findById Settlement.settled_once 1%nat).
Proof.
  let op := eval vm_compute in
    (Payment_findById Settlement.settled_once 1%nat) in
  let ob := eval vm_compute in
    (Booking_findById Settlement.settled_once 1%nat) in
  match op with
  | Some ?p =>
      match ob with
      | Some ?b =>
          destruct (refund_by_admin 1%nat "customer request" Sample.admin30
                      9000 Settlement.settled_once p)
            as (_ & _ & _ & _ & Hb & _);
          [ vm_compute; reflexivity | reflexivity | reflexivity
          | etransitivity;
            [ apply (Hb 1%nat b);
              [reflexivity | reflexivity | vm_compute; reflexivity]
            | vm_compute; reflexivity ] ]
      end
  end.
Defined.

Lemma append_longer a b : b <> "" -> (a ++ b)%string <> a.
Proof.
  intros Hb. induction a as [|c a IH]; simpl.
  - exact Hb.
  - intros [= E]. now apply IH.
Qed.

Lemma find_all_false {A} (q : A -> bool) l :
  (forall y, In y l -> q y = false) -> find q l = None.
Proof.
  induction l as [|z l IH]; simpl; [reflexivity|].
  intros H. rewrite (H z (or_introl eq_refl)). apply IH.
  intros y Hy. apply H. now right.
Qed.

(** After [x] is written over the document with its id, a query that
    matched at most that document and does not match [x] finds
    nothing. *)
Lemma find_replace_retired {A} (key : A -> ObjectId) (q : A -> bool) l x :
  NoDup (map key l) ->
  (forall y, In y l -> q y = true -> key y = key x) ->
  q x = false ->
  find q (replace key x l) = None.
Proof.
  intros ND Hown Hx. induction l as [|z l IH]; simpl; [reflexivity|].
  inversion ND as [|k ks Nin ND']; subst.
  destruct (Nat.eqb (key z) (key x)) eqn:E; simpl.
  - rewrite Hx. apply Nat.eqb_eq in E. apply find_all_false.
    intros y Hy. destruct (q y) eqn:Ey; [|reflexivity].
    exfalso. apply Nin. rewrite E, <- (Hown y (or_intror Hy) Ey).
    now apply in_map.
  - destruct (q z) eqn:Ez.
    + apply Nat.eqb_neq in E. exfalso. apply E.
      apply Hown; [now left|assumption].
    + apply IH; [assumption|]. intros y Hy. apply Hown. now right.
Qed.

(** A query that matched nothing finds [x] once [x] is written over a
    stored document. *)
Lemma find_replace_fresh {A} (key : A -> ObjectId) (q : A -> bool) l x y :
  find q l = None ->
  find (by_id key (key x)) l = Some y ->
  q x = true ->
  find q (replace key x l) = Some x.
Proof.
  unfold by_id. intros Hn Hy Hx.
  induction l as [|z l IH]; simpl in *; [discriminate|].
  destruct (q z) eqn:Ez; [discriminate|].
  destruct (Nat.eqb (key z) (key x)) eqn:E; simpl.
  - now rewrite Hx.
  - rewrite Ez. now apply IH.
Qed.

(** A retry answered 200 found a failed garage-creation payment of the
    requesting user, under the id of the route, and stored it as
    [retried]. *)
Lemma retry_outcome i chapa user now db :
  code (fst (retryPayment (AnId i) chapa user now db)) = 200%nat ->
  exists q url,
    In q (payments db) /\ Payment._id q = i
    /\ tx_taken db (retry_tx_ref q now) = false
    /\ snd (retryPayment (AnId i) chapa user now db)
       = Payment_save db (retried q now url).
Proof.
  unfold retryPayment.
  destruct (find _ (payments db)) as [q|] eqn:Ef; [|discriminate].
  apply find_some in Ef. destruct Ef as [Hin Hq].
  apply andb_prop in Hq. destruct Hq as [Hq _].
  apply andb_prop in Hq. destruct Hq as [Hq _]. apply Nat.eqb_eq in Hq.
  destruct (Payment.paymentType q) eqn:Ety; try discriminate.
  destruct (match Payment.garageCreation_garage q with
            | Some gid => Garage_findById db gid
            | None => None
            end); [|discriminate].
  destruct chapa as [m| | |url]; try discriminate;
    destruct (tx_taken db (retry_tx_ref q now)) eqn:Et; try discriminate;
    intros _; [exists q, ""|exists q, url];
    (split; [exact Hin|split; [exact Hq|split; [exact Et|]]]);
    unfold retried; rewrite Ety; reflexivity.
Qed.

(** X14.  A retry answered 200 moves the payment to a new transaction
    reference, the old one followed by -retry- and the time, and stores it
    as pending.  The old reference then belongs to no payment: a
    notification of the provider for it, whatever its status and
    signature, is answered 401 or 404 and writes nothing.  Assumes unique
    payment ids and that no other payment carried the old reference. *)
Theorem retry_retires_old_reference hmac i chapa user now db p tx :
  NoDup (map Payment._id (payments db)) ->
  Payment_findById db i = Some p ->
  Payment.transactionId p = Some tx ->
  reference_is_own db p ->
  code (fst (retryPayment (AnId i) chapa user now db)) = 200%nat ->
  let db' := snd (retryPayment (AnId i) chapa user now db) in
  let tx' := (tx ++ "-retry-" ++ Js.num_to_string now)%string in
  (exists p',
      Payment_findByTx db' tx' = Some p'
      /\ Payment._id p' = i /\ Payment.status p' = Payment.pending)
  /\ Payment_findByTx db' tx = None
  /\ forall st sig now',
      let out :=
        handleChapaWebhook hmac (Settlement.notify tx st) sig now' db' in
      snd out = db' /\ (code (fst out) = 401%nat \/ code (fst out) = 404%nat).
Proof.
  intros ND Hp Htx Hown H200 db' tx'.
  destruct (retry_outcome i chapa user now db H200)
    as (q & url & Hin & Hi & Hfree & E).
  assert (q = p) as ->.
  { unfold Payment_findById in Hp.
    assert (Hq : find (by_id Payment._id i) (payments db) = Some q).
    { apply (find_pinned Payment._id (fun y => Nat.eqb (Payment._id y) i)
               (payments db) i q ND).
      - intros y Hy. now apply Nat.eqb_eq in Hy.
      - clear - ND Hin Hi. induction (payments db) as [|z l IH];
          simpl in *; [contradiction|].
        inversion ND as [|k ks Nin ND']; subst.
        destruct Hin as [->|Hin].
        + now rewrite Nat.eqb_refl.
        + destruct (Nat.eqb (Payment._id z) (Payment._id q)) eqn:Ez.
          * exfalso. apply Nin. apply Nat.eqb_eq in Ez. rewrite Ez.
            now apply in_map.
          * now apply IH. }
    unfold by_id in Hq. congruence. }
  assert (Hpay : payments db' = replace Payment._id (retried p now url)
                                  (payments db)).
  { unfold db'. rewrite E. apply payments_Payment_save. }
  assert (Hname : retry_tx_ref p now = tx').
  { unfold retry_tx_ref. now rewrite Htx. }
  assert (Hold : Payment_findByTx db' tx = None).
  { unfold Payment_findByTx. rewrite Hpay.
    apply find_replace_retired; [exact ND| |].
    - intros y Hy Hm. apply Hown; [exact Hy|].
      destruct (Payment.transactionId y) as [t|]; [|discriminate].
      apply String.eqb_eq in Hm. now rewrite Htx, Hm.
    - cbn [retried Payment.transactionId]. rewrite Hname.
      apply String.eqb_neq. unfold tx'. apply append_longer. discriminate. }
  split; [|split; [exact Hold|]].
  - exists (retried p now url). split; [|split; [exact Hi|reflexivity]].
    unfold Payment_findByTx. rewrite Hpay.
    apply find_replace_fresh with (y := p).
    + rewrite <- Hname. now apply tx_free.
    + cbn [retried Payment._id]. unfold Payment_findById in Hp.
      unfold by_id. now rewrite Hi.
    + cbn [retried Payment.transactionId]. rewrite Hname.
      apply String.eqb_refl.
  - intros st sig now' out. unfold out, handleChapaWebhook.
    destruct (negb _); [split; [reflexivity|now left]|].
    cbn [Settlement.notify Payment.tx_ref]. rewrite Hold.
    split; [reflexivity|now right].
Qed.

(** On the sample database: payment 2 failed and is retried by its
    owner; the reference tx-2 is gone afterwards. *)
Lemma retry_retires_old_reference_witness :
  Payment_findByTx (snd owner_retries) "tx-2" = None.
Proof.
  let op := eval vm_compute in
    (Payment_findById Settlement.both_failed 2%nat) in
  match op with
  | Some ?p =>
      refine (proj1 (proj2
        (retry_retires_old_reference Settlement.sample_hmac 2%nat
           (Checkout "https://checkout/2b") Sample.owner10 9000
           Settlement.both_failed p "tx-2" _ _ _ _ _)))
  end.
  - vm_compute. repeat constructor; simpl; intuition discriminate.
  - vm_compute. reflexivity.
  - reflexivity.
  - intros q Hq Ht. vm_compute in Hq.
    destruct Hq as [<-|[<-|[]]]; [discriminate Ht|reflexivity].
  - vm_compute. reflexivity.
Defined.

(** Writing [x] over the stored document that a query finds first keeps
    the query on [x], when [x] still matches. *)
Lemma find_replace_kept {A} (key : A -> ObjectId) (q : A -> bool) l x y :
  find q l = Some y ->
  find (by_id key (key x)) l = Some y ->
  q x = true ->
  find q (replace key x l) = Some x.
Proof.
  unfold by_id. intros Hq Hk Hx.
  induction l as [|z l IH]; simpl in *; [discriminate|].
  destruct (Nat.eqb (key z) (key x)) eqn:E; simpl.
  - now rewrite Hx.
  - destruct (q z) eqn:Ez.
    + injection Hq as ->. apply find_some in Hk. destruct Hk as [_ Hk].
      congruence.
    + auto.
Qed.

Lemma users_Payment_save_refunded db p :
  users (Payment_save db (refunded p)) = users db.
Proof.
  unfold Payment_save, post_save, refunded. simpl.
  destruct (Payment.paymentType p); reflexivity.
Qed.

(** X15.  The refund of a garage-creation payment takes the permission
    away, and a success notification for the same reference that arrives
    afterwards, a redelivery for instance, gives it back: the
    notification is answered 500 and the payment stays refunded, since
    the transaction is aborted on the write conflict, but the post-save
    hook has set [canCreateGarage] of the payer outside it. *)
Theorem redelivery_undoes_refund hmac i reason user now now' db p tx u :
  Payment_findById db i = Some p ->
  Payment_findByTx db tx = Some p ->
  Payment.status p = Payment.completed ->
  Payment.paymentType p = Payment.garage_creation ->
  role user = admin ->
  find (by_id User._id (Payment.user p)) (users db) = Some u ->
  let db1 := snd (initiateRefund (AnId i) reason user now db) in
  let payload := Settlement.notify tx "success" in
  let out := handleChapaWebhook hmac payload (Some (hmac payload)) now' db1 in
  (exists u1,
      find (by_id User._id (Payment.user p)) (users db1) = Some u1
      /\ User.canCreateGarage u1 = false)
  /\ code (fst out) = 500%nat
  /\ Payment_findByTx (snd out) tx = Some (refunded p)
  /\ exists u2,
      find (by_id User._id (Payment.user p)) (users (snd out)) = Some u2
      /\ User.canCreateGarage u2 = true.
Proof.
  intros Hp Htx Hs Ht Hr Hu db1 payload out.
  pose proof (find_by_id_key Payment._id _ _ _ Hp) as Hi.
  assert (Hu1 : find (by_id User._id (Payment.user p)) (users db1)
                = Some (set_user_flag u false [])).
  { unfold db1. rewrite (refund_performs i reason user now db p Hp Hs Hr).
    cbn [snd]. rewrite Ht.
    apply PermissionFacts.find_after_User_update.
    now rewrite users_Payment_save_refunded. }
  assert (Hp1 : Payment_findByTx db1 (Payment.tx_ref payload)
                = Some (refunded p)).
  { unfold Payment_findByTx, db1.
    rewrite (proj1 (payments_after_refund i reason user now db p Hp Hs Hr)).
    apply find_replace_kept with (y := p).
    - exact Htx.
    - subst i. exact Hp.
    - apply find_some in Htx. exact (proj2 Htx). }
  split; [exists (set_user_flag u false []); split; [exact Hu1|reflexivity]|].
  unfold out.
  rewrite (PermissionFacts.settlement_of_garage_payment hmac payload now'
             db1 (refunded p) (set_user_flag u false []) Hp1 eq_refl Ht Hu1).
  cbn [fst snd code reply].
  split; [reflexivity|]. split.
  - unfold Payment_findByTx.
    rewrite (proj2 (proj2 (PermissionFacts.others_User_update _ _ _ _))).
    exact Hp1.
  - exists (set_user_flag (set_user_flag u false []) true
              [(Payment._id (refunded p), "completed")]).
    split; [|reflexivity].
    now apply PermissionFacts.find_after_User_update.
Qed.

(** On the sample database: the payment of garage owner 10 is verified,
    refunded by an admin, and then reported as settled by the
    provider. *)
Lemma redelivery_undoes_refund_witness :
  code (fst (Settlement.deliver "payment-1000-ab12cd34" "success" 9500
               (snd (initiateRefund (AnId 1%nat) "" Sample.admin30 9000
                       owner_verified)))) = 500%nat
  /\ exists u2,
    find (by_id User._id 10%nat)
      (users (snd (Settlement.deliver "payment-1000-ab12cd34" "success" 9500
                     (snd (initiateRefund (AnId 1%nat) "" Sample.admin30
                             9000 owner_verified))))) = Some u2
    /\ User.canCreateGarage u2 = true.
Proof.
  let op := eval vm_compute in (Payment_findById owner_verified 1%nat) in
  let ou := eval vm_compute in
    (find (by_id User._id 10%nat) (users owner_verified)) in
  match op with
  | Some ?p =>
      match ou with
      | Some ?u =>
          destruct (redelivery_undoes_refund Settlement.sample_hmac 1%nat ""
                      Sample.admin30 9000 9500 owner_verified p
                      "payment-1000-ab12cd34" u)
            as (_ & Hc & _ & Hu2);
          [ vm_compute; reflexivity | vm_compute; reflexivity
          | reflexivity | reflexivity | reflexivity
          | vm_compute; reflexivity
          | split; [exact Hc|exact Hu2] ]
      end
  end.
Defined.

End PaymentOpsFacts.

(* ================================================================== *)
(** ** Garages: toggle, delete and restore *)
(* ================================================================== *)

Module GarageFacts.

Import BookingCtl GarageCtl.

Lemma replace_same {A} (key : A -> ObjectId) l x :
  find (by_id key (key x)) l = Some x -> replace key x l = l.
Proof.
  unfold by_id. induction l as [|z l IH]; simpl; [reflexivity|].
  destruct (Nat.eqb (key z) (key x)).
  - now intros [= ->].
  - intros H. now rewrite IH.
Qed.

Lemma in_replace_same_key {A} (key : A -> ObjectId) l x y :
  NoDup (map key l) ->
  In y (replace key x l) -> key y = key x -> y = x.
Proof.
  intros ND. induction l as [|z l IH]; simpl; [contradiction|].
  inversion ND as [|k ks Nin ND']; subst.
  destruct (Nat.eqb (key z) (key x)) eqn:E.
  - intros [->|Hin] Hk; [reflexivity|].
    exfalso. apply Nin. apply Nat.eqb_eq in E. rewrite E, <- Hk.
    now apply in_map.
  - intros [->|Hin] Hk.
    + apply Nat.eqb_neq in E. contradiction.
    + now apply IH.
Qed.

Lemma set_garages_same db : set_garages db (garages db) = db.
Proof. now destruct db. Qed.

Lemma pre_save_ignores_flag g a :
  Garage.isDeleted g = false ->
  Garage.pre_save (with_state g (Garage.status g) a false)
  = Garage.pre_save g.
Proof. intros Hd. unfold Garage.pre_save, with_state. simpl. now rewrite Hd.
Qed.

(** X16.  [toggleActive] toggles nothing.  For a stored garage that is
    not soft-deleted an admin is answered 200, but the pre-save hook sets
    [isActive] back from the status: the stored garage is the garage as
    the hook leaves it, with the status it had, and the message says
    activated for an active garage and deactivated for any other.  Where
    the garage was stored by a save, the database is unchanged.  Every
    other role, the owner of the garage included, is answered 403. *)
Theorem toggle_follows_status i user db g :
  Garage_findById db i = Some g ->
  Garage.isDeleted g = false ->
  let out := toggleActive (AnId i) user db in
  (role user <> admin ->
   out = (reply 403 "Not authorized to update this garage", db))
  /\ (role user = admin ->
      fst out
      = reply 200
          (if Garage.is_active (Garage.status g)
           then "Garage activated successfully"
           else "Garage deactivated successfully")
      /\ Garage_findById (snd out) i = Some (Garage.pre_save g)
      /\ (Garage.pre_save g = g -> snd out = db)).
Proof.
  intros Hg Hd out. unfold out, toggleActive. rewrite Hg, Hd.
  cbn [isOwner negb andb].
  split.
  - intros Hr. destruct (role user); try reflexivity. contradiction.
  - intros Hr. rewrite Hr. cbn [Role_eqb negb fst snd].
    unfold Garage_save. rewrite (pre_save_ignores_flag g _ Hd).
    pose proof (find_by_id_key Garage._id _ _ _ Hg) as Hk.
    split; [|split].
    + cbn [Garage.pre_save Garage.isActive].
      destruct (Garage.is_active (Garage.status g)); reflexivity.
    + subst i. unfold Garage_findById. cbn [garages set_garages].
      exact (find_replace_same Garage._id (garages db) (Garage.pre_save g) g
               Hg).
    + intros E. rewrite E. subst i.
      rewrite (replace_same Garage._id (garages db) g Hg).
      apply set_garages_same.
Qed.

Lemma toggle_follows_status_witness :
  fst (toggleActive (AnId 1%nat) Sample.admin30 Sample.db0)
  = reply 200 "Garage activated successfully"
  /\ snd (toggleActive (AnId 1%nat) Sample.admin30 Sample.db0) = Sample.db0.
Proof.
  destruct (proj2 (toggle_follows_status 1%nat Sample.admin30 Sample.db0
                     Sample.garage1 eq_refl eq_refl) eq_refl)
    as (Hm & _ & Hdb).
  split; [exact Hm|]. apply Hdb. reflexivity.
Defined.

(** The database after an admin's delete of a stored garage. *)
Lemma delete_performs i user now db g :
  Garage_findById db i = Some g ->
  Garage.isDeleted g = false ->
  role user = admin ->
  deleteGarage (AnId i) user now db
  = (reply 200 "Garage deleted successfully",
     let db1 :=
       Garage_save db (with_state g Garage.suspended false true) in
     set_bookings
       (set_services db1 (map (retire_service i) (services db1)))
       (map (call_off i now) (bookings db1))).
Proof.
  intros Hg Hd Hr. unfold deleteGarage. rewrite Hg, Hd, Hr. reflexivity.
Qed.

Lemma no_active_after_write db x i :
  NoDup (map Garage._id (garages db)) ->
  Garage._id x = i ->
  (Garage.isDeleted x = true \/ Garage.is_active (Garage.status x) = false) ->
  find (fun g => Nat.eqb (Garage._id g) i && negb (Garage.isDeleted g)
                 && Garage.is_active (Garage.status g))
    (replace Garage._id x (garages db)) = None.
Proof.
  intros ND Hi Hx. apply PaymentOpsFacts.find_all_false.
  intros y Hy. destruct (Nat.eqb (Garage._id y) i) eqn:E; [|reflexivity].
  apply Nat.eqb_eq in E.
  assert (y = x) as ->.
  { apply (in_replace_same_key Garage._id (garages db) x y ND Hy).
    congruence. }
  simpl. destruct Hx as [-> | ->]; [reflexivity|apply andb_false_r].
Qed.

Lemma retired_not_offered i l sid :
  find (fun s => Nat.eqb (Service._id s) sid && Nat.eqb (Service.garage s) i
                 && negb (Service.isDeleted s) && Service.isAvailable s)
    (map (retire_service i) l) = None.
Proof.
  apply PaymentOpsFacts.find_all_false. intros s' Hs'.
  apply in_map_iff in Hs'. destruct Hs' as (s & <- & _).
  unfold retire_service.
  destruct (Nat.eqb (Service.garage s) i) eqn:Eg;
    destruct (Service.isDeleted s) eqn:Ed; simpl;
    rewrite ?Eg, ?Ed, ?andb_false_r; simpl; rewrite ?andb_false_r;
    reflexivity.
Qed.

(** X17.  An admin's delete of a stored garage answers 200 and leaves
    the garage suspended and soft-deleted with its counters as the save
    hook reads them, which is as they were for counters that are safe
    integers; the garage is no longer found by the queries of
    [createBooking] and [checkAvailability], none of its services is
    offered, and no create request for it is answered 201.  Of its
    bookings dated now or later, those left not soft-deleted are
    completed, cancelled or rejected; bookings dated before now, today's
    among them, are not touched.  Assumes unique garage ids. *)
Theorem garage_delete_cascade i user now db g :
  NoDup (map Garage._id (garages db)) ->
  Garage_findById db i = Some g ->
  Garage.isDeleted g = false ->
  role user = admin ->
  let out := deleteGarage (AnId i) user now db in
  fst out = reply 200 "Garage deleted successfully"
  /\ (exists g',
        Garage_findById (snd out) i = Some g'
        /\ Garage.status g' = Garage.suspended
        /\ Garage.isDeleted g' = true /\ Garage.isActive g' = false
        /\ Garage.stats g' = Garage.stats (Garage.pre_save g)
        /\ (Stats.countable g -> Garage.stats g' = Garage.stats g))
  /\ activeGarage (snd out) i = None
  /\ listedGarage (snd out) i = None
  /\ (forall sid, offeredService (snd out) i sid = None)
  /\ (forall req user' now',
         garageId req = AnId i ->
         code (fst (createBooking req user' now' (snd out))) <> 201%nat)
  /\ (forall b,
         In b (bookings (snd out)) ->
         Booking.garage b = i -> now <= Booking.bookingDate b ->
         Booking.isDeleted b = false ->
         Lifecycle.terminal (Booking.status b) = true)
  /\ (forall b,
         In b (bookings db) -> Booking.bookingDate b < now ->
         In b (bookings (snd out))).
Proof.
  intros ND Hg Hd Hr out. unfold out.
  rewrite (delete_performs i user now db g Hg Hd Hr). cbn [fst snd].
  pose proof (find_by_id_key Garage._id _ _ _ Hg) as Hk.
  set (x := Garage.pre_save (with_state g Garage.suspended false true)).
  assert (Hact : activeGarage
                   (set_bookings
                      (set_services
                         (Garage_save db
                            (with_state g Garage.suspended false true))
                         (map (retire_service i)
                            (services
                               (Garage_save db
                                  (with_state g Garage.suspended false
                                     true)))))
                      (map (call_off i now)
                         (bookings
                            (Garage_save db
                               (with_state g Garage.suspended false true)))))
                   i = None).
  { unfold activeGarage. cbn [garages set_bookings set_services Garage_save
      set_garages].
    apply (no_active_after_write db x i ND); [exact Hk|now left]. }
  split; [reflexivity|]. split; [|split; [exact Hact|split; [|split;
    [|split; [|split]]]]].
  - exists x. split; [|repeat split].
    + unfold Garage_findById. cbn [garages set_bookings set_services
        Garage_save set_garages]. subst i.
      exact (find_replace_same Garage._id (garages db) x g Hg).
    + intros [Ht Hdn]. unfold x, Stats.total, Stats.done in *.
      cbn [Garage.pre_save Garage.stats with_state].
      rewrite (StatsFacts.whole_of_safe _ Ht),
        (StatsFacts.whole_of_safe _ Hdn).
      now destruct (Garage.stats g).
  - unfold listedGarage. cbn [garages set_bookings set_services Garage_save
      set_garages].
    apply PaymentOpsFacts.find_all_false. intros y Hy.
    destruct (Nat.eqb (Garage._id y) i) eqn:E; [|reflexivity].
    apply Nat.eqb_eq in E.
    assert (y = x) as ->.
    { apply (in_replace_same_key Garage._id (garages db) x y ND Hy).
      unfold x. simpl. congruence. }
    reflexivity.
  - intros sid. unfold offeredService.
    cbn [services set_bookings set_services]. apply retired_not_offered.
  - intros req user' now' Hreq.
    match goal with
    | |- code (fst (createBooking _ _ _ ?d)) <> _ => set (db3 := d) in *
    end.
    destruct (SlotsFacts.create_outcome req user' now' db3)
      as [[_ N]|(gid & sid & ms & ts & vi & garage & Hw & Hag & _)];
      [exact N|].
    destruct Hw as (Hgid & _). rewrite Hreq in Hgid. injection Hgid as <-.
    rewrite Hact in Hag. discriminate.
  - intros b Hb Hgar Hdate Hdel.
    cbn [bookings set_bookings set_services Garage_save set_garages] in Hb.
    apply in_map_iff in Hb. destruct Hb as (b0 & <- & _).
    unfold call_off in *. destruct (open_from i now b0) eqn:Eo.
    + simpl in Hdel. discriminate.
    + unfold open_from in Eo. rewrite Hgar, Nat.eqb_refl, Hdel in Eo.
      apply Z.leb_le in Hdate. rewrite Hdate in Eo. simpl in Eo.
      rewrite andb_true_r in Eo.
      destruct (Booking.status b0); simpl in *; congruence.
  - intros b Hb Hdate.
    cbn [bookings set_bookings set_services Garage_save set_garages].
    apply in_map_iff. exists b. split; [|exact Hb].
    unfold call_off, open_from.
    apply Z.leb_gt in Hdate. rewrite Hdate.
    now rewrite andb_false_r.
Qed.

Lemma garage_delete_cascade_witness :
  activeGarage GarageScenes.garage_deleted 1%nat = None
  /\ forall b, In b (bookings GarageScenes.garage_deleted) ->
               Booking.isDeleted b = false ->
               Lifecycle.terminal (Booking.status b) = true.
Proof.
  destruct (garage_delete_cascade 1%nat Sample.admin30 1000 Sample.db1
              Sample.garage1_booked)
    as (_ & _ & Ha & _ & _ & _ & Hb & _).
  - vm_compute. repeat constructor. intuition.
  - reflexivity.
  - reflexivity.
  - reflexivity.
  - split; [exact Ha|]. intros b Hin Hdel.
    apply Hb; [exact Hin| | |exact Hdel];
      vm_compute in Hin; destruct Hin as [<-|[]]; vm_compute;
      try reflexivity; discriminate.
Defined.

(** X18.  Restoring a garage does not undo its delete.  After an admin's
    delete and restore of a stored garage the restore is answered 200 and
    the garage is stored as pending and inactive, so [createBooking] still
    does not find it; the services and the bookings are exactly as the
    delete left them, so no service of the garage is offered.  Assumes
    unique garage ids. *)
Theorem restore_does_not_undo_delete i user now db g :
  NoDup (map Garage._id (garages db)) ->
  Garage_findById db i = Some g ->
  Garage.isDeleted g = false ->
  role user = admin ->
  let db1 := snd (deleteGarage (AnId i) user now db) in
  let out := restoreGarage (AnId i) db1 in
  fst out = reply 200 "Garage restored successfully"
  /\ services (snd out) = services db1
  /\ bookings (snd out) = bookings db1
  /\ (exists g',
        Garage_findById (snd out) i = Some g'
        /\ Garage.status g' = Garage.pending
        /\ Garage.isDeleted g' = false /\ Garage.isActive g' = false)
  /\ activeGarage (snd out) i = None
  /\ (forall sid, offeredService (snd out) i sid = None).
Proof.
  intros ND Hg Hd Hr db1 out.
  pose proof (find_by_id_key Garage._id _ _ _ Hg) as Hk.
  set (x := Garage.pre_save (with_state g Garage.suspended false true)).
  assert (Hgar1 : garages db1 = replace Garage._id x (garages db)).
  { unfold db1. now rewrite (delete_performs i user now db g Hg Hd Hr). }
  assert (Hsvc1 : services db1 = map (retire_service i) (services db)).
  { unfold db1. now rewrite (delete_performs i user now db g Hg Hd Hr). }
  assert (Hx : find (by_id Garage._id i) (garages db1) = Some x).
  { rewrite Hgar1. subst i.
    exact (find_replace_same Garage._id (garages db) x g Hg). }
  assert (ND1 : NoDup (map Garage._id (garages db1))).
  { rewrite Hgar1. now rewrite LifecycleFacts.map_key_replace. }
  assert (Hdeleted : find (fun g0 => Nat.eqb (Garage._id g0) i
                                     && Garage.isDeleted g0) (garages db1)
                     = Some x).
  { clear - Hx. unfold by_id in Hx.
    induction (garages db1) as [|z l IH]; simpl in *; [discriminate|].
    destruct (Nat.eqb (Garage._id z) i).
    - injection Hx as ->. reflexivity.
    - simpl. auto. }
  set (y := Garage.pre_save
              (with_state x Garage.pending (Garage.isActive x) false)).
  assert (E : out = (reply 200 "Garage restored successfully",
                     set_garages db1
                       (replace Garage._id y (garages db1)))).
  { unfold out, restoreGarage. now rewrite Hdeleted. }
  rewrite E. cbn [fst snd].
  split; [reflexivity|]. split; [reflexivity|]. split; [reflexivity|].
  split; [|split].
  - exists y. split; [|repeat split].
    unfold Garage_findById. cbn [garages set_garages].
    replace i with (Garage._id y) by (unfold y, x; simpl; exact Hk).
    apply (find_replace_same Garage._id (garages db1) y x).
    replace (Garage._id y) with i by (unfold y, x; simpl; now rewrite Hk).
    exact Hx.
  - unfold activeGarage. cbn [garages set_garages].
    apply (no_active_after_write db1 y i ND1);
      [unfold y, x; simpl; exact Hk|now right].
  - intros sid. unfold offeredService. cbn [services set_garages].
    rewrite Hsvc1. apply retired_not_offered.
Qed.

Lemma restore_does_not_undo_delete_witness :
  activeGarage Sample.db1 1%nat <> None
  /\ activeGarage GarageScenes.garage_restored 1%nat = None.
Proof.
  split; [vm_compute; discriminate|].
  refine (proj1 (proj2 (proj2 (proj2 (proj2
    (restore_does_not_undo_delete 1%nat Sample.admin30 1000 Sample.db1
       Sample.garage1_booked _ eq_refl eq_refl eq_refl)))))).
  vm_compute. repeat constructor. intuition.
Defined.

End GarageFacts.

(* ================================================================== *)
(** ** Hard delete of a user *)
(* ================================================================== *)

Module UserFacts.

Import UserCtl.

Lemma delete_first_gone {A} (key : A -> ObjectId) l i :
  NoDup (map key l) ->
  find (fun x => Nat.eqb (key x) i)
    (delete_first (fun x => Nat.eqb (key x) i) l) = None.
Proof.
  intros ND. induction l as [|z l IH]; simpl; [reflexivity|].
  inversion ND as [|k ks Nin ND']; subst.
  destruct (Nat.eqb (key z) i) eqn:E.
  - apply PaymentOpsFacts.find_all_false. intros y Hy.
    apply Nat.eqb_neq. intros Ey. apply Nin. apply Nat.eqb_eq in E.
    rewrite E, <- Ey. now apply in_map.
  - simpl. rewrite E. now apply IH.
Qed.

(** An admin's hard delete of a stored user who is no garage owner. *)
Lemma hard_delete_performs i user db u :
  User_findById db i = Some u ->
  role user = admin ->
  User.role u <> garage_owner ->
  hardDeleteUser (AnId i) user db
  = (reply 200 "User permanently deleted", delete_traces_of i db).
Proof.
  intros Hu Hr Hrole. unfold hardDeleteUser. rewrite Hr, Hu.
  cbn [Role_eqb negb own_account].
  destruct (User.role u); try reflexivity. contradiction.
Qed.

(** X19.  An admin's hard delete of a stored garage owner is answered
    500 'Error hard deleting user' and deletes nothing: the branch for
    garage owners calls [Service.deleteMany], and the user controller
    does not require the Service model.  For a stored user of any other
    role the answer is 200, the admin's own account included, and no user
    is left under that id, no booking and no review of the user as car
    owner and no payment of the user, while the garages and services are
    as before, the counters of the garages included.  Assumes unique
    user ids. *)
Theorem hard_delete_removes_traces i user db u :
  NoDup (map User._id (users db)) ->
  User_findById db i = Some u ->
  role user = admin ->
  let out := hardDeleteUser (AnId i) user db in
  (User.role u = garage_owner ->
   out = (reply 500 "Error hard deleting user", db))
  /\ (User.role u <> garage_owner ->
      fst out = reply 200 "User permanently deleted"
      /\ User_findById (snd out) i = None
      /\ (forall b, In b (bookings (snd out)) -> Booking.carOwner b <> i)
      /\ (forall r, In r (reviews (snd out)) -> Review.carOwner r <> i)
      /\ (forall p, In p (payments (snd out)) -> Payment.user p <> i)
      /\ garages (snd out) = garages db
      /\ services (snd out) = services db).
Proof.
  intros ND Hu Hr out. split.
  - intros Hrole. unfold out, hardDeleteUser. rewrite Hr, Hu, Hrole.
    reflexivity.
  - intros Hrole. unfold out.
    rewrite (hard_delete_performs i user db u Hu Hr Hrole). cbn [fst snd].
    split; [reflexivity|].
    split; [|split; [|split; [|split; [|split; reflexivity]]]].
    + unfold User_findById. cbn [users delete_traces_of].
      exact (delete_first_gone User._id (users db) i ND).
    + intros b Hb. cbn [bookings delete_traces_of] in Hb.
      apply filter_In in Hb. destruct Hb as [_ Hb].
      apply negb_true_iff, Nat.eqb_neq in Hb. exact Hb.
    + intros r Hr'. cbn [reviews delete_traces_of] in Hr'.
      apply filter_In in Hr'. destruct Hr' as [_ Hr'].
      apply negb_true_iff, Nat.eqb_neq in Hr'. exact Hr'.
    + intros p Hp. cbn [payments delete_traces_of] in Hp.
      apply filter_In in Hp. destruct Hp as [_ Hp].
      apply negb_true_iff, Nat.eqb_neq in Hp. exact Hp.
Qed.

(** Garage owner 10 cannot be removed; driver 20 is removed with
    booking 1, and garage 1 still counts it. *)
Lemma hard_delete_removes_traces_witness :
  UserScenes.owner_kept = (reply 500 "Error hard deleting user", Sample.db1)
  /\ bookings UserScenes.driver_removed = []
  /\ garages UserScenes.driver_removed = garages Sample.db1.
Proof.
  split.
  - destruct (hard_delete_removes_traces 10%nat Sample.admin30 Sample.db1
                (Sample.mk_user 10%nat garage_owner)) as (Hkept & _).
    + vm_compute. repeat constructor; simpl; intuition discriminate.
    + reflexivity.
    + reflexivity.
    + apply Hkept. reflexivity.
  - destruct (hard_delete_removes_traces 20%nat Sample.admin30 Sample.db1
                (Sample.mk_user 20%nat car_owner)) as (_ & Hgone).
    + vm_compute. repeat constructor; simpl; intuition discriminate.
    + reflexivity.
    + reflexivity.
    + split; [vm_compute; reflexivity|]. apply Hgone. discriminate.
Defined.

(** X20.  A garage owner whose role an admin has changed before the hard
    delete leaves everything of the garages behind: after the role change
    and the hard delete, both answered 200, the garages, still naming the
    deleted user as owner, and the services are as they were, and so are
    the bookings and reviews of other car owners.  Assumes unique user
    ids. *)
Theorem demoted_owner_leaves_garages i user db u r :
  NoDup (map User._id (users db)) ->
  User_findById db i = Some u ->
  role user = admin ->
  r <> garage_owner ->
  let db1 := snd (updateUserRole (AnId i) (Auth.role_name r) user db) in
  let out := hardDeleteUser (AnId i) user db1 in
  fst out = reply 200 "User permanently deleted"
  /\ User_findById (snd out) i = None
  /\ garages (snd out) = garages db
  /\ services (snd out) = services db
  /\ bookings (snd out)
     = filter (fun b => negb (Nat.eqb (Booking.carOwner b) i)) (bookings db)
  /\ reviews (snd out)
     = filter (fun x => negb (Nat.eqb (Review.carOwner x) i)) (reviews db).
Proof.
  intros ND Hu Hr Hrole db1 out.
  assert (Hname : role_of_string (Auth.role_name r) = Some r)
    by (destruct r; reflexivity).
  assert (E1 : db1 = set_users db (replace User._id (set_role u r) (users db))).
  { unfold db1, updateUserRole. rewrite Hr, Hname. cbn [Role_eqb negb snd].
    now rewrite Hu. }
  pose proof (find_by_id_key User._id _ _ _ Hu) as Hk.
  assert (Hu1 : User_findById db1 i = Some (set_role u r)).
  { rewrite E1. unfold User_findById. cbn [users set_users]. subst i.
    exact (find_replace_same User._id (users db) (set_role u r) u Hu). }
  assert (ND1 : NoDup (map User._id (users db1))).
  { rewrite E1. cbn [users set_users].
    now rewrite LifecycleFacts.map_key_replace. }
  unfold out.
  rewrite (hard_delete_performs i user db1 (set_role u r) Hu1 Hr Hrole).
  cbn [fst snd].
  split; [reflexivity|]. split.
  - unfold User_findById. cbn [users delete_traces_of].
    exact (delete_first_gone User._id (users db1) i ND1).
  - rewrite E1. repeat split.
Qed.

Lemma demoted_owner_leaves_garages_witness :
  garages UserScenes.owner_removed = garages Sample.db1
  /\ UserCtl.User_findById UserScenes.owner_removed 10%nat = None.
Proof.
  destruct (demoted_owner_leaves_garages 10%nat Sample.admin30 Sample.db1
              (Sample.mk_user 10%nat garage_owner) car_owner)
    as (_ & Hgone & Hg & _).
  - vm_compute. repeat constructor; simpl; intuition discriminate.
  - reflexivity.
  - reflexivity.
  - discriminate.
  - split; [exact Hg|exact Hgone].
Defined.

End UserFacts.

(* ================================================================== *)
(** ** Who sees which bookings *)
(* ================================================================== *)

Module ListFacts.

Import BookingCtl BookingLists.

Lemma satisfies_owner f b :
  satisfies f b = true ->
  holds (f_carOwner f) (Nat.eqb (Booking.carOwner b)) = true
  /\ garage_matches (f_garage f) b = true
  /\ Booking.isDeleted b = false.
Proof.
  unfold satisfies. intros H.
  apply andb_prop in H. destruct H as [H _].
  apply andb_prop in H. destruct H as [H _].
  apply andb_prop in H. destruct H as [H _].
  apply andb_prop in H. destruct H as [H _].
  apply andb_prop in H. destruct H as [H Hg].
  apply andb_prop in H. destruct H as [Hd Ho].
  apply negb_true_iff in Hd. auto.
Qed.

Lemma owns_listed db user b :
  existsb (Nat.eqb (Booking.garage b)) (userGarages db user) = true ->
  exists g, In g (garages db) /\ Garage._id g = Booking.garage b
            /\ Garage.owner g = id user.
Proof.
  intros H. apply existsb_exists in H. destruct H as (i & Hin & E).
  apply Nat.eqb_eq in E. subst i. unfold userGarages in Hin.
  apply in_map_iff in Hin. destruct Hin as (g & Hid & Hg).
  apply filter_In in Hg. destruct Hg as [Hg Ho]. apply Nat.eqb_eq in Ho.
  exists g. auto.
Qed.

(** X21.  In both list handlers a [garageId] in the query replaces the
    restriction of a garage owner to their own garages: for such a
    request a garage owner is served exactly the bookings an admin is
    served, those of the named garage, whoever owns it.  Without a
    [garageId] every booking listed for a garage owner belongs to a garage
    of theirs, and a car owner is only ever listed their own bookings,
    whatever the query.  No soft-deleted booking is listed. *)
Theorem list_scope_by_role :
  (forall req u1 u2 db g,
      role u1 <> car_owner -> role u2 <> car_owner ->
      r_garageId req = AnId g ->
      getBookingsByDateRange req u1 db = getBookingsByDateRange req u2 db)
  /\ (forall req u1 u2 db g,
         role u1 <> car_owner -> role u2 <> car_owner ->
         l_garageId req = AnId g ->
         getAllBookings req u1 db = getAllBookings req u2 db)
  /\ (forall req user db l b,
         getBookingsByDateRange req user db = Listed l -> In b l ->
         In b (bookings db) /\ Booking.isDeleted b = false
         /\ (role user = car_owner -> Booking.carOwner b = id user)
         /\ (forall g, r_garageId req = AnId g -> Booking.garage b = g)
         /\ (role user = garage_owner -> r_garageId req = NoId ->
             exists g, In g (garages db) /\ Garage._id g = Booking.garage b
                       /\ Garage.owner g = id user))
  /\ (forall req user db l b,
         getAllBookings req user db = Listed l -> In b l ->
         In b (bookings db) /\ Booking.isDeleted b = false
         /\ (role user = car_owner -> Booking.carOwner b = id user)
         /\ (forall g, l_garageId req = AnId g -> Booking.garage b = g)
         /\ (role user = garage_owner -> l_garageId req = NoId ->
             exists g, In g (garages db) /\ Garage._id g = Booking.garage b
                       /\ Garage.owner g = id user)).
Proof.
  split; [|split; [|split]].
  - intros req u1 u2 db g H1 H2 Hg. unfold getBookingsByDateRange.
    rewrite Hg. unfold by_role.
    destruct (role u1), (role u2); try contradiction; reflexivity.
  - intros req u1 u2 db g H1 H2 Hg. unfold getAllBookings.
    rewrite Hg. unfold by_role. cbn [optional_id].
    destruct (role u1), (role u2); try contradiction; reflexivity.
  - intros req user db l b. unfold getBookingsByDateRange.
    destruct (no_date _ || no_date _); [discriminate|].
    destruct (r_startDate req) as [| |s]; try discriminate.
    destruct (r_endDate req) as [| |e]; try discriminate.
    destruct (r_garageId req) as [| |g]; try discriminate;
      intros [= <-] Hb; apply filter_In in Hb; destruct Hb as [Hin Hs];
      apply satisfies_owner in Hs; destruct Hs as (Ho & Hg & Hd);
      cbn [f_carOwner f_garage] in Ho, Hg;
      (split; [exact Hin|split; [exact Hd|split; [|split]]]).
    + intros Hr. unfold by_role in Ho. rewrite Hr in Ho. simpl in Ho.
      now apply Nat.eqb_eq in Ho.
    + discriminate.
    + intros Hr _. unfold by_role in Hg. rewrite Hr in Hg. simpl in Hg.
      now apply owns_listed.
    + intros Hr. unfold by_role in Ho. rewrite Hr in Ho. simpl in Ho.
      now apply Nat.eqb_eq in Ho.
    + intros g' [= <-]. simpl in Hg. now apply Nat.eqb_eq in Hg.
    + discriminate.
  - intros req user db l b. unfold getAllBookings.
    destruct (l_garageId req) as [| |g]; cbn [optional_id];
      try discriminate;
      destruct (optional_id (l_serviceId req)); try discriminate;
      destruct (optional_date (l_startDate req)); try discriminate;
      destruct (optional_date (l_endDate req)); try discriminate;
      intros [= <-] Hb; apply filter_In in Hb; destruct Hb as [Hin Hs];
      apply satisfies_owner in Hs; destruct Hs as (Ho & Hg & Hd);
      cbn [f_carOwner f_garage] in Ho, Hg;
      (split; [exact Hin|split; [exact Hd|split; [|split]]]).
    + intros Hr. unfold by_role in Ho. rewrite Hr in Ho. simpl in Ho.
      now apply Nat.eqb_eq in Ho.
    + discriminate.
    + intros Hr _. unfold by_role in Hg. rewrite Hr in Hg. simpl in Hg.
      now apply owns_listed.
    + intros Hr. unfold by_role in Ho. rewrite Hr in Ho. simpl in Ho.
      now apply Nat.eqb_eq in Ho.
    + intros g' [= <-]. simpl in Hg. now apply Nat.eqb_eq in Hg.
    + discriminate.
Qed.

End ListFacts.

(* ================================================================== *)
(** ** Attachments of a booking *)
(* ================================================================== *)

Module AttachmentFacts.

Import BookingCtl Attachments Slots AttachmentEffect.

Lemma slot_of_set_attachments g d ts b l now :
  slot_taken_by g d ts (set_attachments b l now) = slot_taken_by g d ts b.
Proof. reflexivity. Qed.

Lemma upload_rewrites bid files user now db :
  Rewrite db (snd (uploadAttachments bid files user now db)).
Proof.
  unfold uploadAttachments.
  destruct files as [[|p paths]|]; try (now apply Nothing).
  destruct bid as [| |i]; try (now apply Nothing).
  destruct (Booking_findById db i) as [b|] eqn:Eb; [|now apply Nothing].
  destruct (Booking.isDeleted b) eqn:Ed; [now apply Nothing|].
  destruct (negb _); [now apply Nothing|].
  eapply Attached; [exact Eb|exact Ed|reflexivity].
Qed.

Lemma delete_rewrites bid filename user now db :
  Rewrite db (snd (deleteAttachment bid filename user now db)).
Proof.
  unfold deleteAttachment.
  destruct bid as [| |i]; try (now apply Nothing).
  destruct (Booking_findById db i) as [b|] eqn:Eb; [|now apply Nothing].
  destruct (Booking.isDeleted b) eqn:Ed; [now apply Nothing|].
  destruct (negb _); [now apply Nothing|].
  destruct (find _ (Booking.attachments b)) as [a|]; [|now apply Nothing].
  destruct (String.eqb a ""); [now apply Nothing|].
  eapply Attached; [exact Eb|exact Ed|reflexivity].
Qed.

Lemma rewrite_keeps db db' :
  Rewrite db db' ->
  garages db' = garages db
  /\ (slot_unique (bookings db) -> slot_unique (bookings db'))
  /\ forall j b,
      Booking_findById db j = Some b ->
      exists b', Booking_findById db' j = Some b'
                 /\ Lifecycle.same_reservation b b'
                 /\ Booking.status b' = Booking.status b
                 /\ Booking.isDeleted b' = Booking.isDeleted b.
Proof.
  intros [->|i b l now Hb Hd ->].
  - split; [reflexivity|]. split; [auto|].
    intros j b Hb. exists b. unfold Lifecycle.same_reservation. auto 12.
  - split; [reflexivity|]. split.
    + intros U. cbn [bookings set_bookings].
      apply SlotsFacts.slot_unique_rewrite with (b := b); [exact U| |].
      * pose proof (find_by_id_key Booking._id _ _ _ Hb) as Hk.
        simpl. now rewrite Hk.
      * intros g d ts H. now rewrite slot_of_set_attachments in H.
    + intros j b0 Hb0.
      pose proof (find_by_id_key Booking._id _ _ _ Hb) as Hk.
      unfold Booking_findById. cbn [bookings set_bookings].
      change (find (fun b1 => Nat.eqb (Booking._id b1) j)
                (replace Booking._id (set_attachments b l now)
                   (bookings db)))
        with (find (by_id Booking._id j)
                (replace Booking._id (set_attachments b l now)
                   (bookings db))).
      assert (Hb' : Booking_findById db
                      (Booking._id (set_attachments b l now)) = Some b)
        by (simpl; now rewrite Hk).
      rewrite (LifecycleFacts.findById_after_rewrite db
                 (set_attachments b l now) b j Hb').
      destruct (Nat.eqb j (Booking._id (set_attachments b l now))) eqn:E.
      * apply Nat.eqb_eq in E. simpl in E. rewrite Hk in E. subst j.
        rewrite Hb in Hb0. injection Hb0 as <-.
        exists (set_attachments b l now).
        unfold Lifecycle.same_reservation. simpl. auto 12.
      * exists b0. unfold Lifecycle.same_reservation. auto 12.
Qed.

(** X22.  The two attachment handlers change nothing of a booking but
    its attachments and the time of its update: garages, slots, statuses
    and deletion flags are as before, so the slots stay unique.  A delete
    answered 200 removes every attachment whose path contains the file
    name, not only the first, so none that is left contains it; an upload
    answered 200 appends the paths with backslashes turned into
    slashes. *)
Theorem attachments_keep_reservation :
  (forall bid files user now db,
      let out := uploadAttachments bid files user now db in
      (garages (snd out) = garages db
       /\ (slot_unique (bookings db) -> slot_unique (bookings (snd out)))
       /\ forall j b,
           Booking_findById db j = Some b ->
           exists b', Booking_findById (snd out) j = Some b'
                      /\ Lifecycle.same_reservation b b'
                      /\ Booking.status b' = Booking.status b
                      /\ Booking.isDeleted b' = Booking.isDeleted b)
      /\ (code (fst out) = 200%nat ->
          exists i b paths,
            bid = AnId i /\ files = Some paths
            /\ Booking_findById db i = Some b
            /\ Booking_findById (snd out) i
               = Some (set_attachments b
                         (app (Booking.attachments b) (map slashes paths))
                         now)))
  /\ (forall bid filename user now db,
         let out := deleteAttachment bid filename user now db in
         (garages (snd out) = garages db
          /\ (slot_unique (bookings db) -> slot_unique (bookings (snd out)))
          /\ forall j b,
              Booking_findById db j = Some b ->
              exists b', Booking_findById (snd out) j = Some b'
                         /\ Lifecycle.same_reservation b b'
                         /\ Booking.status b' = Booking.status b
                         /\ Booking.isDeleted b' = Booking.isDeleted b)
         /\ (code (fst out) = 200%nat ->
             exists i b b',
               bid = AnId i
               /\ Booking_findById db i = Some b
               /\ Booking_findById (snd out) i = Some b'
               /\ (forall a, In a (Booking.attachments b') <->
                             In a (Booking.attachments b)
                             /\ includes a filename = false))).
Proof.
  split.
  - intros bid files user now db out. split.
    + apply rewrite_keeps, upload_rewrites.
    + unfold out, uploadAttachments.
      destruct files as [[|p paths]|]; try discriminate.
      destruct bid as [| |i]; try discriminate.
      destruct (Booking_findById db i) as [b|] eqn:Eb; [|discriminate].
      destruct (Booking.isDeleted b); [discriminate|].
      destruct (negb _); [discriminate|].
      intros _. exists i, b, (p :: paths).
      split; [reflexivity|]. split; [reflexivity|]. split; [exact Eb|].
      cbn [snd]. unfold Booking_save, Booking_findById.
      cbn [bookings set_bookings Booking.paths Booking.hydrate].
      pose proof (find_by_id_key Booking._id _ _ _ Eb) as Hk. subst i.
      exact (find_replace_same Booking._id (bookings db)
               (set_attachments b _ now) b Eb).
  - intros bid filename user now db out. split.
    + apply rewrite_keeps, delete_rewrites.
    + unfold out, deleteAttachment.
      destruct bid as [| |i]; try discriminate.
      destruct (Booking_findById db i) as [b|] eqn:Eb; [|discriminate].
      destruct (Booking.isDeleted b); [discriminate|].
      destruct (negb _); [discriminate|].
      destruct (find _ (Booking.attachments b)) as [a|]; [|discriminate].
      destruct (String.eqb a ""); [discriminate|].
      intros _.
      exists i, b,
        (set_attachments b
           (filter (fun a0 => negb (includes a0 filename))
              (Booking.attachments b)) now).
      split; [reflexivity|]. split; [exact Eb|]. split.
      * cbn [snd]. unfold Booking_save, Booking_findById.
        cbn [bookings set_bookings Booking.paths Booking.hydrate].
        pose proof (find_by_id_key Booking._id _ _ _ Eb) as Hk. subst i.
        exact (find_replace_same Booking._id (bookings db)
                 (set_attachments b _ now) b Eb).
      * intros a0. cbn [set_attachments Booking.attachments].
        rewrite filter_In. now rewrite negb_true_iff.
Qed.

(** The file name 1.png takes 11.png with it. *)
Example substring_removes_both :
  filter (fun a => negb (includes a "1.png"))
    ["uploads/1.png"; "uploads/11.png"; "uploads/2.png"]
  = ["uploads/2.png"].
Proof. reflexivity. Qed.

End AttachmentFacts.

(* ================================================================== *)
(** ** The rate limiter *)
(* ================================================================== *)

Module LimiterFacts.

Import RateLimit Limiter.

Lemma get_set m ip e : get (set m ip e) ip = Some e.
Proof.
  unfold get. induction m as [|kv m IH]; simpl.
  - now rewrite String.eqb_refl.
  - destruct (String.eqb (fst kv) ip) eqn:E; simpl.
    + now rewrite String.eqb_refl.
    + now rewrite E.
Qed.

(** One more attempt inside the window, below the maximum. *)
Lemma attempt_counted m ip now d :
  get m ip = Some d ->
  now - firstAttempt d <= windowMs ->
  count d < maxAttempts ->
  attempt m ip now
  = (true, set m ip {| count := count d + 1;
                       firstAttempt := firstAttempt d |}).
Proof.
  intros Hg Hw Hc. unfold attempt. rewrite Hg.
  replace (windowMs <? now - firstAttempt d) with false
    by (symmetry; apply Z.ltb_ge; exact Hw).
  replace (maxAttempts <=? count d) with false
    by (symmetry; apply Z.leb_gt; exact Hc).
  reflexivity.
Qed.

Lemma attempt_refused m ip now d :
  get m ip = Some d ->
  now - firstAttempt d <= windowMs ->
  maxAttempts <= count d ->
  attempt m ip now = (false, m).
Proof.
  intros Hg Hw Hc. unfold attempt. rewrite Hg.
  replace (windowMs <? now - firstAttempt d) with false
    by (symmetry; apply Z.ltb_ge; exact Hw).
  replace (maxAttempts <=? count d) with true
    by (symmetry; apply Z.leb_le; exact Hc).
  reflexivity.
Qed.

(** X23.  [authRateLimiter] limits nothing: the map of attempts is
    created inside the middleware, so every request finds it empty and is
    passed on, however many came before.  The body of the middleware run
    over a map kept between the requests would pass five requests of a
    client within fifteen minutes and refuse the sixth. *)
Theorem rate_limiter_never_limits :
  (forall ip times,
      answered ip times = map (fun _ => None) times)
  /\ (forall ip t1 t2 t3 t4 t5 t6,
         t2 - t1 <= windowMs -> t3 - t1 <= windowMs ->
         t4 - t1 <= windowMs -> t5 - t1 <= windowMs ->
         t6 - t1 <= windowMs ->
         served [] ip [t1; t2; t3; t4; t5; t6]
         = [true; true; true; true; true; false]).
Proof.
  split.
  - intros ip times. unfold answered. apply map_ext. reflexivity.
  - intros ip t1 t2 t3 t4 t5 t6 H2 H3 H4 H5 H6.
    cbn [served].
    assert (E1 : attempt [] ip t1
                 = (true, set [] ip {| count := 1; firstAttempt := t1 |}))
      by reflexivity.
    rewrite E1. cbn [fst snd].
    set (m1 := set [] ip {| count := 1; firstAttempt := t1 |}).
    rewrite (attempt_counted m1 ip t2 _ (get_set _ _ _) H2 eq_refl).
    cbn [fst snd count firstAttempt].
    set (m2 := set m1 ip _).
    rewrite (attempt_counted m2 ip t3 _ (get_set _ _ _) H3 eq_refl).
    cbn [fst snd count firstAttempt].
    set (m3 := set m2 ip _).
    rewrite (attempt_counted m3 ip t4 _ (get_set _ _ _) H4 eq_refl).
    cbn [fst snd count firstAttempt].
    set (m4 := set m3 ip _).
    rewrite (attempt_counted m4 ip t5 _ (get_set _ _ _) H5 eq_refl).
    cbn [fst snd count firstAttempt].
    set (m5 := set m4 ip _).
    rewrite (attempt_refused m5 ip t6 _ (get_set _ _ _) H6).
    + reflexivity.
    + cbn [count]. discriminate.
Qed.

End LimiterFacts.

(* ================================================================== *)
(** ** Saving a garage *)
(* ================================================================== *)

Module SaveFacts.

Import Js Trimmed.

Lemma trim_day_idempotent d :
  Garage.trim_day (Garage.trim_day d) = Garage.trim_day d.
Proof.
  unfold Garage.trim_day. simpl.
  destruct (Garage.open d), (Garage.close d); simpl;
    now rewrite ?JsFacts.trim_idempotent.
Qed.

Lemma pre_save_idempotent g :
  Stats.countable g ->
  Garage.pre_save (Garage.pre_save g) = Garage.pre_save g.
Proof.
  intros [Ht Hd]. unfold Stats.total, Stats.done in *.
  unfold Garage.pre_save. simpl. rewrite !trim_day_idempotent.
  rewrite !(StatsFacts.whole_of_safe _ Ht), !(StatsFacts.whole_of_safe _ Hd).
  reflexivity.
Qed.

Lemma replace_replace {A} (key : A -> ObjectId) x l :
  replace key x (replace key x l) = replace key x l.
Proof.
  induction l as [|z l IH]; simpl; [reflexivity|].
  destruct (Nat.eqb (key z) (key x)) eqn:E; simpl.
  - now rewrite Nat.eqb_refl.
  - now rewrite E, IH.
Qed.

(** X24.  The pre-save hook of the garage model is idempotent on a
    garage whose counters are safe integers: it trims the opening and
    closing times of the white space of the language, the no-break space
    and the other Unicode spaces included, and trimming a trimmed time
    changes nothing; it reads each counter back from its string, which
    gives a safe integer again as itself.  After it [isActive] holds
    exactly for the status active.  So once such a garage has been
    saved, loading it and saving it again leaves the database as it is.
    Outside that range the hook does change a counter: 10^21, whose
    string is '1e+21', is read back as 1. *)
Theorem garage_save_is_idempotent :
  (forall g,
      Stats.countable g ->
      Garage.pre_save (Garage.pre_save g) = Garage.pre_save g)
  /\ (forall g, Garage.isActive (Garage.pre_save g) = true <->
                Garage.status g = Garage.active)
  /\ (forall db g g0 g1,
         Stats.countable g ->
         Garage_findById db (Garage._id g) = Some g0 ->
         Garage_findById (Garage_save db g) (Garage._id g) = Some g1 ->
         g1 = Garage.pre_save g
         /\ Garage_save (Garage_save db g) g1 = Garage_save db g)
  /\ Garage.whole (10 ^ 21) = 1
  /\ Garage.trim_day
       {| Garage.open := Some padded_opening; Garage.close := Some "18:00 ";
          Garage.closed := false |}
     = Sample.weekday_hours.
Proof.
  split; [exact pre_save_idempotent|]. split; [|split; [|split]].
  - intros g. simpl. destruct (Garage.status g); simpl; split;
      intros H; try reflexivity; discriminate.
  - intros db g g0 g1 Hc H0 H1.
    assert (E : Garage_findById (Garage_save db g) (Garage._id g)
                = Some (Garage.pre_save g)).
    { unfold Garage_findById, Garage_save. cbn [garages set_garages].
      exact (find_replace_same Garage._id (garages db) (Garage.pre_save g)
               g0 H0). }
    rewrite E in H1. injection H1 as <-. split; [reflexivity|].
    unfold Garage_save. cbn [garages set_garages].
    rewrite (pre_save_idempotent g Hc), replace_replace. reflexivity.
  - vm_compute. reflexivity.
  - vm_compute. reflexivity.
Qed.

End SaveFacts.

(* ================================================================== *)
(** ** The time slots offered for a service *)
(* ================================================================== *)

Module SlotListFacts.

Import ServiceCtl DaySlots.

Lemma every_minute_agrees : forallb agrees (seq 0 1440) = true.
Proof. vm_compute. reflexivity. Qed.

Lemma minute_agrees t :
  (t < 1440)%nat ->
  minutes_of (Clock.hhmm t) = Finite (Z.of_nat t)
  /\ timeStr (Z.of_nat t) = Clock.hhmm t.
Proof.
  intros H.
  assert (A : agrees t = true).
  { apply (proj1 (forallb_forall agrees (seq 0 1440)) every_minute_agrees).
    apply in_seq. lia. }
  unfold agrees in A. apply andb_prop in A. destruct A as [A1 A2].
  split.
  - destruct (minutes_of (Clock.hhmm t)); try discriminate.
    f_equal. now apply Z.eqb_eq.
  - now apply String.eqb_eq.
Qed.

(** The loop with a positive step: [n] more slots fit, then it stops. *)
Lemma slots_from_counts d e : 0 < d -> forall n cur fuel,
  ((0 < n)%nat -> cur + Z.of_nat n * d <= e) ->
  e < cur + (Z.of_nat n + 1) * d ->
  (n < fuel)%nat ->
  slots_from fuel cur d e
  = Some (map (fun k => timeStr (cur + Z.of_nat k * d)) (seq 0 n)).
Proof.
  intros Hd. induction n as [|n IH]; intros cur fuel Hn Hlt Hf.
  - destruct fuel as [|fuel]; [lia|]. simpl.
    replace (cur + d <=? e) with false by (symmetry; apply Z.leb_gt; lia).
    reflexivity.
  - destruct fuel as [|fuel]; [lia|]. cbn [slots_from].
    specialize (Hn ltac:(lia)).
    replace (cur + d <=? e) with true by (symmetry; apply Z.leb_le; nia).
    rewrite (IH (cur + d) fuel) by (try lia; nia).
    cbn [option_map seq map]. f_equal. f_equal.
    + f_equal. lia.
    + rewrite <- seq_shift, map_map. apply map_ext. intros k.
      f_equal. lia.
Qed.

(** The loop with a step of zero or less, once entered, is never left. *)
Lemma slots_from_diverges d e : d <= 0 -> forall fuel cur,
  cur + d <= e -> slots_from fuel cur d e = None.
Proof.
  intros Hd. induction fuel as [|fuel IH]; intros cur Hc; [reflexivity|].
  cbn [slots_from].
  replace (cur + d <=? e) with true by (symmetry; apply Z.leb_le; lia).
  rewrite IH by lia. reflexivity.
Qed.

Lemma starts_fit o c d s :
  (0 < d)%nat -> In s (starts o c d) -> (o <= s /\ s + d <= c)%nat.
Proof.
  intros Hd Hs.
  assert (Hdiv : ((c - o) / d * d <= c - o)%nat).
  { pose proof (Nat.div_mod_eq (c - o) d) as E. nia. }
  unfold starts in Hs. apply in_map_iff in Hs.
  destruct Hs as (k & <- & Hk). apply in_seq in Hk.
  split; [lia|]. nia.
Qed.

(** The slots of a day with a positive duration. *)
Lemma day_slots_returned o c d fuel :
  (o < 1440)%nat -> (c < 1440)%nat ->
  (0 < d)%nat -> ((c - o) / d < fuel)%nat ->
  generateTimeSlots fuel (Clock.hhmm o) (Clock.hhmm c) (Z.of_nat d)
  = Some (Returned (map Clock.hhmm (starts o c d))).
Proof.
  intros Ho Hc Hd Hfuel.
  destruct (minute_agrees o Ho) as [Mo _].
  destruct (minute_agrees c Hc) as [Mc _].
  assert (Hdiv : ((c - o) / d * d <= c - o < ((c - o) / d + 1) * d)%nat).
  { pose proof (Nat.div_mod_eq (c - o) d) as E.
    pose proof (Nat.mod_upper_bound (c - o) d ltac:(lia)) as B. nia. }
  unfold generateTimeSlots. rewrite Mo, Mc.
  destruct (Nat.le_gt_cases o c) as [Hle|Hgt].
  - rewrite (slots_from_counts (Z.of_nat d) (Z.of_nat c) ltac:(lia)
               ((c - o) / d) (Z.of_nat o) fuel); [|nia|nia|exact Hfuel].
    cbn [option_map]. f_equal. f_equal. unfold starts.
    rewrite map_map. apply map_ext_in. intros k Hk. apply in_seq in Hk.
    replace (Z.of_nat o + Z.of_nat k * Z.of_nat d)
      with (Z.of_nat (o + k * d)) by lia.
    apply minute_agrees. nia.
  - assert (E : ((c - o) / d = 0)%nat).
    { replace (c - o)%nat with 0%nat by lia. now apply Nat.Div0.div_0_l. }
    unfold starts. rewrite E in *.
    rewrite (slots_from_counts (Z.of_nat d) (Z.of_nat c) ltac:(lia)
               0%nat (Z.of_nat o) fuel); [reflexivity|lia|lia|lia].
Qed.

(** X25.  For opening and closing times in zero-padded HH:MM form and a
    positive duration [generateTimeSlots] returns, for any fuel above the
    number of slots: the starts are the opening time and every further
    multiple of the duration after it for which the whole duration still
    ends by the closing time, each rendered as HH:MM.  With a duration of
    zero or less and an opening time not after the closing time it never
    returns, whatever the fuel. *)
Theorem time_slots_of_a_day o c :
  (o < 1440)%nat -> (c < 1440)%nat ->
  (forall d fuel,
      (0 < d)%nat -> ((c - o) / d < fuel)%nat ->
      generateTimeSlots fuel (Clock.hhmm o) (Clock.hhmm c) (Z.of_nat d)
      = Some (Returned (map Clock.hhmm (starts o c d)))
      /\ forall s, In s (starts o c d) -> (o <= s /\ s + d <= c)%nat)
  /\ (forall d fuel,
         d <= 0 -> Z.of_nat o + d <= Z.of_nat c ->
         generateTimeSlots fuel (Clock.hhmm o) (Clock.hhmm c) d = None).
Proof.
  intros Ho Hc. split.
  - intros d fuel Hd Hfuel. split.
    + now apply day_slots_returned.
    + intros s. now apply starts_fit.
  - intros d fuel Hd Hle.
    destruct (minute_agrees o Ho) as [Mo _].
    destruct (minute_agrees c Hc) as [Mc _].
    unfold generateTimeSlots. rewrite Mo, Mc.
    now rewrite (slots_from_diverges d (Z.of_nat c) Hd fuel (Z.of_nat o) Hle).
Qed.

(** From 09:00 to 12:00 in steps of 45 minutes. *)
Lemma time_slots_of_a_day_witness :
  generateTimeSlots 10 "09:00" "12:00" 45
  = Some (Returned ["09:00"; "09:45"; "10:30"; "11:15"]).
Proof.
  refine (proj1 (proj1 (time_slots_of_a_day 540 720 _ _) 45%nat 10%nat _ _));
    vm_compute; lia.
Defined.

(** More fuel does not change what the loop returned. *)
Lemma slots_from_more d e : forall fuel cur l fuel',
  slots_from fuel cur d e = Some l -> (fuel <= fuel')%nat ->
  slots_from fuel' cur d e = Some l.
Proof.
  induction fuel as [|fuel IH]; intros cur l fuel' H Hle; [discriminate|].
  destruct fuel' as [|fuel']; [lia|]. cbn [slots_from] in *.
  destruct (cur + d <=? e); [|exact H].
  destruct (slots_from fuel (cur + d) d e) as [r|] eqn:E; [|discriminate].
  rewrite (IH (cur + d) r fuel' E) by lia. exact H.
Qed.

(** X27.  The calendar of a service and the availability query agree on
    zero-padded times: every start that [generateTimeSlots] returns for
    the opening hours of a day and a positive duration, taken as a slot of
    that duration, lies within the business hours as [checkAvailability]
    tests them and has exactly the duration of the service, so neither the
    hours check nor the duration check turns it down. *)
Theorem offered_slots_pass_availability o c d fuel slots x :
  (o < 1440)%nat -> (c < 1440)%nat -> (0 < d)%nat ->
  generateTimeSlots fuel (Clock.hhmm o) (Clock.hhmm c) (Z.of_nat d)
  = Some (Returned slots) ->
  In x slots ->
  exists s,
    x = Clock.hhmm s
    /\ let ts := {| start := Clock.hhmm s; end_ := Clock.hhmm (s + d) |} in
       BookingCtl.isWithinBusinessHours ts
         {| Garage.open := Some (Clock.hhmm o);
            Garage.close := Some (Clock.hhmm c);
            Garage.closed := false |} = true
       /\ BookingCtl.slotDuration ts = Some (Z.of_nat d)
       /\ Js.lt (BookingCtl.slotDuration ts) (Some (Z.of_nat d)) = false.
Proof.
  intros Ho Hc Hd Hret Hx.
  assert (E : slots = map Clock.hhmm (starts o c d)).
  { pose proof (day_slots_returned o c d (Nat.max fuel (S ((c - o) / d)))
                  Ho Hc Hd ltac:(lia)) as Hbig.
    destruct (minute_agrees o Ho) as [Mo _].
    destruct (minute_agrees c Hc) as [Mc _].
    unfold generateTimeSlots in Hret, Hbig. rewrite Mo, Mc in Hret, Hbig.
    destruct (slots_from fuel _ _ _) as [l|] eqn:El; [|discriminate].
    rewrite (slots_from_more _ _ _ _ _ (Nat.max fuel (S ((c - o) / d))) El)
      in Hbig by lia.
    cbn [option_map] in Hret, Hbig. congruence. }
  subst slots. apply in_map_iff in Hx. destruct Hx as (s & <- & Hs).
  destruct (starts_fit o c d s Hd Hs) as [Hlo Hhi].
  exists s. split; [reflexivity|]. cbn zeta.
  assert (Hdur : BookingCtl.slotDuration
                   {| start := Clock.hhmm s; end_ := Clock.hhmm (s + d) |}
                 = Some (Z.of_nat d)).
  { rewrite DurationFacts.slotDuration_minutes. cbn [start end_].
    rewrite !DurationFacts.minutes_hhmm by lia. cbn [Js.sub]. f_equal.
    rewrite JsFacts.minus_safe; unfold Js.two53; lia. }
  split; [|split; [exact Hdur|]].
  - unfold BookingCtl.isWithinBusinessHours, Js.ge, Js.le.
    cbn [start end_ Garage.open Garage.close].
    rewrite !ClockFacts.hhmm_js_leb by lia.
    apply andb_true_intro. split; apply Nat.leb_le; lia.
  - rewrite Hdur. simpl. apply Z.ltb_irrefl.
Qed.

Lemma offered_slots_pass_availability_witness :
  exists s,
    "10:30" = Clock.hhmm s
    /\ BookingCtl.slotDuration
         {| start := Clock.hhmm s; end_ := Clock.hhmm (s + 45) |}
       = Some 45.
Proof.
  destruct (offered_slots_pass_availability 540 720 45 10
              ["09:00"; "09:45"; "10:30"; "11:15"] "10:30")
    as (s & Hs & _ & Hd & _).
  - lia.
  - lia.
  - lia.
  - vm_compute. reflexivity.
  - simpl. auto.
  - exists s. split; [exact Hs|exact Hd].
Defined.

End SlotListFacts.

(* ================================================================== *)
(** ** The timeline of a soft-deleted booking *)
(* ================================================================== *)

Module TimelineFacts.

Import BookingCtl.

(** A soft delete answered 200 stored the booking with the flag set. *)
Lemma delete_marks i user now db b :
  Booking_findById db i = Some b ->
  code (fst (deleteBooking (AnId i) user now db)) = 200%nat ->
  Booking_findById (snd (deleteBooking (AnId i) user now db)) i
  = Some (Booking.set_isDeleted b true now).
Proof.
  intros Hb. unfold deleteBooking. rewrite Hb.
  destruct (Booking.isDeleted b); [discriminate|].
  destruct (negb _); [discriminate|].
  pose proof (find_by_id_key Booking._id _ _ _ Hb) as Hk.
  assert (E : Booking_findById
                (Booking_save db
                   {| Booking.paths := Booking.set_isDeleted b true now;
                      Booking.statusHistory := None;
                      Booking.deletedAt := Some now;
                      Booking.deletedBy := Some (id user) |}) i
              = Some (Booking.set_isDeleted b true now)).
  { unfold Booking_findById, Booking_save.
    cbn [bookings set_bookings Booking.paths]. subst i.
    exact (find_replace_same Booking._id (bookings db)
             (Booking.set_isDeleted b true now) b Hb). }
  destruct (Booking.Status_eqb (Booking.status b) Booking.completed).
  - destruct (Garage_findById _ _); [|discriminate].
    intros _. cbn [snd]. exact E.
  - intros _. cbn [snd]. exact E.
Qed.

(** X26.  A soft-deleted booking keeps its timeline.  After a soft delete
    answered 200 the booking is stored with [isDeleted] set, and status,
    cancel and delete requests for it are answered 404, yet
    [getBookingTimeline] still serves it to an admin: its query selects
    the fields without [isDeleted], so the test of the flag reads
    [undefined]. *)
Theorem timeline_survives_soft_delete i user now db b viewer :
  Booking_findById db i = Some b ->
  code (fst (deleteBooking (AnId i) user now db)) = 200%nat ->
  role viewer = admin ->
  let db' := snd (deleteBooking (AnId i) user now db) in
  (exists b', Booking_findById db' i = Some b'
              /\ Booking.isDeleted b' = true)
  /\ (exists l, getBookingTimeline (AnId i) viewer db' = inr l)
  /\ (forall req u t,
         status req <> "" ->
         updateBookingStatus (AnId i) req u t db'
         = (reply 404 "Booking not found", db'))
  /\ (forall u t,
         deleteBooking (AnId i) u t db'
         = (reply 404 "Booking not found", db')).
Proof.
  intros Hb H200 Hr db'.
  pose proof (delete_marks i user now db b Hb H200) as Hb'.
  fold db' in Hb'.
  split; [eexists; split; [exact Hb'|reflexivity]|].
  split; [|split].
  - unfold getBookingTimeline. rewrite Hb', Hr. cbn [Role_eqb negb].
    eexists. reflexivity.
  - intros req u t Hs. unfold updateBookingStatus.
    apply String.eqb_neq in Hs. rewrite Hs, Hb'. reflexivity.
  - intros u t. unfold deleteBooking. rewrite Hb'. reflexivity.
Qed.

(** Booking 1 of the sample database, deleted by its car owner. *)
Lemma timeline_survives_soft_delete_witness :
  exists l,
    getBookingTimeline (AnId 1%nat) Sample.admin30
      (snd (deleteBooking (AnId 1%nat) Sample.driver20 5000 Sample.db1))
    = inr l.
Proof.
  exact (proj1 (proj2
    (timeline_survives_soft_delete 1%nat Sample.driver20 5000 Sample.db1
       Sample.booking1 Sample.admin30 eq_refl eq_refl eq_refl))).
Defined.

End TimelineFacts.

(* ================================================================== *)
(** ** A notification for the payment of a verified garage *)
(* ================================================================== *)

Module RedeliveryFacts.

Import BookingCtl PaymentCtl Settlement.





End RedeliveryFacts.
